(** * mcuxeq: Microcontroller Command/Response Utility

    A shallow embedding of [mcuxeq.c] and the properties of its serial
    session engine: the timeout clock ([timeout_init], [timed_out]), the
    device acquirer ([ser_open]), the timed byte reader ([ser_getc]), the
    line assembler and prompt matcher ([ser_readline]), the command builder
    ([join_words]) and the session protocol (the body of [main]); and of
    what surrounds it: the reading of the command line ([usage], the
    first part of [main]) and the debug dump ([pr_hexdump], [mkprint]).

    Platform assumptions, as on the Linux LP64 targets the program is
    written for: [int] is 32 bits, [long] (hence [time_t] and
    [suseconds_t]) is 64 bits, conversions to a narrower signed type wrap
    modulo 2^w, [EAGAIN] = [EWOULDBLOCK] = 11 and [EBUSY] = 16. *)

From Stdlib Require Import ZArith String Ascii Bool Lia.
From Stdlib Require Import List.
From Stdlib Require Import DecimalString HexadecimalString.
Import ListNotations.
Local Open Scope Z_scope.

(** ** Characters and C strings *)

Definition NUL : ascii := "000"%char.
Definition LF : ascii := "010"%char.
Definition CR : ascii := "013"%char.
Definition SP : ascii := " "%char.

Definition chars (s : string) : list ascii := list_ascii_of_string s.

Definition code (c : ascii) : Z := Z.of_N (N_of_ascii c).

(** The C-string view of a [char] buffer: the bytes before the first NUL. *)
Fixpoint cstr (b : list ascii) : list ascii :=
  match b with
  | [] => []
  | c :: b' => if Ascii.eqb c NUL then [] else c :: cstr b'
  end.

Definition strlen (s : list ascii) : Z := Z.of_nat (length (cstr s)).

Fixpoint starts_with (p s : list ascii) : bool :=
  match p, s with
  | [], _ => true
  | _ :: _, [] => false
  | a :: p', b :: s' => Ascii.eqb a b && starts_with p' s'
  end.

(** [strstr haystack needle]: offset of the first occurrence of [needle]
    in [haystack], [None] for the C function's NULL. *)
Fixpoint strstr_from (off : nat) (h needle : list ascii) : option nat :=
  if starts_with needle h then Some off
  else match h with
       | [] => None
       | _ :: h' => strstr_from (S off) h' needle
       end.

Definition strstr (haystack needle : list ascii) : option nat :=
  strstr_from 0 (cstr haystack) (cstr needle).

(** <ctype.h> in the "C" locale (the program never calls setlocale). *)
Definition isprint (c : ascii) : bool := (32 <=? code c) && (code c <=? 126).

Definition isalnum (c : ascii) : bool :=
  ((48 <=? code c) && (code c <=? 57)) ||
  ((65 <=? code c) && (code c <=? 90)) ||
  ((97 <=? code c) && (code c <=? 122)).

(** ** Machine integers *)

Definition wrap (bits x : Z) : Z :=
  (x + 2 ^ (bits - 1)) mod 2 ^ bits - 2 ^ (bits - 1).

Definition to_int (x : Z) : Z := wrap 32 x.
Definition to_long (x : Z) : Z := wrap 64 x.

Definition INT_MAX : Z := 2147483647.

(** <stdlib.h> [div]: both arguments are [int]; quotient truncated toward
    zero. *)
Record div_t := { quot : Z; rem : Z }.

Definition div (numer denom : Z) : div_t :=
  {| quot := Z.quot (to_int numer) (to_int denom);
     rem := Z.rem (to_int numer) (to_int denom) |}.

(** ** printf conversions used by the program *)

Definition fmt_d (z : Z) : list ascii :=
  chars (DecimalString.NilZero.string_of_int (Z.to_int z)).

Definition fmt_x (width : nat) (z : Z) : list ascii :=
  let ds := chars (HexadecimalString.NilZero.string_of_uint
                     (N.to_hex_uint (Z.to_N z))) in
  repeat "0"%char (width - length ds) ++ ds.

(** ** Constants of the source *)

Definition DEFAULT_TIMEOUT_MS : Z := 2000.
Definition BUF_SIZE : nat := 64.
Definition LINE_SIZE : Z := 1024.
Definition RETRY_MS : Z := 200.

Definition EAGAIN : Z := 11.
Definition EBUSY : Z := 16.
Definition EINVAL : Z := 22.

Definition POLLIN : Z := 1.
Definition POLLERR : Z := 8.
Definition POLLHUP : Z := 16.

(** ** Options and compiled prompt *)

(** A compiled [regex_t] (compiled with REG_NOSUB) is represented by the
    set of C strings in which [regexec] finds a match. *)
Definition regex_t : Type := list ascii -> bool.

Definition REG_NOMATCH : Z := 1.

Definition regexec (preg : regex_t) (str : list ascii) : Z :=
  if preg (cstr str) then 0 else REG_NOMATCH.

(** DEFAULT_PROMPT, the basic regular expression
    [^[[:alnum:]]*[#$>] $], once compiled: the whole string is a run of
    alphanumerics, then one of [#], [$], [>], then one space. *)
Definition is_prompt_char (c : ascii) : bool :=
  Ascii.eqb c "#"%char || Ascii.eqb c "$"%char || Ascii.eqb c ">"%char.

Fixpoint DEFAULT_PROMPT (s : list ascii) : bool :=
  match s with
  | [] => false
  | c :: s' =>
      (is_prompt_char c &&
       match s' with [sp] => Ascii.eqb sp SP | _ => false end)
      || (isalnum c && DEFAULT_PROMPT s')
  end.

Record options := {
  opt_dev : list ascii;
  opt_timeout : Z;
  opt_debug : Z;
  opt_force : bool;
  regex_prompt : regex_t
}.

(** ** Time *)

Record timeval := { tv_sec : Z; tv_usec : Z }.

(** ** The environment: what the operating system answers *)

(** One attempt at [open] followed by [flock]: [open] fails with an errno,
    or yields a descriptor, on which [flock(LOCK_EX | LOCK_NB)] would
    succeed ([None]) or fail with an errno. *)
Inductive open_ev :=
| OpenErr (e : Z)
| Opened (fd : nat) (lock : option Z).

(** What the serial line delivers next.  [wait] is the time in
    milliseconds, counted from the moment [poll] is called, until the
    descriptor becomes readable. *)
Inductive dev_ev :=
| Burst (wait : Z) (bytes : list ascii)
| ReadErr (wait : Z) (e : Z)
| PollErr (e : Z).

Inductive write_ev :=
| WriteErr (e : Z)
| Wrote (k : nat).

(** Results of the terminal set-up calls: [None] for success, [Some e]
    for failure with errno [e]. *)
Record tty_ev := {
  tiocexcl : option Z;
  tcgetattr : option Z;
  tcsetattr : option Z;
  tcflush : option Z
}.

Record env := {
  clock : nat -> option timeval;   (* successive gettimeofday results *)
  clock_errno : nat -> Z;          (* the errno a failing gettimeofday sets *)
  capng : option Z;                (* capng_fill, capng_update, capng_apply:
                                      None when the capability is dropped,
                                      Some e when one of them fails, with
                                      the errno it leaves *)
  opens : nat -> open_ev;          (* successive open/flock attempts *)
  tty : tty_ev;
  wr : write_ev;
  strerror : Z -> list ascii
}.

(** ** Program state and observable effects *)

Record state := {
  dev : list dev_ev;       (* what the device has yet to deliver *)
  ticks : nat;             (* gettimeofday calls made so far *)
  attempts : nat;          (* open calls made so far *)
  errno : Z;
  buf : list ascii;        (* ser_getc: the valid bytes buf[0..n) *)
  pos : nat;               (* ser_getc: cursor into buf *)
  stdout : list ascii;
  stderr : list ascii;
  slept : list Z;          (* usleep calls, in microseconds *)
  sent : list ascii;       (* bytes written to the device *)
  cap_dropped : bool;      (* CAP_SYS_ADMIN dropped *)
  closed : bool
}.

Definition initial (d : list dev_ev) : state :=
  {| dev := d; ticks := 0; attempts := 0; errno := 0; buf := []; pos := 0;
     stdout := []; stderr := []; slept := []; sent := [];
     cap_dropped := false; closed := false |}.

Definition set_dev (d : list dev_ev) (s : state) : state :=
  {| dev := d; ticks := ticks s; attempts := attempts s; errno := errno s;
     buf := buf s; pos := pos s; stdout := stdout s; stderr := stderr s;
     slept := slept s; sent := sent s; cap_dropped := cap_dropped s;
     closed := closed s |}.

Definition set_ticks (n : nat) (s : state) : state :=
  {| dev := dev s; ticks := n; attempts := attempts s; errno := errno s;
     buf := buf s; pos := pos s; stdout := stdout s; stderr := stderr s;
     slept := slept s; sent := sent s; cap_dropped := cap_dropped s;
     closed := closed s |}.

Definition set_attempts (n : nat) (s : state) : state :=
  {| dev := dev s; ticks := ticks s; attempts := n; errno := errno s;
     buf := buf s; pos := pos s; stdout := stdout s; stderr := stderr s;
     slept := slept s; sent := sent s; cap_dropped := cap_dropped s;
     closed := closed s |}.

Definition set_errno (e : Z) (s : state) : state :=
  {| dev := dev s; ticks := ticks s; attempts := attempts s; errno := e;
     buf := buf s; pos := pos s; stdout := stdout s; stderr := stderr s;
     slept := slept s; sent := sent s; cap_dropped := cap_dropped s;
     closed := closed s |}.

Definition set_buf (b : list ascii) (s : state) : state :=
  {| dev := dev s; ticks := ticks s; attempts := attempts s; errno := errno s;
     buf := b; pos := pos s; stdout := stdout s; stderr := stderr s;
     slept := slept s; sent := sent s; cap_dropped := cap_dropped s;
     closed := closed s |}.

Definition set_pos (p : nat) (s : state) : state :=
  {| dev := dev s; ticks := ticks s; attempts := attempts s; errno := errno s;
     buf := buf s; pos := p; stdout := stdout s; stderr := stderr s;
     slept := slept s; sent := sent s; cap_dropped := cap_dropped s;
     closed := closed s |}.

Definition set_stdout (o : list ascii) (s : state) : state :=
  {| dev := dev s; ticks := ticks s; attempts := attempts s; errno := errno s;
     buf := buf s; pos := pos s; stdout := o; stderr := stderr s;
     slept := slept s; sent := sent s; cap_dropped := cap_dropped s;
     closed := closed s |}.

Definition set_stderr (o : list ascii) (s : state) : state :=
  {| dev := dev s; ticks := ticks s; attempts := attempts s; errno := errno s;
     buf := buf s; pos := pos s; stdout := stdout s; stderr := o;
     slept := slept s; sent := sent s; cap_dropped := cap_dropped s;
     closed := closed s |}.

Definition set_slept (l : list Z) (s : state) : state :=
  {| dev := dev s; ticks := ticks s; attempts := attempts s; errno := errno s;
     buf := buf s; pos := pos s; stdout := stdout s; stderr := stderr s;
     slept := l; sent := sent s; cap_dropped := cap_dropped s;
     closed := closed s |}.

Definition set_sent (l : list ascii) (s : state) : state :=
  {| dev := dev s; ticks := ticks s; attempts := attempts s; errno := errno s;
     buf := buf s; pos := pos s; stdout := stdout s; stderr := stderr s;
     slept := slept s; sent := l; cap_dropped := cap_dropped s;
     closed := closed s |}.

Definition set_cap_dropped (b : bool) (s : state) : state :=
  {| dev := dev s; ticks := ticks s; attempts := attempts s; errno := errno s;
     buf := buf s; pos := pos s; stdout := stdout s; stderr := stderr s;
     slept := slept s; sent := sent s; cap_dropped := b;
     closed := closed s |}.

Definition set_closed (b : bool) (s : state) : state :=
  {| dev := dev s; ticks := ticks s; attempts := attempts s; errno := errno s;
     buf := buf s; pos := pos s; stdout := stdout s; stderr := stderr s;
     slept := slept s; sent := sent s; cap_dropped := cap_dropped s;
     closed := b |}.

(** ** The monad of the embedding

    A computation either returns a value, or ends the process through
    [exit], or blocks forever inside a system call, or is still running
    when the fuel given to one of its loops is used up. *)
Inductive outcome (A : Type) : Type :=
| Ok (a : A) (s : state)
| Exited (status : Z) (s : state)
| Blocked (s : state)
| Spinning (s : state).

Arguments Ok {A} a s.
Arguments Exited {A} status s.
Arguments Blocked {A} s.
Arguments Spinning {A} s.

Definition M (A : Type) : Type := state -> outcome A.

Definition ret {A} (a : A) : M A := fun s => Ok a s.

Definition bind {A B} (m : M A) (k : A -> M B) : M B :=
  fun s =>
    match m s with
    | Ok a s' => k a s'
    | Exited st s' => Exited st s'
    | Blocked s' => Blocked s'
    | Spinning s' => Spinning s'
    end.

Notation "x <- m ;; k" := (bind m (fun x => k))
  (at level 61, m at next level, right associativity).
Notation "m ;;; k" := (bind m (fun _ => k))
  (at level 61, right associativity).

Definition gets {A} (f : state -> A) : M A := fun s => Ok (f s) s.
Definition modify (f : state -> state) : M unit := fun s => Ok tt (f s).
Definition exit {A} (status : Z) : M A := fun s => Exited status s.
Definition block {A} : M A := fun s => Blocked s.
Definition spin {A} : M A := fun s => Spinning s.

(** The status the parent process observes: [exit(-1)] is seen as 255. *)
Definition exit_status (status : Z) : Z := status mod 256.

(** ** Debug formatting: [mkprint] and the text of [pr_hexdump] *)

Definition mkprint (c : ascii) : ascii := if isprint c then c else "."%char.

(** The rows printed by [pr_hexdump(buf, len)], sixteen bytes a row. *)
Fixpoint hexdump_rows (fuel : nat) (off : Z) (b : list ascii) : list ascii :=
  match fuel, b with
  | S fuel', _ :: _ =>
      let row := firstn 16 b in
      let pad := (16 - length row)%nat in
      fmt_x 4 off ++ chars ":"
        ++ flat_map (fun c => SP :: fmt_x 2 (code c)) row
        ++ concat (repeat (chars "   ") pad)
        ++ chars " |"
        ++ map mkprint row
        ++ repeat SP pad
        ++ chars "|" ++ [LF]
        ++ hexdump_rows fuel' (off + 16) (skipn 16 b)
  | _, _ => []
  end.

(** ** What the reader has yet to return

    The bytes left in the read buffer followed by the bytes of the bursts
    the device has yet to deliver. *)
Definition burst_bytes (e : dev_ev) : list ascii :=
  match e with
  | Burst _ b => b
  | _ => []
  end.

Definition incoming (s : state) : list ascii :=
  skipn (pos s) (buf s) ++ flat_map burst_bytes (dev s).

(** ** join_words *)

Fixpoint join_from (i : nat) (words : list (list ascii)) : list ascii :=
  match words with
  | [] => []
  | w :: ws =>
      (match i with O => [] | S _ => [SP] end) ++ cstr w ++ join_from (S i) ws
  end.

(** Returns the command line (without its terminating NUL) and the length
    stored through [len_out].  The allocation of the few bytes of the
    line is taken to succeed. *)
Definition join_words (words : list (list ascii)) : list ascii * Z :=
  (join_from 0 words ++ [LF],
   fold_left (fun len w => len + (strlen w + 1)) words 0).

(** ** The program *)

Section Program.

Variable cfg : options.
Variable E : env.

Definition printf (text : list ascii) : M unit :=
  modify (fun s => set_stdout (stdout s ++ text) s).

Definition pr_debug (text : list ascii) : M unit :=
  if opt_debug cfg =? 0 then ret tt else printf text.

Definition pr_info (text : list ascii) : M unit := printf text.

Definition pr_err (text : list ascii) : M unit :=
  modify (fun s => set_stderr (stderr s ++ text) s).

Definition pr_hexdump (b : list ascii) (len : nat) : M unit :=
  printf (hexdump_rows len 0 (firstn len b)).

(** *** System calls, answered by the environment *)

Definition gettimeofday : M (option timeval) :=
  t <- gets ticks ;;
  modify (set_ticks (S t)) ;;;
  match clock E t with
  | Some tv => ret (Some tv)
  | None => modify (set_errno (clock_errno E t)) ;;; ret None
  end.

Definition sys_open (pathname : list ascii) : M Z :=
  k <- gets attempts ;;
  modify (set_attempts (S k)) ;;;
  match opens E k with
  | OpenErr e => modify (set_errno e) ;;; ret (-1)
  | Opened fd _ => ret (Z.of_nat fd)
  end.

(** [flock(fd, LOCK_EX | LOCK_NB)] on the descriptor of the attempt just
    made. *)
Definition sys_flock (fd : Z) : M Z :=
  k <- gets attempts ;;
  match opens E (Nat.pred k) with
  | Opened _ (Some e) => modify (set_errno e) ;;; ret (-1)
  | _ => ret 0
  end.

Definition usleep (usec : Z) : M unit :=
  modify (fun s => set_slept (slept s ++ [usec]) s).

Definition tty_call (answer : option Z) : M Z :=
  match answer with
  | None => ret 0
  | Some e => modify (set_errno e) ;;; ret (-1)
  end.

(** [poll(&pfd, 1, timeout)]: a negative timeout waits without bound, a
    timeout of zero returns at once, a positive one waits that many
    milliseconds.  Returns [res] and [pfd.revents]. *)
Definition sys_poll (timeout : Z) : M (Z * Z) :=
  d <- gets dev ;;
  match d with
  | [] => if timeout <? 0 then block else ret (0, 0)
  | PollErr e :: d' =>
      modify (set_dev d') ;;; modify (set_errno e) ;;; ret (-1, 0)
  | Burst wait bytes :: _ =>
      if (timeout <? 0) || (wait <=? timeout)
      then ret (1, match bytes with [] => POLLHUP | _ => POLLIN end)
      else ret (0, 0)
  | ReadErr wait _ :: _ =>
      if (timeout <? 0) || (wait <=? timeout)
      then ret (1, POLLERR)
      else ret (0, 0)
  end.

(** [read(fd, buf, sizeof(buf))] into the buffer of [ser_getc]: at most
    [BUF_SIZE] bytes of the burst at hand, the rest of it stays readable. *)
Definition sys_read (fd : Z) : M Z :=
  d <- gets dev ;;
  match d with
  | Burst _ bytes :: d' =>
      match bytes with
      | [] => modify (set_dev d') ;;; ret 0
      | _ :: _ =>
          let chunk := firstn BUF_SIZE bytes in
          let rest := skipn BUF_SIZE bytes in
          modify (set_dev (match rest with
                           | [] => d'
                           | _ :: _ => Burst 0 rest :: d'
                           end)) ;;;
          modify (set_buf chunk) ;;;
          ret (Z.of_nat (length chunk))
      end
  | ReadErr _ e :: d' =>
      modify (set_dev d') ;;; modify (set_errno e) ;;; ret (-1)
  | _ => block
  end.

Definition sys_write (fd : Z) (b : list ascii) (count : Z) : M Z :=
  match wr E with
  | WriteErr e => modify (set_errno e) ;;; ret (-1)
  | Wrote k =>
      let k' := Nat.min k (Z.to_nat count) in
      modify (fun s => set_sent (sent s ++ firstn k' b) s) ;;;
      ret (Z.of_nat k')
  end.

(** *** The timeout clock *)

Definition get_time : M timeval :=
  res <- gettimeofday ;;
  match res with
  | Some tv => ret tv
  | None =>
      e <- gets errno ;;
      pr_err (chars "Failed to get time: " ++ strerror E e ++ [LF]) ;;;
      exit (-1)
  end.

(** [timeout_init(&tv)]: the argument is the previous content of [*tv],
    the result its new content. *)
Definition timeout_init (tv : timeval) : M timeval :=
  if opt_timeout cfg <=? 0 then ret tv
  else
    now <- get_time ;;
    let usec := to_long (tv_usec now + to_int (opt_timeout cfg * 1000)) in
    if usec >=? 1000000 then
      let qr := div usec 1000000 in
      ret {| tv_sec := to_long (tv_sec now + quot qr); tv_usec := rem qr |}
    else ret {| tv_sec := tv_sec now; tv_usec := usec |}.

Definition timed_out (tv : timeval) : M bool :=
  if opt_timeout cfg <=? 0 then ret false
  else
    now <- get_time ;;
    ret ((tv_sec now >? tv_sec tv)
         || ((tv_sec now =? tv_sec tv) && (tv_usec now >? tv_usec tv))).

(** *** ser_open *)

(** The content of an automatic [struct timeval] before [timeout_init]. *)
Definition tv_unset : timeval := {| tv_sec := 0; tv_usec := 0 |}.

(** The [while (1)] loop of [ser_open]. *)
Fixpoint ser_open_loop (fuel : nat) (pathname : list ascii) (tv : timeval)
  : M Z :=
  match fuel with
  | O => spin
  | S fuel' =>
      fd <- sys_open pathname ;;
      locked <- (if fd >=? 0
                 then if opt_force cfg then ret true
                      else r <- sys_flock fd ;; ret (r =? 0)
                 else ret false) ;;
      if (locked : bool) then ret fd
      else
        e <- gets errno ;;
        giveup <- (if negb (e =? EBUSY) && negb (e =? EAGAIN) then ret true
                   else timed_out tv) ;;
        if (giveup : bool) then
          pr_err (chars "Failed to open " ++ pathname ++ chars ": "
                    ++ strerror E e ++ [LF]) ;;;
          exit (-1)
        else
          pr_debug (strerror E e ++ chars ", retrying" ++ [LF]) ;;;
          usleep (RETRY_MS * 1000) ;;;
          ser_open_loop fuel' pathname tv
  end.

(** The three capng calls: their results are not looked at, so a failure
    leaves the capability in place and the function goes on. *)
Definition drop_cap_sys_admin : M unit :=
  match capng E with
  | None => modify (set_cap_dropped true)
  | Some e => modify (set_errno e)
  end.

Definition ser_open (fuel : nat) (pathname : list ascii) : M Z :=
  (if negb (opt_force cfg) then drop_cap_sys_admin else ret tt) ;;;
  pr_debug (chars "Opening " ++ pathname ++ chars "..." ++ [LF]) ;;;
  tv <- timeout_init tv_unset ;;
  fd <- ser_open_loop fuel pathname tv ;;
  r <- tty_call (tiocexcl (tty E)) ;;
  if negb (r =? 0) then
    e <- gets errno ;;
    pr_err (chars "Failed to put terminal in exclusive mode: "
              ++ strerror E e ++ [LF]) ;;;
    exit (-1)
  else
  r <- tty_call (tcgetattr (tty E)) ;;
  if negb (r =? 0) then
    e <- gets errno ;;
    pr_err (chars "Failed to get terminal attributes: "
              ++ strerror E e ++ [LF]) ;;;
    exit (-1)
  else
  r <- tty_call (tcsetattr (tty E)) ;;
  if negb (r =? 0) then
    e <- gets errno ;;
    pr_err (chars "Failed to enable raw mode: " ++ strerror E e ++ [LF]) ;;;
    exit (-1)
  else
  r <- tty_call (tcflush (tty E)) ;;
  if negb (r =? 0) then
    e <- gets errno ;;
    pr_err (chars "Failed to flush: " ++ strerror E e ++ [LF]) ;;;
    exit (-1)
  else ret fd.

(** *** ser_getc *)

Definition ser_getc (fd : Z) : M ascii :=
  p <- gets pos ;;
  n <- gets (fun s => length (buf s)) ;;
  (if (n <=? p)%nat then
     pr <- sys_poll (opt_timeout cfg) ;;
     let res := fst pr in
     e <- gets errno ;;
     pr_debug (chars "poll() returned " ++ fmt_d res ++ chars " errno "
                 ++ fmt_d e ++ chars " revents 0x" ++ fmt_x 0 (snd pr)
                 ++ [LF]) ;;;
     if res <? 0 then
       e <- gets errno ;;
       pr_err (chars "Poll error: " ++ strerror E e ++ [LF]) ;;;
       exit (-1)
     else if res =? 0 then
       pr_err (chars "Timeout" ++ [LF]) ;;;
       exit (-1)
     else
       n <- sys_read fd ;;
       if n =? 0 then
         pr_err (chars "No data" ++ [LF]) ;;;
         exit (-1)
       else if n <? 0 then
         e <- gets errno ;;
         pr_err (chars "Read error: " ++ strerror E e ++ [LF]) ;;;
         exit (-1)
       else
         modify (set_pos 0) ;;;
         pr_debug (chars "Read " ++ fmt_d n ++ chars " bytes" ++ [LF]) ;;;
         if opt_debug cfg >? 1 then
           b <- gets buf ;;
           pr_hexdump b (Z.to_nat n)
         else ret tt
   else ret tt) ;;;
  p <- gets pos ;;
  b <- gets buf ;;
  modify (set_pos (S p)) ;;;
  ret (nth p b NUL).

(** *** ser_readline *)

(** The inner loop: [do c = ser_getc(fd); while (c == '\r')]. *)
Fixpoint ser_getc_skip_cr (fuel : nat) (fd : Z) : M ascii :=
  match fuel with
  | O => spin
  | S fuel' =>
      c <- ser_getc fd ;;
      if Ascii.eqb c CR then ser_getc_skip_cr fuel' fd else ret c
  end.

(** The outer loop, [line] being the content of [line[0..n)].  The result
    is [None] for the NULL returned when the prompt is seen and [Some line]
    for a completed line. *)
Fixpoint ser_readline_loop (fuel : nat) (fd : Z) (line : list ascii)
  : M (option (list ascii)) :=
  match fuel with
  | O => spin
  | S fuel' =>
      c <- ser_getc_skip_cr fuel fd ;;
      if Z.of_nat (length line) >=? LINE_SIZE - 1 then
        pr_err (chars "Line too long" ++ [LF]) ;;;
        exit (-1)
      else
        let line := line ++ [c] in
        if regexec (regex_prompt cfg) line =? 0 then
          pr_debug (chars "Prompt seen, end of data" ++ [LF]) ;;;
          ret None
        else if negb (Ascii.eqb c LF) then ser_readline_loop fuel' fd line
        else ret (Some line)
  end.

(** Every pass through either loop takes one byte off [incoming], so a
    fuel above its length is never used up. *)
Definition ser_readline (fd : Z) : M (option (list ascii)) :=
  fun s => ser_readline_loop (S (length (incoming s))) fd [] s.

(** *** main, from the call to [join_words] on *)

(** How one pass through a [while (1)] loop of [main] ends. *)
Inductive ctl := Break | Continue.

(** One pass through the loop waiting for the command echo. *)
Definition main_echo_body (fd : Z) (cmd : list ascii) (tv : timeval)
  : M ctl :=
  line <- ser_readline fd ;;
  match line with
  | Some l =>
      match strstr l cmd with
      | Some _ => ret Break
      | None =>
          late <- timed_out tv ;;
          if (late : bool) then
            pr_err (chars "Command echo not found" ++ [LF]) ;;;
            exit (-1)
          else
            pr_debug (chars "Ignoring " ++ cstr l) ;;;
            ret Continue
      end
  | None =>
      pr_err (chars "Command echo not found" ++ [LF]) ;;;
      exit (-1)
  end.

Fixpoint main_echo_loop (fuel : nat) (fd : Z) (cmd : list ascii)
    (tv : timeval) : M unit :=
  match fuel with
  | O => spin
  | S fuel' =>
      c <- main_echo_body fd cmd tv ;;
      match c with
      | Break => ret tt
      | Continue => main_echo_loop fuel' fd cmd tv
      end
  end.

(** One pass through the loop printing the response. *)
Definition main_response_body (fd : Z) (tv : timeval) : M ctl :=
  line <- ser_readline fd ;;
  match line with
  | None => ret Break
  | Some l =>
      late <- timed_out tv ;;
      if (late : bool) then
        pr_err (chars "Response too long" ++ [LF]) ;;;
        exit (-1)
      else
        printf (cstr l) ;;;
        ret Continue
  end.

Fixpoint main_response_loop (fuel : nat) (fd : Z) (tv : timeval) : M unit :=
  match fuel with
  | O => spin
  | S fuel' =>
      c <- main_response_body fd tv ;;
      match c with
      | Break => ret tt
      | Continue => main_response_loop fuel' fd tv
      end
  end.

(** [words] are [argv[1..argc)] once the options are parsed; [fuel] bounds
    the retries of [ser_open], the only loop that can run without end. *)
Definition main (fuel : nat) (words : list (list ascii)) : M unit :=
  let (cmd, len) := join_words words in
  fd <- ser_open fuel (opt_dev cfg) ;;
  pr_debug (chars "Sending command..." ++ [LF]) ;;;
  out <- sys_write fd cmd len ;;
  if out <? 0 then
    e <- gets errno ;;
    pr_err (chars "Write error: " ++ strerror E e ++ [LF]) ;;;
    exit (-1)
  else if out <? len then
    pr_err (chars "Short write " ++ fmt_d out ++ chars " < " ++ fmt_d len
              ++ [LF]) ;;;
    exit (-1)
  else
    pr_debug (chars "Waiting for command echo..." ++ [LF]) ;;;
    tv <- timeout_init tv_unset ;;
    k <- gets (fun s => S (length (incoming s))) ;;
    main_echo_loop k fd cmd tv ;;;
    pr_debug (chars "Command echo found." ++ [LF]) ;;;
    tv <- timeout_init tv ;;
    k <- gets (fun s => S (length (incoming s))) ;;
    main_response_loop k fd tv ;;;
    modify (set_closed true) ;;;
    exit 0.

End Program.

(** * Vocabulary of the statements *)

(** ** Outcomes *)

Definition final {A} (o : outcome A) : state :=
  match o with
  | Ok _ s => s
  | Exited _ s => s
  | Blocked s => s
  | Spinning s => s
  end.

Definition exited {A} (o : outcome A) : option Z :=
  match o with
  | Exited st _ => Some st
  | _ => None
  end.

Definition returned {A} (o : outcome A) : option A :=
  match o with
  | Ok a _ => Some a
  | _ => None
  end.

(** ** Points in time *)

Definition usec_of (tv : timeval) : Z := tv_sec tv * 1000000 + tv_usec tv.

Definition normalized (tv : timeval) : Prop := 0 <= tv_usec tv < 1000000.

(** [now] is strictly later than [tv], field by field as [timed_out]
    compares them. *)
Definition later (now tv : timeval) : bool :=
  (tv_sec now >? tv_sec tv)
  || ((tv_sec now =? tv_sec tv) && (tv_usec now >? tv_usec tv)).

(** The deadline [timeout_init] stores when the clock reads [now]. *)
Definition deadline (cfg : options) (now : timeval) : timeval :=
  let usec := to_long (tv_usec now + to_int (opt_timeout cfg * 1000)) in
  if usec >=? 1000000 then
    {| tv_sec := to_long (tv_sec now + quot (div usec 1000000));
       tv_usec := rem (div usec 1000000) |}
  else {| tv_sec := tv_sec now; tv_usec := usec |}.

(** ** The reader and the device *)

(** Nothing but the reader's own state, the device and (with debugging
    on) the standard output differs between [s] and [s']. *)
Definition only_read (cfg : options) (s s' : state) : Prop :=
  stderr s' = stderr s /\ ticks s' = ticks s /\ attempts s' = attempts s /\
  errno s' = errno s /\ slept s' = slept s /\ sent s' = sent s /\
  cap_dropped s' = cap_dropped s /\ closed s' = closed s /\
  (opt_debug cfg = 0 -> stdout s' = stdout s).

(** Each burst at hand is data that becomes readable within the budget
    passed to [poll]. *)
Definition ready (cfg : options) (e : dev_ev) : Prop :=
  match e with
  | Burst wait bytes =>
      bytes <> [] /\ (opt_timeout cfg < 0 \/ wait <= opt_timeout cfg)
  | _ => False
  end.

Definition readyb (cfg : options) (e : dev_ev) : bool :=
  match e with
  | Burst wait bytes =>
      negb (length bytes =? 0)%nat
      && ((opt_timeout cfg <? 0) || (wait <=? opt_timeout cfg))
  | _ => false
  end.

(** The device keeps delivering: every burst to come is ready in time. *)
Definition flowing (cfg : options) (s : state) : Prop :=
  forallb (readyb cfg) (dev s) = true.

(** How a read ends when nothing more is to come: it waits for ever when
    the budget is negative, and is a fatal "Timeout" otherwise. *)
Definition runs_dry {A} (cfg : options) (s : state) (o : outcome A) : Prop :=
  (opt_timeout cfg < 0 /\ exists s', o = Blocked s') \/
  (0 <= opt_timeout cfg /\
   exists s', o = Exited (-1) s' /\
              stderr s' = stderr s ++ chars "Timeout" ++ [LF]).

(** ** Lines and prompts *)

(** What [ser_readline] makes of a sequence of bytes, [line] being the
    line assembled so far: the loop of the source run over a list. *)
Inductive scanned :=
| SMore (line : list ascii)           (* the bytes end in mid-line *)
| SLong (rest : list ascii)           (* "Line too long" *)
| SPrompt (rest : list ascii)         (* prompt seen: NULL *)
| SLine (line rest : list ascii).     (* a completed line *)

Fixpoint scan (P : regex_t) (line bytes : list ascii) : scanned :=
  match bytes with
  | [] => SMore line
  | c :: rest =>
      if Ascii.eqb c CR then scan P line rest
      else if Z.of_nat (length line) >=? LINE_SIZE - 1 then SLong rest
      else if regexec P (line ++ [c]) =? 0 then SPrompt rest
      else if negb (Ascii.eqb c LF) then scan P (line ++ [c]) rest
      else SLine (line ++ [c]) rest
  end.

(** The bytes the assembler retains: all but the carriage returns. *)
Definition retained (bytes : list ascii) : list ascii :=
  filter (fun c => negb (Ascii.eqb c CR)) bytes.

(** [regexec] finds the prompt in the line held in the buffer. *)
Definition prompt_at (P : regex_t) (line : list ascii) : bool :=
  regexec P line =? 0.

(** The non-empty prefixes of a list, shortest first. *)
Fixpoint prefixes {A} (l : list A) : list (list A) :=
  match l with
  | [] => []
  | a :: l' => [a] :: map (cons a) (prefixes l')
  end.

(** No non-empty prefix of [l], put after [line], shows the prompt. *)
Definition prompt_free_from (P : regex_t) (line l : list ascii) : bool :=
  forallb (fun p => negb (prompt_at P (line ++ p))) (prefixes l).

Definition prompt_free (P : regex_t) (l : list ascii) : bool :=
  prompt_free_from P [] l.

Definition has (c : ascii) (l : list ascii) : bool := existsb (Ascii.eqb c) l.

(** The bytes [S0] leave the assembler in mid-line: none is a newline,
    no prefix of what is retained shows the prompt, and the line stays
    within the [LINE_SIZE - 1] bytes the buffer holds. *)
Definition midline (P : regex_t) (line S0 : list ascii) : Prop :=
  has LF S0 = false /\
  prompt_free_from P line (retained S0) = true /\
  (Z.of_nat (length line + length (retained S0)) <= LINE_SIZE - 1).

(** What [scan] decides, without the bytes left over. *)
Inductive verdict :=
| VMore (line : list ascii)
| VLong
| VPrompt
| VLine (line : list ascii).

Definition verdict_of (r : scanned) : verdict :=
  match r with
  | SMore l => VMore l
  | SLong _ => VLong
  | SPrompt _ => VPrompt
  | SLine l _ => VLine l
  end.

(** The fatal "Line too long" of a read started in state [s]. *)
Definition too_long {A} (s : state) (o : outcome A) : Prop :=
  exists s', o = Exited (-1) s' /\
             stderr s' = stderr s ++ chars "Line too long" ++ [LF].

(** ** The session *)

(** The state in which the echo wait gives up. *)
Definition echo_not_found (s : state) : state :=
  set_stderr (stderr s ++ chars "Command echo not found" ++ [LF]) s.

(** ** Attempts at opening the device *)

Definition busy_errno (e : Z) : bool := (e =? EBUSY) || (e =? EAGAIN).

(** The attempt fails because the device is busy or locked. *)
Definition attempt_busy (force : bool) (a : open_ev) : bool :=
  match a with
  | OpenErr e => busy_errno e
  | Opened _ (Some e) => negb force && busy_errno e
  | Opened _ None => false
  end.

(** The attempt yields the descriptor: the device opens and, unless
    forced, the lock is granted. *)
Definition attempt_ok (force : bool) (a : open_ev) : option nat :=
  match a with
  | OpenErr _ => None
  | Opened fd None => Some fd
  | Opened fd (Some _) => if force then Some fd else None
  end.

Definition attempt_errno (a : open_ev) : Z :=
  match a with
  | OpenErr e => e
  | Opened _ (Some e) => e
  | Opened _ None => 0
  end.

(** The deadline check made at clock reading [t] finds time left. *)
Definition in_time (cfg : options) (E : env) (tv : timeval) (t : nat) : bool :=
  (opt_timeout cfg <=? 0)
  || match clock E t with
     | Some now => negb (later now tv)
     | None => false
     end.

(** The deadline check made at clock reading [t] finds it expired. *)
Definition out_of_time (cfg : options) (E : env) (tv : timeval) (t : nat)
  : bool :=
  (0 <? opt_timeout cfg)
  && match clock E t with
     | Some now => later now tv
     | None => false
     end.

(** The first [k] attempts from state [s] on find the device busy, each
    with time left. *)
Definition busy_for (cfg : options) (E : env) (tv : timeval) (s : state)
    (k : nat) : bool :=
  forallb (fun j => attempt_busy (opt_force cfg) (opens E (attempts s + j))
                    && in_time cfg E tv (ticks s + j))
          (seq 0 k).

(** ** A run without incident *)

(** The state [pr_debug] leaves. *)
Definition debug_out (cfg : options) (text : list ascii) (s : state) : state :=
  if opt_debug cfg =? 0 then s else set_stdout (stdout s ++ text) s.

(** The terminal set-up calls all succeed. *)
Definition tty_ok (E : env) : bool :=
  match tiocexcl (tty E), tcgetattr (tty E), tcsetattr (tty E),
        tcflush (tty E) with
  | None, None, None, None => true
  | _, _, _, _ => false
  end.

(** The capng calls drop the capability. *)
Definition capng_ok (E : env) : bool :=
  match capng E with None => true | Some _ => false end.

(** The state after the first lines of [ser_open], where the capability
    is dropped unless forced. *)
Definition after_capng (cfg : options) (E : env) (s : state) : state :=
  if negb (opt_force cfg) then
    match capng E with
    | None => set_cap_dropped true s
    | Some e => set_errno e s
    end
  else s.

(** The clock can be read at reading [t], if it is read at all. *)
Definition clock_ok (cfg : options) (E : env) (t : nat) : bool :=
  (opt_timeout cfg <=? 0)
  || match clock E t with Some _ => true | None => false end.

(** The next clock reading once a deadline has been armed. *)
Definition tick (cfg : options) (t : nat) : nat :=
  if opt_timeout cfg <=? 0 then t else S t.

(** The clock of the round trip: with a positive budget, the four
    readings of the run can be made (arming the deadline of the open, of
    the echo wait and of the response, then the check after the response
    line), and the last does not pass the deadline of the response. *)
Definition round_trip_clock (cfg : options) (E : env) : bool :=
  (opt_timeout cfg <=? 0)
  || match clock E 0, clock E 1, clock E 2, clock E 3 with
     | Some _, Some _, Some t2, Some t3 => negb (later t3 (deadline cfg t2))
     | _, _, _, _ => false
     end.

(** ** Concrete options, environments and devices *)

(** The options the program starts from when only the device is given. *)
Definition default_options (device : list ascii) : options :=
  {| opt_dev := device; opt_timeout := DEFAULT_TIMEOUT_MS; opt_debug := 0;
     opt_force := false; regex_prompt := DEFAULT_PROMPT |}.

Definition with_timeout (ms : Z) (o : options) : options :=
  {| opt_dev := opt_dev o; opt_timeout := ms; opt_debug := opt_debug o;
     opt_force := opt_force o; regex_prompt := regex_prompt o |}.


Definition ttyACM0 : options := default_options (chars "/dev/ttyACM0").

(** An environment in which every call succeeds, with the given clock and
    answers to [open]. *)
Definition plain_env (clk : nat -> option timeval) (op : nat -> open_ev)
  : env :=
  {| clock := clk; clock_errno := fun _ => EINVAL; capng := None;
     opens := op;
     tty := {| tiocexcl := None; tcgetattr := None; tcsetattr := None;
               tcflush := None |};
     wr := Wrote 4096;
     strerror := fun e => chars "errno " ++ fmt_d e |}.

(** A clock that advances one millisecond per reading. *)
Definition ms_clock (t : nat) : option timeval :=
  Some {| tv_sec := 1700000000; tv_usec := 1000 * Z.of_nat t |}.

(** A clock stopped at [now]. *)
Definition stopped_clock (now : timeval) (t : nat) : option timeval :=
  Some now.

Definition free_device (t : nat) : open_ev := Opened 3 None.

(** A device locked by another process for the first two attempts. *)
Definition locked_twice (t : nat) : open_ev :=
  match t with
  | O | S O => Opened 3 (Some EAGAIN)
  | _ => Opened 3 None
  end.

Definition always_locked (t : nat) : open_ev := Opened 3 (Some EAGAIN).

Definition env_ok : env := plain_env ms_clock free_device.

(** The device answers the command "reset" after 5 ms. *)
Definition reset_session : list dev_ev :=
  [Burst 5 (chars "reset" ++ [LF]);
   Burst 1 (chars "OK" ++ [LF] ++ chars "mcu> ")].

(** The compiled form of a pattern made of a newline character followed
    by [$]: the string ends with a newline. *)
Definition newline_prompt : regex_t :=
  fun str => match rev str with
             | c :: _ => Ascii.eqb c LF
             | [] => false
             end.

Definition with_prompt (r : regex_t) (o : options) : options :=
  {| opt_dev := opt_dev o; opt_timeout := opt_timeout o;
     opt_debug := opt_debug o; opt_force := opt_force o;
     regex_prompt := r |}.

(** A clock that advances one second per reading. *)
Definition s_clock (t : nat) : option timeval :=
  Some {| tv_sec := 1700000000 + Z.of_nat t; tv_usec := 0 |}.

(** * Start-up: the command line

    [main] up to the call to [join_words]: the options, the environment
    and the compilation of the prompt.  What the C library answers is a
    parameter. *)

Definition MCUXEQ_DEV_ENV : list ascii := chars "MCUXEQ_DEV".
Definition MCUXEQ_PROMPT_ENV : list ascii := chars "MCUXEQ_PROMPT".

Definition DQUOTE : ascii := "034"%char.

(** The text of the macro DEFAULT_PROMPT; [DEFAULT_PROMPT] is what it
    compiles to. *)
Definition DEFAULT_PROMPT_text : list ascii := chars "^[[:alnum:]]*[#$>] $".

Record libc := {
  getprogname : list ascii;
  getenv : list ascii -> option (list ascii);
  atoi : list ascii -> Z;
  regcomp : list ascii -> regex_t + Z;   (* the compiled pattern, or the
                                            error code returned *)
  regerror : Z -> list ascii
}.

(** The option variables while the command line is read: [opt_dev] and
    [opt_prompt] start as NULL. *)
Record globals := {
  g_dev : option (list ascii);
  g_prompt : option (list ascii);
  g_timeout : Z;
  g_debug : Z;
  g_force : bool
}.

Definition globals0 : globals :=
  {| g_dev := None; g_prompt := None; g_timeout := DEFAULT_TIMEOUT_MS;
     g_debug := 0; g_force := false |}.

Definition set_g_dev (v : list ascii) (g : globals) : globals :=
  {| g_dev := Some v; g_prompt := g_prompt g; g_timeout := g_timeout g;
     g_debug := g_debug g; g_force := g_force g |}.

Definition set_g_prompt (v : list ascii) (g : globals) : globals :=
  {| g_dev := g_dev g; g_prompt := Some v; g_timeout := g_timeout g;
     g_debug := g_debug g; g_force := g_force g |}.

Definition set_g_timeout (t : Z) (g : globals) : globals :=
  {| g_dev := g_dev g; g_prompt := g_prompt g; g_timeout := t;
     g_debug := g_debug g; g_force := g_force g |}.

Definition set_g_debug (d : Z) (g : globals) : globals :=
  {| g_dev := g_dev g; g_prompt := g_prompt g; g_timeout := g_timeout g;
     g_debug := d; g_force := g_force g |}.

Definition set_g_force (g : globals) : globals :=
  {| g_dev := g_dev g; g_prompt := g_prompt g; g_timeout := g_timeout g;
     g_debug := g_debug g; g_force := true |}.

(** [!strcmp(a, b)]. *)
Fixpoint same_chars (a b : list ascii) : bool :=
  match a, b with
  | [], [] => true
  | x :: a', y :: b' => Ascii.eqb x y && same_chars a' b'
  | _, _ => false
  end.

Definition streq (a b : list ascii) : bool := same_chars (cstr a) (cstr b).

(** [a[0]], the terminating NUL for the empty string. *)
Definition first_char (a : list ascii) : ascii :=
  match cstr a with
  | c :: _ => c
  | [] => NUL
  end.

Definition usage_text (L : libc) : list ascii :=
  [LF]
  ++ getprogname L
  ++ chars ": [options] [--] <command> ..."
  ++ [LF]
  ++ [LF]
  ++ chars "Valid options are:"
  ++ [LF]
  ++ chars "    -h, --help              Display this usage information"
  ++ [LF]
  ++ chars "    -s, --device <dev>      Serial device to use"
  ++ [LF]
  ++ chars "                            (Default: value of $"
  ++ MCUXEQ_DEV_ENV
  ++ chars " if set)"
  ++ [LF]
  ++ chars "    -p, --prompt <prompt>   Expected prompt regex"
  ++ [LF]
  ++ chars "                            (Default: value of $"
  ++ MCUXEQ_PROMPT_ENV
  ++ chars " if set)"
  ++ [LF]
  ++ chars "                            (Default: "
  ++ [DQUOTE]
  ++ DEFAULT_PROMPT_text
  ++ [DQUOTE]
  ++ chars ")"
  ++ [LF]
  ++ chars "    -t, --timeout <ms>      Timeout value in milliseconds"
  ++ [LF]
  ++ chars "                            (Default: "
  ++ fmt_d DEFAULT_TIMEOUT_MS
  ++ chars ")"
  ++ [LF]
  ++ chars "    -d, --debug             Increase debug level"
  ++ [LF]
  ++ chars "    -f, --force             Force open when busy (needs CAP_SYS_ADMIN)"
  ++ [LF].

Definition usage (L : libc) {A : Type} : M A :=
  pr_err (usage_text L) ;;; exit 1.

(** The [while] loop over the options: [args] is [argv[1..argc)]; the
    result is the option variables and what is left of [argv[1..argc)]
    when the loop ends. *)
Fixpoint parse_options (L : libc) (g : globals) (args : list (list ascii))
  : M (globals * list (list ascii)) :=
  match args with
  | [] => ret (g, [])
  | a :: rest =>
      if negb (Ascii.eqb (first_char a) "-"%char) then ret (g, args)
      else if streq a (chars "-h") || streq a (chars "--help") then usage L
      else if streq a (chars "-d") || streq a (chars "--debug") then
        parse_options L (set_g_debug (to_int (g_debug g + 1)) g) rest
      else if streq a (chars "-f") || streq a (chars "--force") then
        parse_options L (set_g_force g) rest
      else if streq a (chars "--") then ret (g, rest)
      else
        match rest with
        | value :: rest' =>
            if streq a (chars "-s") || streq a (chars "--device") then
              parse_options L (set_g_dev value g) rest'
            else if streq a (chars "-p") || streq a (chars "--prompt") then
              parse_options L (set_g_prompt value g) rest'
            else if streq a (chars "-t") || streq a (chars "--timeout") then
              parse_options L (set_g_timeout (atoi L value) g) rest'
            else usage L
        | [] => usage L
        end
  end.

(** [main] from its first line to the compilation of the prompt: the
    options to run with and the command words. *)
Definition main_startup (L : libc) (args : list (list ascii))
  : M (options * list (list ascii)) :=
  r <- parse_options L globals0 args ;;
  let g := fst r in
  let words := snd r in
  let dev := match g_dev g with
             | Some d => Some d
             | None => getenv L MCUXEQ_DEV_ENV
             end in
  let prompt := match g_prompt g with
                | Some p => Some p
                | None => getenv L MCUXEQ_PROMPT_ENV
                end in
  let prompt := match prompt with
                | Some p => p
                | None => DEFAULT_PROMPT_text
                end in
  match dev, words with
  | Some d, _ :: _ =>
      match regcomp L prompt with
      | inl preg =>
          ret ({| opt_dev := d; opt_timeout := g_timeout g;
                  opt_debug := g_debug g; opt_force := g_force g;
                  regex_prompt := preg |}, words)
      | inr code =>
          pr_err (chars "Failed to compile prompt regex: "
                    ++ firstn 255 (cstr (regerror L code)) ++ [LF]) ;;;
          exit (-1)
      end
  | _, _ => usage L
  end.

(** The whole of [main], [args] being [argv[1..argc)]. *)
Definition main_argv (L : libc) (E : env) (fuel : nat)
    (args : list (list ascii)) : M unit :=
  r <- main_startup L args ;;
  main (fst r) E fuel (snd r).

(** [n] calls of [ser_getc] in a row. *)
Fixpoint ser_getc_n (cfg : options) (E : env) (n : nat) (fd : Z)
  : M (list ascii) :=
  match n with
  | O => ret []
  | S n' =>
      c <- ser_getc cfg E fd ;;
      cs <- ser_getc_n cfg E n' fd ;;
      ret (c :: cs)
  end.

(** * Further vocabulary *)

(** ** Frames: what a computation leaves as it was *)

(** Every outcome of [m], of whatever kind, leaves the part [f] of the
    state as it was. *)
Definition keeps {A B} (f : state -> B) (m : M A) : Prop :=
  forall s, f (final (m s)) = f s.

(** What no read changes: the clock readings made, the attempts at
    opening, the sleeps, the bytes sent, the capability and the
    descriptor, and the standard output unless debugging is on. *)
Definition beside_reading (cfg : options) (s : state) :=
  (ticks s, attempts s, slept s, sent s, cap_dropped s, closed s,
   if opt_debug cfg =? 0 then stdout s else []).

(** What the echo wait leaves alone: as above, but the clock only when
    the timeout is disabled. *)
Definition beside_echo (cfg : options) (s : state) :=
  (attempts s, slept s, sent s, cap_dropped s, closed s,
   if opt_debug cfg =? 0 then stdout s else [],
   if opt_timeout cfg <=? 0 then ticks s else O).

(** What the response loop leaves alone. *)
Definition beside_response (cfg : options) (s : state) :=
  (attempts s, slept s, sent s, cap_dropped s, closed s,
   if opt_timeout cfg <=? 0 then ticks s else O).

(** The clock readings made, as far as they matter when the timeout is
    disabled. *)
Definition clock_if_disabled (cfg : options) (s : state) : nat :=
  if opt_timeout cfg <=? 0 then ticks s else O.

(** ** Failing loudly *)

(** What a failure must leave as it was apart from the diagnostic. *)
Definition session_view (s : state) := (stderr s, closed s, sent s).

(** A non-empty diagnostic has been added to the standard error. *)
Definition complained (s s' : state) : Prop :=
  exists msg, msg <> [] /\ stderr s' = stderr s ++ msg.

(** [m] fails loudly: it exits only with status -1 and a diagnostic on
    the standard error, and otherwise leaves the standard error, the
    descriptor and the bytes sent alone; it blocks only if [may_block]. *)
Definition loud (may_block : bool) {A} (m : M A) : Prop :=
  forall s,
    match m s with
    | Exited st s' =>
        st = -1 /\ complained s s' /\ closed s' = closed s /\ sent s' = sent s
    | Blocked s' => may_block = true /\ session_view s' = session_view s
    | Ok _ s' | Spinning s' => session_view s' = session_view s
    end.

(** How the last part of a session may end: with status 0 and the
    descriptor closed, or as a loud failure, or blocked in a read. *)
Definition ends_well {A} (m : M A) : Prop :=
  forall s,
    match m s with
    | Ok _ _ => False
    | Exited st s' =>
        (st = 0 /\ stderr s' = stderr s /\ closed s' = true
         /\ sent s' = sent s) \/
        (st = -1 /\ complained s s' /\ closed s' = closed s
         /\ sent s' = sent s)
    | Blocked s' | Spinning s' => session_view s' = session_view s
    end.

(** [main] from the point where the command has been written in full. *)
Definition main_after_write (cfg : options) (E : env) (fd : Z)
    (cmd : list ascii) : M unit :=
  pr_debug cfg (chars "Waiting for command echo..." ++ [LF]) ;;;
  tv <- timeout_init cfg E tv_unset ;;
  k <- gets (fun s => S (length (incoming s))) ;;
  main_echo_loop cfg E k fd cmd tv ;;;
  pr_debug cfg (chars "Command echo found." ++ [LF]) ;;;
  tv <- timeout_init cfg E tv ;;
  k <- gets (fun s => S (length (incoming s))) ;;
  main_response_loop cfg E k fd tv ;;;
  modify (set_closed true) ;;;
  exit 0.

(** ** Streams of lines *)

(** The bytes [S0], followed by a newline, make a line that is returned as
    such: no newline inside, within the size of the line buffer, and the
    prompt is seen nowhere in it. *)
Definition plain_line (P : regex_t) (S0 : list ascii) : bool :=
  negb (has LF S0)
  && (Z.of_nat (length (retained S0)) <? LINE_SIZE - 1)
  && prompt_free P (retained S0 ++ [LF]).

(** The line [ser_readline] makes of the bytes [S0] and their newline. *)
Definition line_of (S0 : list ascii) : list ascii := retained S0 ++ [LF].

(** The bytes of lines on the wire, each ended by its newline. *)
Definition wire (Ss : list (list ascii)) : list ascii :=
  concat (map (fun S0 => S0 ++ [LF]) Ss).

(** What [printf("%s", line)] prints for each of the lines. *)
Definition printed (Ss : list (list ascii)) : list ascii :=
  concat (map (fun S0 => cstr (line_of S0)) Ss).

(** The [n] deadline checks made from clock reading [t] on all find time
    left. *)
Definition checks_in_time (cfg : options) (E : env) (tv : timeval)
    (t n : nat) : bool :=
  forallb (fun j => in_time cfg E tv (t + j)) (seq 0 n).

(** A line before the echo: a plain line in which the command is not
    found. *)
Definition noise_line (P : regex_t) (cmd S0 : list ascii) : bool :=
  plain_line P S0
  && match strstr (line_of S0) cmd with Some _ => false | None => true end.

(** ** More on the attempts at opening *)

(** The attempt fails for a reason other than the device being busy or
    locked. *)
Definition attempt_fatal (force : bool) (a : open_ev) : bool :=
  match attempt_ok force a with
  | Some _ => false
  | None => negb (busy_errno (attempt_errno a))
  end.

(** The text of the "Failed to open" diagnostic. *)
Definition failed_to_open (E : env) (path : list ascii) (e : Z) : list ascii :=
  chars "Failed to open " ++ path ++ chars ": " ++ strerror E e ++ [LF].

(** The loop of [ser_open] from the point where an attempt has failed
    with [errno] set. *)
Definition ser_open_failed (cfg : options) (E : env) (fuel : nat)
    (path : list ascii) (tv : timeval) : M Z :=
  e <- gets errno ;;
  giveup <- (if negb (e =? EBUSY) && negb (e =? EAGAIN) then ret true
             else timed_out cfg E tv) ;;
  if (giveup : bool) then
    pr_err (chars "Failed to open " ++ path ++ chars ": "
              ++ strerror E e ++ [LF]) ;;;
    exit (-1)
  else
    pr_debug cfg (strerror E e ++ chars ", retrying" ++ [LF]) ;;;
    usleep (RETRY_MS * 1000) ;;;
    ser_open_loop cfg E fuel path tv.

(** ** Command lines *)

(** The options the program knows; [long] tells which spelling is used. *)
Inductive opt :=
| ODebug (long : bool)
| OForce (long : bool)
| ODevice (long : bool) (value : list ascii)
| OPrompt (long : bool) (value : list ascii)
| OTimeout (long : bool) (value : list ascii).

(** The arguments an option takes up on the command line. *)
Definition render (o : opt) : list (list ascii) :=
  match o with
  | ODebug long => [if long then chars "--debug" else chars "-d"]
  | OForce long => [if long then chars "--force" else chars "-f"]
  | ODevice long v => [if long then chars "--device" else chars "-s"; v]
  | OPrompt long v => [if long then chars "--prompt" else chars "-p"; v]
  | OTimeout long v => [if long then chars "--timeout" else chars "-t"; v]
  end.

(** What the option does to the option variables. *)
Definition apply_opt (L : libc) (g : globals) (o : opt) : globals :=
  match o with
  | ODebug _ => set_g_debug (to_int (g_debug g + 1)) g
  | OForce _ => set_g_force g
  | ODevice _ v => set_g_dev v g
  | OPrompt _ v => set_g_prompt v g
  | OTimeout _ v => set_g_timeout (atoi L v) g
  end.

(** The value of the last option of a kind, if there is one. *)
Fixpoint last_value (sel : opt -> option (list ascii)) (os : list opt)
  : option (list ascii) :=
  match os with
  | [] => None
  | o :: os' =>
      match last_value sel os' with
      | Some v => Some v
      | None => sel o
      end
  end.

Definition device_value (o : opt) : option (list ascii) :=
  match o with ODevice _ v => Some v | _ => None end.

Definition prompt_value (o : opt) : option (list ascii) :=
  match o with OPrompt _ v => Some v | _ => None end.

Definition timeout_value (o : opt) : option (list ascii) :=
  match o with OTimeout _ v => Some v | _ => None end.

Definition is_debug (o : opt) : bool :=
  match o with ODebug _ => true | _ => false end.

Definition is_force (o : opt) : bool :=
  match o with OForce _ => true | _ => false end.

(** The first of two optional values that is there. *)
Definition or_else {A} (a b : option A) : option A :=
  match a with Some _ => a | None => b end.

(** The device the program settles on: the last [-s] of the command
    line, else the environment. *)
Definition device_choice (L : libc) (os : list opt) : option (list ascii) :=
  or_else (last_value device_value os) (getenv L MCUXEQ_DEV_ENV).

(** The prompt pattern the program settles on: the last [-p] of the
    command line, else the environment, else the default. *)
Definition prompt_choice (L : libc) (os : list opt) : list ascii :=
  match or_else (last_value prompt_value os) (getenv L MCUXEQ_PROMPT_ENV) with
  | Some p => p
  | None => DEFAULT_PROMPT_text
  end.

Definition timeout_choice (L : libc) (os : list opt) : Z :=
  match last_value timeout_value os with
  | Some v => atoi L v
  | None => DEFAULT_TIMEOUT_MS
  end.

(** What ends the options: nothing, before a word that does not start
    with a dash, or the argument [--]. *)
Definition ends_options (sep : list (list ascii)) (w : list ascii) : bool :=
  match sep with
  | [] => negb (Ascii.eqb (first_char w) "-"%char)
  | [dd] => streq dd (chars "--")
  | _ => false
  end.

(** The argument is one of the spellings of an option that takes a
    value. *)
Definition wants_value (a : list ascii) : bool :=
  streq a (chars "-s") || streq a (chars "--device")
  || streq a (chars "-p") || streq a (chars "--prompt")
  || streq a (chars "-t") || streq a (chars "--timeout").

(** The argument starts with a dash and is none of the options. *)
Definition unknown_option (a : list ascii) : bool :=
  Ascii.eqb (first_char a) "-"%char
  && negb (streq a (chars "-h") || streq a (chars "--help")
           || streq a (chars "-d") || streq a (chars "--debug")
           || streq a (chars "-f") || streq a (chars "--force")
           || streq a (chars "--") || wants_value a).

(** Command lines the program answers with its usage text. *)
Inductive rejected (L : libc) : list (list ascii) -> Prop :=
| asks_for_help os h rest :
    streq h (chars "-h") || streq h (chars "--help") = true ->
    rejected L (flat_map render os ++ h :: rest)
| value_missing os a :
    wants_value a = true ->
    rejected L (flat_map render os ++ [a])
| option_unknown os a rest :
    unknown_option a = true ->
    rejected L (flat_map render os ++ a :: rest)
| command_missing os sep :
    sep = [] \/ sep = [chars "--"] ->
    rejected L (flat_map render os ++ sep)
| device_missing os sep w ws :
    ends_options sep w = true ->
    device_choice L os = None ->
    rejected L (flat_map render os ++ sep ++ w :: ws).

(** The state in which [usage] ends the process. *)
Definition usage_shown (L : libc) (s : state) : state :=
  set_stderr (stderr s ++ usage_text L) s.

(** A C library for the examples: no environment variable is set,
    [atoi] reads unsigned decimal numbers, and [regcomp] knows the
    default pattern only. *)
Definition digit_value (c : ascii) : option Z :=
  if (48 <=? code c) && (code c <=? 57) then Some (code c - 48) else None.

Fixpoint atoi_from (acc : Z) (a : list ascii) : Z :=
  match a with
  | [] => acc
  | c :: a' =>
      match digit_value c with
      | Some d => atoi_from (10 * acc + d) a'
      | None => acc
      end
  end.

Definition plain_libc : libc :=
  {| getprogname := chars "mcuxeq";
     getenv := fun _ => None;
     atoi := atoi_from 0;
     regcomp := fun p => if same_chars p DEFAULT_PROMPT_text
                         then inl DEFAULT_PROMPT else inr 2;
     regerror := fun _ => chars "Invalid regular expression" |}.

(** The option variables once the options [os] are read. *)
Definition globals0_after (L : libc) (os : list opt) : globals :=
  fold_left (apply_opt L) os globals0.

(** How reading the options of [args] can end. *)
Definition parsed_from (L : libc) (args : list (list ascii)) (s : state)
    (o : outcome (globals * list (list ascii))) : Prop :=
  match o with
  | Ok r s' => s' = s /\ exists front, args = front ++ snd r
  | Exited st s' => st = 1 /\ s' = usage_shown L s
  | _ => False
  end.

(** The state in which a prompt pattern that does not compile ends the
    process. *)
Definition regex_refused (L : libc) (code : Z) (s : state) : state :=
  set_stderr (stderr s ++ chars "Failed to compile prompt regex: "
                ++ firstn 255 (cstr (regerror L code)) ++ [LF]) s.

(** ** The clock of a whole session *)

(** With a positive budget, the readings of a session that meets [n]
    lines before the echo and [m] lines of response: the deadlines of
    the open (reading 0), of the echo wait (reading 1) and of the
    response (reading [2 + n]) can be armed, the [n] lines before the
    echo are met before the second and the [m] lines of the response
    before the third. *)
Definition session_clock (cfg : options) (E : env) (n m : nat) : bool :=
  (opt_timeout cfg <=? 0)
  || match clock E 0, clock E 1, clock E (2 + n) with
     | Some _, Some t1, Some t2 =>
         checks_in_time cfg E (deadline cfg t1) 2 n
         && checks_in_time cfg E (deadline cfg t2) (3 + n) m
     | _, _, _ => false
     end.

(** ** The shape of a dump *)

(** A row of a dump: 72 printable characters and a newline. *)
Definition dump_row (r : list ascii) : Prop :=
  length r = 73%nat /\
  exists r0, r = r0 ++ [LF] /\ forallb isprint r0 = true.

(** ** More environments and devices for the examples *)

(** A clock that cannot be read. *)
Definition no_clock (t : nat) : option timeval := None.

Definition ENOENT : Z := 2.

(** A device locked by another process for two attempts, then gone. *)
Definition unplugged_after_two (t : nat) : open_ev :=
  match t with
  | O | S O => Opened 3 (Some EAGAIN)
  | _ => OpenErr ENOENT
  end.

Definition EPERM : Z := 1.

(** The same environment, with another answer of the capng calls. *)
Definition with_capng (a : option Z) (E : env) : env :=
  {| clock := clock E; clock_errno := clock_errno E; capng := a;
     opens := opens E; tty := tty E; wr := wr E; strerror := strerror E |}.

Definition with_wr (w : write_ev) (E : env) : env :=
  {| clock := clock E; clock_errno := clock_errno E; capng := capng E;
     opens := opens E; tty := tty E; wr := w; strerror := strerror E |}.

(** The device prints a line of its own, echoes the command "reset",
    answers with two lines and shows its prompt. *)
Definition chatty_session : list dev_ev :=
  [Burst 5 (chars "boot" ++ [LF] ++ chars "reset" ++ [LF]);
   Burst 1 (chars "OK" ++ [LF] ++ chars "done" ++ [LF] ++ chars "mcu> ")].

(** * Properties *)

(** ** Sequencing *)

Lemma bind_Ok {A B} (m : M A) (k : A -> M B) s b s' :
  bind m k s = Ok b s' ->
  exists a s1, m s = Ok a s1 /\ k a s1 = Ok b s'.
Proof.
  unfold bind. destruct (m s) as [a s1| | |]; try discriminate.
  intros H. exists a, s1. split; [reflexivity | exact H].
Qed.

Lemma bind_Exited {A B} (m : M A) (k : A -> M B) s st s' :
  bind m k s = Exited st s' ->
  m s = Exited st s' \/ exists a s1, m s = Ok a s1 /\ k a s1 = Exited st s'.
Proof.
  unfold bind. destruct (m s) as [a s1| | |]; try discriminate.
  - intros H. right. exists a, s1. split; [reflexivity | exact H].
  - intros H. left. injection H as -> ->. reflexivity.
Qed.

Lemma bind_Spinning {A B} (m : M A) (k : A -> M B) s s' :
  bind m k s = Spinning s' ->
  m s = Spinning s' \/ exists a s1, m s = Ok a s1 /\ k a s1 = Spinning s'.
Proof.
  unfold bind. destruct (m s) as [a s1| | |]; try discriminate.
  - intros H. right. exists a, s1. split; [reflexivity | exact H].
  - intros H. left. injection H as ->. reflexivity.
Qed.

Lemma bind_eq_Ok {A B} (m : M A) (k : A -> M B) s a s1 :
  m s = Ok a s1 -> bind m k s = k a s1.
Proof. unfold bind. intros ->. reflexivity. Qed.

Lemma bind_gets {A B} (f : state -> A) (k : A -> M B) s :
  bind (gets f) k s = k (f s) s.
Proof. reflexivity. Qed.

Lemma bind_assoc {A B C} (m : M A) (f : A -> M B) (g : B -> M C) s :
  bind (bind m f) g s = bind m (fun x => bind (f x) g) s.
Proof. unfold bind. destruct (m s); reflexivity. Qed.

Lemma bind_eq_Exited {A B} (m : M A) (k : A -> M B) s st s1 :
  m s = Exited st s1 -> bind m k s = Exited st s1.
Proof. unfold bind. intros ->. reflexivity. Qed.

(** ** The timeout clock *)

Lemma later_spec now tv :
  normalized now -> normalized tv ->
  later now tv = true <-> usec_of tv < usec_of now.
Proof.
  unfold normalized, later, usec_of. intros Hn Ht.
  rewrite orb_true_iff, andb_true_iff, !Z.gtb_lt, Z.eqb_eq. lia.
Qed.

Lemma to_int_small x : - 2147483648 <= x <= 2147483647 -> to_int x = x.
Proof.
  intros H. unfold to_int, wrap.
  change (2 ^ (32 - 1)) with 2147483648. change (2 ^ 32) with 4294967296.
  rewrite Z.mod_small; lia.
Qed.

Lemma to_long_small x :
  - 9223372036854775808 <= x <= 9223372036854775807 -> to_long x = x.
Proof.
  intros H. unfold to_long, wrap.
  change (2 ^ (64 - 1)) with 9223372036854775808.
  change (2 ^ 64) with 18446744073709551616.
  rewrite Z.mod_small; lia.
Qed.

Lemma timed_out_disabled cfg E tv s :
  opt_timeout cfg <= 0 -> timed_out cfg E tv s = Ok false s.
Proof.
  intros H. unfold timed_out.
  destruct (Z.leb_spec (opt_timeout cfg) 0); [reflexivity | lia].
Qed.

Lemma timed_out_enabled cfg E tv s now :
  0 < opt_timeout cfg -> clock E (ticks s) = Some now ->
  timed_out cfg E tv s = Ok (later now tv) (set_ticks (S (ticks s)) s).
Proof.
  intros H Hc. unfold timed_out.
  destruct (Z.leb_spec (opt_timeout cfg) 0); [lia |].
  unfold get_time, gettimeofday, bind, gets, modify, ret. simpl.
  rewrite Hc. reflexivity.
Qed.

Lemma timeout_init_disabled cfg E tv s :
  opt_timeout cfg <= 0 -> timeout_init cfg E tv s = Ok tv s.
Proof.
  intros H. unfold timeout_init.
  destruct (Z.leb_spec (opt_timeout cfg) 0); [reflexivity | lia].
Qed.

Lemma timeout_init_enabled cfg E tv s now :
  0 < opt_timeout cfg -> clock E (ticks s) = Some now ->
  timeout_init cfg E tv s = Ok (deadline cfg now) (set_ticks (S (ticks s)) s).
Proof.
  intros H Hc. unfold timeout_init, deadline.
  destruct (Z.leb_spec (opt_timeout cfg) 0); [lia |].
  unfold get_time, gettimeofday, bind, gets, modify, ret. simpl.
  rewrite Hc.
  destruct (_ >=? 1000000); reflexivity.
Qed.

(** While the sum of the microseconds fits an [int], the deadline is the
    time read plus the budget, with the carry in the seconds. *)
Lemma deadline_in_range cfg now :
  0 < opt_timeout cfg ->
  tv_usec now + opt_timeout cfg * 1000 <= INT_MAX ->
  normalized now ->
  - 2 ^ 62 <= tv_sec now <= 2 ^ 62 ->
  normalized (deadline cfg now) /\
  usec_of (deadline cfg now) = usec_of now + opt_timeout cfg * 1000.
Proof.
  unfold INT_MAX, normalized. intros Hpos Hfit Hn Hsec.
  change (2 ^ 62) with 4611686018427387904 in Hsec.
  unfold deadline, div.
  rewrite (to_int_small (opt_timeout cfg * 1000)) by lia.
  rewrite (to_long_small (tv_usec now + _)) by lia.
  set (u := tv_usec now + opt_timeout cfg * 1000) in *.
  destruct (Z.geb_spec u 1000000) as [Hge|Hlt].
  - cbn [quot rem]. rewrite (to_int_small u) by lia.
    rewrite (to_int_small 1000000) by lia.
    rewrite Z.quot_div_nonneg, Z.rem_mod_nonneg by lia.
    assert (Hq : 0 <= u / 1000000 <= 2148) by
      (split; [apply Z.div_pos; lia
              | apply Z.div_le_upper_bound; lia]).
    rewrite to_long_small by lia.
    unfold usec_of. cbn [tv_sec tv_usec].
    pose proof (Z.mod_pos_bound u 1000000 ltac:(lia)).
    pose proof (Z.div_mod u 1000000 ltac:(lia)).
    split; [lia |]. subst u. lia.
  - unfold usec_of. cbn [tv_sec tv_usec]. subst u. split; lia.
Qed.

(** The timeout clock while the microseconds fit an [int]: the deadline
    armed is the time read plus the budget, and [timed_out] is false
    when the budget is not positive and otherwise tells whether the time
    read is strictly later than the deadline. *)
Lemma timeout_clock_in_range cfg E tv s now :
  clock E (ticks s) = Some now ->
  normalized now ->
  - 2 ^ 62 <= tv_sec now <= 2 ^ 62 ->
  (0 < opt_timeout cfg ->
   tv_usec now + opt_timeout cfg * 1000 <= INT_MAX ->
   exists s', timeout_init cfg E tv s = Ok (deadline cfg now) s' /\
              normalized (deadline cfg now) /\
              usec_of (deadline cfg now)
              = usec_of now + opt_timeout cfg * 1000) /\
  (opt_timeout cfg <= 0 -> timed_out cfg E tv s = Ok false s) /\
  (0 < opt_timeout cfg ->
   exists s', timed_out cfg E tv s = Ok (later now tv) s' /\
              (normalized tv ->
               later now tv = true <-> usec_of tv < usec_of now)).
Proof.
  intros Hc Hn Hsec. split; [| split].
  - intros Hpos Hfit. eexists. split.
    + apply timeout_init_enabled; assumption.
    + apply deadline_in_range; assumption.
  - apply timed_out_disabled.
  - intros Hpos. eexists. split.
    + apply timed_out_enabled; assumption.
    + intros Htv. apply later_spec; assumption.
Qed.

(** ** The timed byte reader *)

Lemma only_read_refl cfg s : only_read cfg s s.
Proof. unfold only_read. tauto. Qed.

Lemma only_read_trans cfg s1 s2 s3 :
  only_read cfg s1 s2 -> only_read cfg s2 s3 -> only_read cfg s1 s3.
Proof.
  unfold only_read.
  intros (A1 & A2 & A3 & A4 & A5 & A6 & A7 & A8 & A9)
         (B1 & B2 & B3 & B4 & B5 & B6 & B7 & B8 & B9).
  repeat split; try congruence.
  intros Hd. rewrite B9, A9; auto.
Qed.

Lemma readyb_ready cfg e : readyb cfg e = true <-> ready cfg e.
Proof.
  destruct e as [wait bytes|wait e|e]; cbn; try (split; [discriminate | tauto]).
  rewrite andb_true_iff, orb_true_iff, negb_true_iff, Z.ltb_lt, Z.leb_le.
  destruct bytes; cbn; intuition congruence.
Qed.

Lemma flowing_Forall cfg s : flowing cfg s <-> Forall (ready cfg) (dev s).
Proof.
  unfold flowing. rewrite forallb_forall, Forall_forall.
  split; intros H x Hx; apply readyb_ready, H, Hx.
Qed.

Lemma timeout_is_not_too_long :
  chars "Timeout" ++ [LF] <> chars "Line too long" ++ [LF].
Proof. discriminate. Qed.

Lemma other_diagnostics_are_not_timeout (t : list ascii) :
  chars "Poll error: " ++ t <> chars "Timeout" ++ [LF] /\
  chars "No data" ++ [LF] <> chars "Timeout" ++ [LF] /\
  chars "Read error: " ++ t <> chars "Timeout" ++ [LF].
Proof. repeat split; discriminate. Qed.

#[local] Opaque BUF_SIZE chars fmt_d fmt_x hexdump_rows.

Ltac run :=
  unfold bind, gets, modify, ret, exit, block, spin, pr_err, pr_debug,
    pr_hexdump, printf; cbn.

Lemma ser_getc_buffered cfg E fd s :
  (pos s < length (buf s))%nat ->
  ser_getc cfg E fd s = Ok (nth (pos s) (buf s) NUL) (set_pos (S (pos s)) s).
Proof.
  intros H. unfold ser_getc. run.
  destruct (Nat.leb_spec (length (buf s)) (pos s)); [lia | reflexivity].
Qed.

Lemma skipn_nth_cons {A} (l : list A) (n : nat) (d : A) :
  (n < length l)%nat -> skipn n l = nth n l d :: skipn (S n) l.
Proof.
  revert n. induction l as [|a l IH]; intros [|n] H; simpl in *;
    try lia; try reflexivity.
  apply IH. lia.
Qed.

Lemma firstn_skipn_chunk (bytes : list ascii) :
  bytes <> [] ->
  exists c chunk, firstn BUF_SIZE bytes = c :: chunk /\
                  bytes = c :: chunk ++ skipn BUF_SIZE bytes.
Proof.
  intros H. destruct bytes as [|c bytes]; [congruence |].
  exists c, (firstn (Nat.pred BUF_SIZE) bytes). split; [reflexivity |].
  change (skipn BUF_SIZE (c :: bytes)) with (skipn (Nat.pred BUF_SIZE) bytes).
  rewrite firstn_skipn. reflexivity.
Qed.

(** A byte returned by [ser_getc] is the next incoming byte. *)
Lemma ser_getc_Ok cfg E fd s c s' :
  ser_getc cfg E fd s = Ok c s' ->
  incoming s = c :: incoming s' /\ only_read cfg s s'.
Proof.
  unfold ser_getc, incoming. run.
  destruct (Nat.leb_spec (length (buf s)) (pos s)) as [Hle|Hlt].
  - unfold sys_poll, sys_read. run.
    rewrite (skipn_all2 (buf s)) by exact Hle. cbn [app].
    destruct (dev s) as [|[wait bytes|wait e|e] d] eqn:Hdev; cbn.
    + destruct (opt_timeout cfg <? 0); cbn;
        destruct (opt_debug cfg =? 0); cbn; discriminate.
    + destruct ((opt_timeout cfg <? 0) || (wait <=? opt_timeout cfg)); cbn.
      2: destruct (opt_debug cfg =? 0); cbn; discriminate.
      destruct bytes as [|b bytes].
      * destruct (opt_debug cfg =? 0); cbn; rewrite Hdev; cbn; discriminate.
      * destruct (firstn_skipn_chunk (b :: bytes)) as (c0 & chunk & Hf & Hb);
          [discriminate |].
        remember (skipn BUF_SIZE (b :: bytes)) as rest eqn:Hrest.
        destruct (opt_debug cfg =? 0) eqn:Hd; cbn; rewrite Hdev; cbn;
          rewrite <- Hrest, Hf; cbn;
          destruct (opt_debug cfg >? 1) eqn:Hd1; cbn;
          intros H; injection H as <- <-; cbn;
          injection Hb as <- Hbytes; rewrite Hbytes;
          (split;
           [ f_equal; destruct rest; cbn; rewrite ?app_nil_r, <- ?app_assoc;
             reflexivity
           | unfold only_read; cbn; repeat split; try reflexivity;
             intros Hz; first [ reflexivity
                              | rewrite Hz in Hd; discriminate
                              | rewrite Hz in Hd1; discriminate ] ]).
    + destruct ((opt_timeout cfg <? 0) || (wait <=? opt_timeout cfg)); cbn;
        destruct (opt_debug cfg =? 0); cbn; rewrite ?Hdev; cbn; discriminate.
    + destruct (opt_debug cfg =? 0); cbn; discriminate.
  - intros H. injection H as <- <-. cbn.
    split; [| unfold only_read; cbn; tauto].
    rewrite (skipn_nth_cons (buf s) (pos s) NUL) by exact Hlt. reflexivity.
Qed.

Lemma flowing_dry cfg s :
  flowing cfg s -> incoming s = [] ->
  dev s = [] /\ (length (buf s) <= pos s)%nat.
Proof.
  unfold incoming. intros Hf Hi. apply flowing_Forall in Hf.
  apply app_eq_nil in Hi as [Hb Hd]. split.
  - destruct (dev s) as [|[w b|w e|e] d]; [reflexivity | | |];
      inversion Hf as [|x l Hr Hl]; subst; cbn in Hr; try contradiction.
    cbn in Hd. apply app_eq_nil in Hd as [Hd _]. tauto.
  - destruct (Nat.leb_spec (length (buf s)) (pos s)) as [H|H]; [exact H |].
    rewrite (skipn_nth_cons _ _ NUL H) in Hb. discriminate.
Qed.

Lemma ser_getc_dry cfg E fd s :
  flowing cfg s -> incoming s = [] ->
  runs_dry cfg s (ser_getc cfg E fd s).
Proof.
  intros Hf Hi. destruct (flowing_dry cfg s Hf Hi) as [Hd Hb].
  unfold runs_dry, ser_getc, sys_poll. run.
  destruct (Nat.leb_spec (length (buf s)) (pos s)) as [_|H]; [| lia].
  rewrite Hd.
  destruct (Z.ltb_spec (opt_timeout cfg) 0) as [Hneg|Hpos]; cbn.
  - left. split; [exact Hneg |]. eexists. reflexivity.
  - right. split; [exact Hpos |].
    destruct (opt_debug cfg =? 0); cbn; eexists; split; reflexivity.
Qed.

Lemma ser_getc_flowing cfg E fd s c rest :
  flowing cfg s -> incoming s = c :: rest ->
  exists s', ser_getc cfg E fd s = Ok c s' /\
             incoming s' = rest /\ flowing cfg s'.
Proof.
  intros Hf Hi.
  assert (Hex : exists c' s', ser_getc cfg E fd s = Ok c' s' /\ flowing cfg s').
  { destruct (Nat.leb_spec (length (buf s)) (pos s)) as [Hle|Hlt].
    - unfold incoming in Hi. rewrite skipn_all2 in Hi by exact Hle.
      cbn in Hi. apply flowing_Forall in Hf.
      unfold ser_getc, sys_poll, sys_read. run.
      destruct (Nat.leb_spec (length (buf s)) (pos s)) as [_|H]; [| lia].
      destruct (dev s) as [|[wait bytes|wait e|e] d] eqn:Hdev;
        [discriminate | | |];
        inversion Hf as [|x l Hr Hl]; subst; cbn in Hr; try contradiction.
      destruct Hr as [Hne Hw].
      assert (Hgo : (opt_timeout cfg <? 0) || (wait <=? opt_timeout cfg)
                    = true).
      { apply orb_true_iff. rewrite Z.ltb_lt, Z.leb_le. exact Hw. }
      rewrite Hgo. cbn.
      destruct bytes as [|b bytes]; [congruence |].
      destruct (firstn_skipn_chunk (b :: bytes)) as (c0 & chunk & Hc & Hb);
        [discriminate |].
      remember (skipn BUF_SIZE (b :: bytes)) as more eqn:Hmore.
      assert (Hfl : Forall (ready cfg)
                      match more with [] => d | _ :: _ => Burst 0 more :: d end).
      { destruct more; [exact Hl |]. constructor; [| exact Hl].
        cbn. split; [discriminate | lia]. }
      destruct (opt_debug cfg =? 0); cbn; rewrite Hdev; cbn;
        rewrite <- Hmore, Hc; cbn;
        destruct (opt_debug cfg >? 1); cbn;
        eexists; eexists;
        (split; [reflexivity | apply flowing_Forall; cbn; exact Hfl]).
    - rewrite ser_getc_buffered by exact Hlt.
      eexists; eexists. split; [reflexivity | exact Hf]. }
  destruct Hex as (c' & s' & Hrun & Hf').
  destruct (ser_getc_Ok _ _ _ _ _ _ Hrun) as [Hin _].
  rewrite Hi in Hin. injection Hin as <- ->.
  exists s'. auto.
Qed.

(** ** The line assembler *)

Lemma skip_cr_Ok cfg E fuel fd s c s' :
  ser_getc_skip_cr cfg E fuel fd s = Ok c s' ->
  c <> CR /\ only_read cfg s s' /\
  exists k, incoming s = repeat CR k ++ c :: incoming s'.
Proof.
  revert s. induction fuel as [|fuel IH]; intros s; cbn; [discriminate |].
  intros H. apply bind_Ok in H as (c0 & s1 & Hg & Hk).
  apply ser_getc_Ok in Hg as [Hin Hro].
  destruct (Ascii.eqb_spec c0 CR) as [->|Hne].
  - apply IH in Hk as (Hc & Hro' & k & Hk).
    split; [exact Hc |]. split; [eapply only_read_trans; eauto |].
    exists (S k). rewrite Hin, Hk. reflexivity.
  - injection Hk as <- <-. split; [exact Hne |]. split; [exact Hro |].
    exists O. exact Hin.
Qed.

Lemma skip_cr_flowing cfg E fuel fd s k c rest :
  flowing cfg s -> incoming s = repeat CR k ++ c :: rest -> c <> CR ->
  (k < fuel)%nat ->
  exists s', ser_getc_skip_cr cfg E fuel fd s = Ok c s' /\
             incoming s' = rest /\ flowing cfg s'.
Proof.
  revert s k. induction fuel as [|fuel IH]; intros s k Hf Hi Hc Hk; [lia |].
  cbn [ser_getc_skip_cr]. destruct k as [|k]; cbn in Hi.
  - destruct (ser_getc_flowing cfg E fd s _ _ Hf Hi) as (s' & Hg & Hi' & Hf').
    rewrite (bind_eq_Ok _ _ _ _ _ Hg).
    destruct (Ascii.eqb_spec c CR); [contradiction |].
    exists s'. auto.
  - destruct (ser_getc_flowing cfg E fd s _ _ Hf Hi) as (s1 & Hg & Hi' & Hf').
    rewrite (bind_eq_Ok _ _ _ _ _ Hg). rewrite Ascii.eqb_refl.
    apply (IH s1 k); auto. lia.
Qed.

Lemma runs_dry_stderr {A} cfg s1 s2 (o : outcome A) :
  stderr s2 = stderr s1 -> runs_dry cfg s2 o -> runs_dry cfg s1 o.
Proof. unfold runs_dry. intros ->. tauto. Qed.

Lemma runs_dry_bind {A B} cfg s (m : M A) (k : A -> M B) :
  runs_dry cfg s (m s) -> runs_dry cfg s (bind m k s).
Proof.
  unfold runs_dry, bind. intros [[Hn [s' ->]]|[Hp (s' & -> & He)]].
  - left. eauto.
  - right. eauto.
Qed.

Lemma skip_cr_dry cfg E fuel fd s k :
  flowing cfg s -> incoming s = repeat CR k -> (k < fuel)%nat ->
  runs_dry cfg s (ser_getc_skip_cr cfg E fuel fd s).
Proof.
  revert s k. induction fuel as [|fuel IH]; intros s k Hf Hi Hk; [lia |].
  cbn [ser_getc_skip_cr]. destruct k as [|k]; cbn in Hi.
  - apply runs_dry_bind. apply ser_getc_dry; assumption.
  - destruct (ser_getc_flowing cfg E fd s _ _ Hf Hi) as (s1 & Hg & Hi' & Hf').
    rewrite (bind_eq_Ok _ _ _ _ _ Hg). rewrite Ascii.eqb_refl.
    apply ser_getc_Ok in Hg as [_ Hro].
    apply (runs_dry_stderr cfg s s1); [apply Hro |].
    apply (IH s1 k); auto. lia.
Qed.

Lemma scan_repeat_cr P line k bytes :
  scan P line (repeat CR k ++ bytes) = scan P line bytes.
Proof. induction k as [|k IH]; cbn; [reflexivity | exact IH]. Qed.

Lemma leading_cr (l : list ascii) :
  exists k tail, l = repeat CR k ++ tail /\ (k <= length l)%nat /\
    (tail = [] \/ exists c rest, tail = c :: rest /\ c <> CR).
Proof.
  induction l as [|a l (k & tail & Hl & Hk & Ht)].
  - exists O, []. cbn. auto.
  - destruct (Ascii.eqb_spec a CR) as [->|Hne].
    + exists (S k), tail. cbn. rewrite <- Hl. split; [reflexivity |].
      split; [lia | exact Ht].
    + exists O, (a :: l). cbn. split; [reflexivity |]. split; [lia |].
      right. eauto.
Qed.

(** Soundness: whatever the device does, a result of the loop is the one
    [scan] finds in the incoming bytes. *)
Lemma readline_loop_Ok cfg E fuel fd line s r s' :
  ser_readline_loop cfg E fuel fd line s = Ok r s' ->
  only_read cfg s s' /\
  scan (regex_prompt cfg) line (incoming s)
  = match r with
    | None => SPrompt (incoming s')
    | Some l => SLine l (incoming s')
    end.
Proof.
  revert line s. induction fuel as [|fuel IH]; intros line s; [discriminate |].
  cbn [ser_readline_loop]. intros H.
  apply bind_Ok in H as (c & s1 & Hg & Hk).
  apply skip_cr_Ok in Hg as (Hc & Hro & k & Hin).
  rewrite Hin, scan_repeat_cr. cbn [scan].
  destruct (Ascii.eqb_spec c CR) as [|_]; [contradiction |].
  destruct (Z.of_nat (length line) >=? LINE_SIZE - 1); [discriminate |].
  destruct (regexec (regex_prompt cfg) (line ++ [c]) =? 0).
  - unfold pr_debug in Hk.
    destruct (Z.eqb_spec (opt_debug cfg) 0) as [Hd|Hd];
      cbn in Hk; injection Hk as <- <-.
    + split; [exact Hro | reflexivity].
    + split; [| reflexivity].
      eapply only_read_trans; [exact Hro |].
      unfold only_read; cbn. repeat split; try reflexivity. tauto.
  - destruct (Ascii.eqb c LF); cbn [negb] in *.
    + injection Hk as <- <-. split; [exact Hro | reflexivity].
    + apply IH in Hk as [Hro' Hs]. split; [| exact Hs].
      eapply only_read_trans; eauto.
Qed.

Lemma readline_loop_long s1 :
  exists s',
    (pr_err (chars "Line too long" ++ [LF]) ;;; exit (-1)) s1
      = (Exited (-1) s' : outcome (option (list ascii))) /\
    stderr s' = stderr s1 ++ chars "Line too long" ++ [LF] /\
    stdout s' = stdout s1 /\ incoming s' = incoming s1.
Proof. eexists. run. repeat split. Qed.

(** Completeness: while the device keeps delivering, the loop ends the way
    [scan] says. *)
Lemma readline_loop_flowing cfg E fuel fd line s :
  flowing cfg s -> (length (incoming s) < fuel)%nat ->
  match scan (regex_prompt cfg) line (incoming s) with
  | SMore _ => runs_dry cfg s (ser_readline_loop cfg E fuel fd line s)
  | SLong rest =>
      exists s', ser_readline_loop cfg E fuel fd line s = Exited (-1) s' /\
                 stderr s' = stderr s ++ chars "Line too long" ++ [LF] /\
                 (opt_debug cfg = 0 -> stdout s' = stdout s) /\
                 incoming s' = rest
  | SPrompt rest =>
      exists s', ser_readline_loop cfg E fuel fd line s = Ok None s' /\
                 incoming s' = rest /\ flowing cfg s'
  | SLine l rest =>
      exists s', ser_readline_loop cfg E fuel fd line s = Ok (Some l) s' /\
                 incoming s' = rest /\ flowing cfg s'
  end.
Proof.
  revert line s. induction fuel as [|fuel IH]; intros line s Hf Hlen; [lia |].
  cbn [ser_readline_loop].
  destruct (leading_cr (incoming s)) as (k & tail & Hin & Hk & Ht).
  assert (Hs : scan (regex_prompt cfg) line (incoming s)
               = scan (regex_prompt cfg) line tail)
    by (rewrite Hin; apply scan_repeat_cr).
  rewrite Hs. clear Hs.
  destruct Ht as [->|(c & rest & -> & Hc)].
  - cbn [scan]. apply runs_dry_bind.
    rewrite app_nil_r in Hin. eapply skip_cr_dry; eauto. lia.
  - destruct (skip_cr_flowing cfg E (S fuel) fd s k c rest Hf Hin Hc)
      as (s1 & Hg & Hi1 & Hf1); [lia |].
    rewrite (bind_eq_Ok _ _ _ _ _ Hg).
    destruct (skip_cr_Ok _ _ _ _ _ _ _ Hg) as (_ & Hro & _).
    cbn [scan].
    destruct (Ascii.eqb_spec c CR) as [|_]; [contradiction |].
    destruct (Z.of_nat (length line) >=? LINE_SIZE - 1).
    { destruct (readline_loop_long s1) as (s' & Hr & He & Ho & Hi).
      exists s'. split; [exact Hr |].
      destruct Hro as (R1 & _ & _ & _ & _ & _ & _ & _ & R9).
      split; [congruence |]. split; [| congruence].
      intros Hd. rewrite Ho. auto. }
    destruct (regexec (regex_prompt cfg) (line ++ [c]) =? 0).
    { unfold pr_debug.
      destruct (opt_debug cfg =? 0); cbn; eexists;
        (split; [reflexivity | cbn; split; assumption]). }
    destruct (Ascii.eqb c LF); cbn [negb].
    { exists s1. auto. }
    assert (Hlen1 : (length (incoming s1) < fuel)%nat).
    { rewrite Hin, length_app in Hlen. cbn in Hlen. rewrite Hi1. lia. }
    specialize (IH (line ++ [c]) s1 Hf1 Hlen1). rewrite Hi1 in IH.
    destruct (scan (regex_prompt cfg) (line ++ [c]) rest);
      try exact IH.
    + eapply runs_dry_stderr; [apply Hro | exact IH].
    + destruct IH as (s' & Hr & He & Ho & Hi). exists s'.
      destruct Hro as (R1 & _ & _ & _ & _ & _ & _ & _ & R9).
      split; [exact Hr |]. split; [congruence |]. split; [| exact Hi].
      intros Hd. rewrite Ho, R9; auto.
Qed.

(** ** Prefixes and retained bytes *)

Lemma in_prefixes {A} (l p : list A) :
  In p (prefixes l) <-> p <> [] /\ exists q, l = p ++ q.
Proof.
  revert p. induction l as [|a l IH]; intros p; cbn.
  - split; [tauto |]. intros [Hp [q Hq]]. symmetry in Hq.
    apply app_eq_nil in Hq as [-> _]. congruence.
  - rewrite in_map_iff. split.
    + intros [<-|(p' & <- & Hin)].
      * split; [discriminate | exists l; reflexivity].
      * apply IH in Hin as [_ [q ->]]. split; [discriminate |].
        exists q. reflexivity.
    + intros [Hp [q Hq]]. destruct p as [|b p]; [congruence |].
      injection Hq as <- ->. destruct p as [|b' p]; [left; reflexivity |].
      right. exists (b' :: p). split; [reflexivity |].
      apply IH. split; [discriminate | exists q; reflexivity].
Qed.

Lemma prompt_free_from_spec P line l :
  prompt_free_from P line l = true <->
  forall p q, l = p ++ q -> p <> [] -> prompt_at P (line ++ p) = false.
Proof.
  unfold prompt_free_from. rewrite forallb_forall. split.
  - intros H p q Hl Hp. apply negb_true_iff, H, in_prefixes. eauto.
  - intros H p Hin. apply in_prefixes in Hin as [Hp [q Hq]].
    apply negb_true_iff. eauto.
Qed.

Lemma prompt_free_spec P l :
  prompt_free P l = true <->
  forall p q, l = p ++ q -> p <> [] -> prompt_at P p = false.
Proof. apply prompt_free_from_spec. Qed.

Lemma forallb_map_comp {A B} (f : B -> bool) (g : A -> B) (l : list A) :
  forallb f (map g l) = forallb (fun x => f (g x)) l.
Proof. induction l as [|a l IH]; cbn; [reflexivity | now rewrite IH]. Qed.

Lemma forallb_pointwise {A} (f g : A -> bool) (l : list A) :
  (forall x, f x = g x) -> forallb f l = forallb g l.
Proof.
  intros H. induction l as [|a l IH]; cbn; [reflexivity |].
  now rewrite H, IH.
Qed.

Lemma prompt_free_from_cons P line a l :
  prompt_free_from P line (a :: l) =
  negb (prompt_at P (line ++ [a])) && prompt_free_from P (line ++ [a]) l.
Proof.
  unfold prompt_free_from. cbn [prefixes forallb]. f_equal.
  rewrite forallb_map_comp. apply forallb_pointwise. intros p.
  rewrite <- app_assoc. reflexivity.
Qed.

Lemma prompt_free_from_app P line l1 l2 :
  prompt_free_from P line (l1 ++ l2) =
  prompt_free_from P line l1 && prompt_free_from P (line ++ l1) l2.
Proof.
  revert line. induction l1 as [|a l1 IH]; intros line.
  - rewrite app_nil_r. reflexivity.
  - cbn [app]. rewrite !prompt_free_from_cons, IH, <- app_assoc, andb_assoc.
    reflexivity.
Qed.

Lemma has_false c l : has c l = false <-> ~ In c l.
Proof.
  unfold has. split.
  - intros H Hin. assert (existsb (Ascii.eqb c) l = true); [| congruence].
    apply existsb_exists. exists c. split; [exact Hin | apply Ascii.eqb_refl].
  - intros H. destruct (existsb (Ascii.eqb c) l) eqn:Hx; [| reflexivity].
    apply existsb_exists in Hx as (x & Hin & Hx).
    apply Ascii.eqb_eq in Hx. subst. contradiction.
Qed.

Lemma retained_app l1 l2 : retained (l1 ++ l2) = retained l1 ++ retained l2.
Proof. apply filter_app. Qed.

Lemma retained_no_cr l : ~ In CR (retained l).
Proof.
  unfold retained. intros H. apply filter_In in H as [_ H].
  rewrite Ascii.eqb_refl in H. discriminate.
Qed.

(** With a negative budget nothing times out: the deadline checks say
    no, and no exit of [ser_getc] is a "Timeout". *)
Lemma negative_budget_never_times_out cfg E fd tv s :
  opt_timeout cfg < 0 ->
  timed_out cfg E tv s = Ok false s /\
  forall st s',
    ser_getc cfg E fd s = Exited st s' ->
    stderr s' <> stderr s ++ chars "Timeout" ++ [LF].
Proof.
  intros Hneg. split; [apply timed_out_disabled; lia |].
  intros st s'. unfold ser_getc. run.
  destruct (Nat.leb_spec (length (buf s)) (pos s)) as [Hle|Hlt];
    [| discriminate].
  unfold sys_poll, sys_read. run.
  destruct (Z.ltb_spec (opt_timeout cfg) 0) as [_|Hge]; [| lia]. cbn.
  destruct (dev s) as [|[wait bytes|wait e|e] d] eqn:Hdev; cbn.
  - discriminate.
  - destruct bytes as [|b bytes].
    + destruct (opt_debug cfg =? 0); cbn; rewrite Hdev; cbn;
        intros H; injection H as _ <-; cbn; intros Heq;
        apply app_inv_head in Heq;
        exact (proj1 (proj2 (other_diagnostics_are_not_timeout [])) Heq).
    + destruct (firstn_skipn_chunk (b :: bytes)) as (c0 & chunk & Hf & Hb);
        [discriminate |].
      remember (skipn BUF_SIZE (b :: bytes)) as rest eqn:Hrest.
      destruct (opt_debug cfg =? 0); cbn; rewrite Hdev; cbn;
        rewrite <- Hrest, Hf; cbn;
        destruct (opt_debug cfg >? 1); cbn; discriminate.
  - destruct (opt_debug cfg =? 0); cbn; rewrite Hdev; cbn;
      intros H; injection H as _ <-; cbn; intros Heq;
      apply app_inv_head in Heq;
      exact (proj2 (proj2 (other_diagnostics_are_not_timeout _)) Heq).
  - destruct (opt_debug cfg =? 0); cbn;
      intros H; injection H as _ <-; cbn; intros Heq;
      apply app_inv_head in Heq;
      exact (proj1 (other_diagnostics_are_not_timeout _) Heq).
Qed.

(** ** The loops over the reader end

    [ser_getc] has no loop; each pass through a loop that calls it takes
    a byte off [incoming], so a fuel above its length is never used up. *)

Lemma ser_getc_no_spin cfg E fd s s' : ser_getc cfg E fd s <> Spinning s'.
Proof.
  unfold ser_getc. run.
  destruct (Nat.leb_spec (length (buf s)) (pos s)) as [Hle|Hlt];
    [| discriminate].
  unfold sys_poll, sys_read. run.
  destruct (dev s) as [|[wait bytes|wait e|e] d] eqn:Hdev; cbn.
  - destruct (opt_timeout cfg <? 0); cbn;
      destruct (opt_debug cfg =? 0); cbn; discriminate.
  - destruct ((opt_timeout cfg <? 0) || (wait <=? opt_timeout cfg)); cbn.
    2: destruct (opt_debug cfg =? 0); cbn; discriminate.
    destruct bytes as [|b bytes].
    + destruct (opt_debug cfg =? 0); cbn; rewrite Hdev; cbn; discriminate.
    + destruct (firstn_skipn_chunk (b :: bytes)) as (c0 & chunk & Hf & Hb);
        [discriminate |].
      remember (skipn BUF_SIZE (b :: bytes)) as rest eqn:Hrest.
      destruct (opt_debug cfg =? 0); cbn; rewrite Hdev; cbn;
        rewrite <- Hrest, Hf; cbn;
        destruct (opt_debug cfg >? 1); cbn; discriminate.
  - destruct ((opt_timeout cfg <? 0) || (wait <=? opt_timeout cfg)); cbn;
      destruct (opt_debug cfg =? 0); cbn; rewrite ?Hdev; cbn; discriminate.
  - destruct (opt_debug cfg =? 0); cbn; discriminate.
Qed.

Lemma skip_cr_no_spin cfg E fuel fd s s' :
  (length (incoming s) < fuel)%nat ->
  ser_getc_skip_cr cfg E fuel fd s <> Spinning s'.
Proof.
  revert s. induction fuel as [|fuel IH]; intros s Hlen; [lia |].
  cbn [ser_getc_skip_cr]. unfold bind at 1.
  destruct (ser_getc cfg E fd s) as [c s1| | |s1] eqn:Hg; try discriminate.
  - apply ser_getc_Ok in Hg as [Hin _].
    destruct (Ascii.eqb c CR); [| discriminate].
    apply IH. rewrite Hin in Hlen. cbn [length] in Hlen. lia.
  - exfalso. exact (ser_getc_no_spin _ _ _ _ _ Hg).
Qed.

Lemma readline_loop_no_spin cfg E fuel fd line s s' :
  (length (incoming s) < fuel)%nat ->
  ser_readline_loop cfg E fuel fd line s <> Spinning s'.
Proof.
  revert line s. induction fuel as [|fuel IH]; intros line s Hlen; [lia |].
  cbn [ser_readline_loop]. unfold bind at 1.
  destruct (ser_getc_skip_cr cfg E (S fuel) fd s) as [c s1| | |s1] eqn:Hg;
    try discriminate.
  - apply skip_cr_Ok in Hg as (_ & _ & k & Hin).
    destruct (Z.of_nat (length line) >=? LINE_SIZE - 1); [discriminate |].
    destruct (regexec (regex_prompt cfg) (line ++ [c]) =? 0).
    + unfold pr_debug. destruct (opt_debug cfg =? 0); discriminate.
    + destruct (negb (Ascii.eqb c LF)); [| discriminate].
      apply IH. rewrite Hin, length_app in Hlen. cbn [length] in Hlen. lia.
  - exfalso. exact (skip_cr_no_spin _ _ _ _ _ _ Hlen Hg).
Qed.

(** [ser_readline] always ends: with a line, the prompt, an exit, or
    blocked in [poll] for ever. *)
Lemma ser_readline_no_spin cfg E fd s s' :
  ser_readline cfg E fd s <> Spinning s'.
Proof. unfold ser_readline. apply readline_loop_no_spin. lia. Qed.

(** ** What [scan] finds *)

Lemma scan_midline P line S0 bytes :
  midline P line S0 ->
  scan P line (S0 ++ bytes) = scan P (line ++ retained S0) bytes.
Proof.
  revert line. induction S0 as [|a S0 IH]; intros line (Hlf & Hpf & Hlen).
  - cbn. rewrite app_nil_r. reflexivity.
  - cbn [app scan retained filter] in *.
    cbn [has existsb] in Hlf. apply orb_false_iff in Hlf as [Ha Hlf].
    destruct (Ascii.eqb_spec a CR) as [->|Hcr]; cbn [negb] in *.
    + apply IH. repeat split; assumption.
    + rewrite prompt_free_from_cons in Hpf.
      apply andb_true_iff in Hpf as [Hp Hpf].
      apply negb_true_iff in Hp. unfold prompt_at in Hp. rewrite Hp.
      cbn [length] in Hlen.
      destruct (Z.geb_spec (Z.of_nat (length line)) (LINE_SIZE - 1));
        [exfalso; lia |].
      rewrite Ascii.eqb_sym in Ha. rewrite Ha. cbn [negb].
      rewrite IH.
      * rewrite <- app_assoc. reflexivity.
      * repeat split; try assumption.
        rewrite length_app. cbn [length]. unfold retained. lia.
Qed.

Lemma scan_found P line bytes :
  Z.of_nat (length line) <= LINE_SIZE - 1 ->
  match scan P line bytes with
  | SMore l => midline P line bytes /\ l = line ++ retained bytes
  | SLong rest =>
      exists S0 c, bytes = S0 ++ c :: rest /\ c <> CR /\
                   midline P line S0 /\
                   Z.of_nat (length (line ++ retained S0)) = LINE_SIZE - 1
  | SPrompt rest =>
      exists S0 c, bytes = S0 ++ c :: rest /\ c <> CR /\
                   midline P line S0 /\
                   Z.of_nat (length (line ++ retained S0)) < LINE_SIZE - 1 /\
                   prompt_at P (line ++ retained S0 ++ [c]) = true
  | SLine l rest =>
      exists S0, bytes = S0 ++ LF :: rest /\
                 midline P line S0 /\
                 Z.of_nat (length (line ++ retained S0)) < LINE_SIZE - 1 /\
                 prompt_at P l = false /\
                 l = line ++ retained S0 ++ [LF]
  end.
Proof.
  assert (Hnil : forall l, Z.of_nat (length l) <= LINE_SIZE - 1 ->
                           midline P l []).
  { intros l Hl. unfold midline. cbn. rewrite Nat.add_0_r. auto. }
  assert (Hcons_cr : forall l S0, midline P l S0 -> midline P l (CR :: S0)).
  { intros l S0 (H1 & H2 & H3). unfold midline. cbn. auto. }
  assert (Hcons : forall l a S0,
             a <> CR -> a <> LF -> prompt_at P (l ++ [a]) = false ->
             midline P (l ++ [a]) S0 -> midline P l (a :: S0)).
  { intros l a S0 Hcr Hlf Hp (H1 & H2 & H3). unfold midline.
    cbn [has existsb retained filter].
    destruct (Ascii.eqb_spec a CR) as [|_]; [contradiction |].
    destruct (Ascii.eqb_spec LF a) as [|_]; [congruence |].
    cbn [negb orb]. rewrite prompt_free_from_cons, Hp. cbn [negb andb].
    fold (retained S0). repeat split; try assumption.
    rewrite length_app in H3. cbn [length] in *. lia. }
  revert line. induction bytes as [|a bytes IH]; intros line Hline.
  - cbn [scan]. split; [apply Hnil; exact Hline |].
    cbn. rewrite app_nil_r. reflexivity.
  - cbn [scan].
    destruct (Ascii.eqb_spec a CR) as [->|Hcr].
    + specialize (IH line Hline).
      destruct (scan P line bytes) as [l|rest|rest|l rest].
      * destruct IH as [Hm ->]. split; [apply Hcons_cr; exact Hm |].
        reflexivity.
      * destruct IH as (S0 & c & -> & Hc & Hm & Hl).
        exists (CR :: S0), c. cbn. auto.
      * destruct IH as (S0 & c & -> & Hc & Hm & Hl & Hp).
        exists (CR :: S0), c. cbn. auto.
      * destruct IH as (S0 & -> & Hm & Hl & Hp & ->).
        exists (CR :: S0). cbn. auto.
    + destruct (Z.geb_spec (Z.of_nat (length line)) (LINE_SIZE - 1))
        as [Hge|Hlt].
      { exists [], a. cbn [app retained filter]. rewrite app_nil_r.
        split; [reflexivity |]. split; [exact Hcr |].
        split; [apply Hnil; exact Hline | lia]. }
      destruct (regexec P (line ++ [a]) =? 0) eqn:Hp.
      { exists [], a. cbn [app retained filter]. rewrite app_nil_r.
        split; [reflexivity |]. split; [exact Hcr |].
        split; [apply Hnil; exact Hline |]. split; [exact Hlt | exact Hp]. }
      destruct (Ascii.eqb_spec a LF) as [->|Hlf]; cbn [negb].
      { exists []. cbn [app retained filter]. rewrite app_nil_r.
        split; [reflexivity |].
        split; [apply Hnil; exact Hline |]. split; [exact Hlt |].
        split; [exact Hp | reflexivity]. }
      assert (Hline' : Z.of_nat (length (line ++ [a])) <= LINE_SIZE - 1)
        by (rewrite length_app; cbn [length]; lia).
      assert (Hret : forall S0, line ++ retained (a :: S0)
                                = (line ++ [a]) ++ retained S0).
      { intros S0. cbn [retained filter].
        destruct (Ascii.eqb_spec a CR) as [|_]; [contradiction |].
        cbn [negb]. rewrite <- app_assoc. reflexivity. }
      assert (Hret2 : forall S0 t, line ++ retained (a :: S0) ++ t
                                   = (line ++ [a]) ++ retained S0 ++ t).
      { intros S0 t. rewrite (app_assoc line (retained (a :: S0)) t), Hret.
        rewrite <- app_assoc. reflexivity. }
      specialize (IH (line ++ [a]) Hline').
      destruct (scan P (line ++ [a]) bytes) as [l|rest|rest|l rest].
      * destruct IH as [Hm ->]. split; [apply Hcons; auto |].
        symmetry. apply Hret.
      * destruct IH as (S0 & c & -> & Hc & Hm & Hl).
        exists (a :: S0), c. rewrite Hret.
        split; [reflexivity |]. split; [exact Hc |].
        split; [apply Hcons; auto | exact Hl].
      * destruct IH as (S0 & c & -> & Hc & Hm & Hl & Hq).
        exists (a :: S0), c. rewrite Hret.
        split; [reflexivity |]. split; [exact Hc |].
        split; [apply Hcons; auto |]. split; [exact Hl |].
        rewrite Hret2. exact Hq.
      * destruct IH as (S0 & -> & Hm & Hl & Hq & ->).
        exists (a :: S0). rewrite Hret.
        split; [reflexivity |].
        split; [apply Hcons; auto |]. split; [exact Hl |].
        split; [exact Hq |].
        rewrite Hret2. reflexivity.
Qed.

(** ** [ser_readline] against [scan] *)

Lemma ser_readline_sound cfg E fd s r s' :
  ser_readline cfg E fd s = Ok r s' ->
  only_read cfg s s' /\
  scan (regex_prompt cfg) [] (incoming s)
  = match r with
    | None => SPrompt (incoming s')
    | Some l => SLine l (incoming s')
    end.
Proof. unfold ser_readline. apply readline_loop_Ok. Qed.

Lemma ser_readline_complete cfg E fd s :
  flowing cfg s ->
  match scan (regex_prompt cfg) [] (incoming s) with
  | SMore _ => runs_dry cfg s (ser_readline cfg E fd s)
  | SLong rest =>
      exists s', ser_readline cfg E fd s = Exited (-1) s' /\
                 stderr s' = stderr s ++ chars "Line too long" ++ [LF] /\
                 (opt_debug cfg = 0 -> stdout s' = stdout s) /\
                 incoming s' = rest
  | SPrompt rest =>
      exists s', ser_readline cfg E fd s = Ok None s' /\
                 incoming s' = rest /\ flowing cfg s'
  | SLine l rest =>
      exists s', ser_readline cfg E fd s = Ok (Some l) s' /\
                 incoming s' = rest /\ flowing cfg s'
  end.
Proof.
  intros Hf. unfold ser_readline. apply readline_loop_flowing; auto.
Qed.

Lemma retained_snoc S0 c : c <> CR -> retained (S0 ++ [c]) = retained S0 ++ [c].
Proof.
  intros Hc. rewrite retained_app. cbn.
  destruct (Ascii.eqb_spec c CR); [contradiction | reflexivity].
Qed.

Lemma midline_start P S0 :
  has LF S0 = false -> prompt_free P (retained S0) = true ->
  Z.of_nat (length (retained S0)) <= LINE_SIZE - 1 ->
  midline P [] S0.
Proof. unfold midline, prompt_free. cbn [length Nat.add]. auto. Qed.

(** The step [scan] takes at the first retained byte after a mid-line
    stretch. *)
Lemma scan_at P S0 c rest :
  midline P [] S0 -> c <> CR ->
  scan P [] (S0 ++ c :: rest) =
  if Z.of_nat (length (retained S0)) >=? LINE_SIZE - 1 then SLong rest
  else if prompt_at P (retained S0 ++ [c]) then SPrompt rest
  else if negb (Ascii.eqb c LF) then scan P (retained S0 ++ [c]) rest
  else SLine (retained S0 ++ [c]) rest.
Proof.
  intros Hm Hc. rewrite scan_midline by exact Hm. cbn [app scan].
  destruct (Ascii.eqb_spec c CR); [contradiction | reflexivity].
Qed.

Lemma prompt_free_snoc P l c :
  prompt_free P (l ++ [c]) = prompt_free P l && negb (prompt_at P (l ++ [c])).
Proof.
  unfold prompt_free. rewrite prompt_free_from_app, prompt_free_from_cons.
  cbn. rewrite andb_true_r. reflexivity.
Qed.

Lemma ser_readline_line cfg E fd s l s' :
  ser_readline cfg E fd s = Ok (Some l) s' ->
  exists S0, incoming s = S0 ++ LF :: incoming s' /\
             l = retained S0 ++ [LF] /\
             has LF S0 = false /\
             prompt_free (regex_prompt cfg) l = true /\
             Z.of_nat (length l) <= LINE_SIZE - 1.
Proof.
  intros H. apply ser_readline_sound in H as [_ Hs].
  pose proof (scan_found (regex_prompt cfg) [] (incoming s)) as Hf.
  rewrite Hs in Hf. cbn [length app] in Hf.
  destruct Hf as (S0 & Hin & (Hlf & Hpf & _) & Hlen & Hp & ->);
    [unfold LINE_SIZE; lia |].
  exists S0. repeat split; try assumption.
  - rewrite prompt_free_snoc. fold (prompt_free (regex_prompt cfg) (retained S0)) in Hpf.
    rewrite Hpf, Hp. reflexivity.
  - rewrite length_app. cbn [length]. lia.
Qed.

Lemma ser_readline_prompt cfg E fd s s' :
  ser_readline cfg E fd s = Ok None s' ->
  exists S0 c, incoming s = S0 ++ c :: incoming s' /\ c <> CR /\
               has LF S0 = false /\
               prompt_free (regex_prompt cfg) (retained S0) = true /\
               prompt_at (regex_prompt cfg) (retained (S0 ++ [c])) = true.
Proof.
  intros H. apply ser_readline_sound in H as [_ Hs].
  pose proof (scan_found (regex_prompt cfg) [] (incoming s)) as Hf.
  rewrite Hs in Hf. cbn [length app] in Hf.
  destruct Hf as (S0 & c & Hin & Hc & (Hlf & Hpf & _) & Hlen & Hp);
    [unfold LINE_SIZE; lia |].
  exists S0, c. rewrite retained_snoc by exact Hc. auto.
Qed.

(** C2: for every prompt pattern and every incoming byte stream,
    [ser_readline] reports the prompt (returns NULL) at the first byte at
    which the carriage-return-stripped bytes accumulated in the line
    buffer match the pattern, and a line it returns never has a prefix
    that matches, the whole line included.  The accumulated bytes are
    those of the line being assembled by this call (up to the cap of
    1023), matched as the NUL-terminated string in the buffer; the test
    is made after a byte is retained. *)
Theorem C2_prompt_at_first_match cfg E fd s :
  (forall S0 c rest,
      flowing cfg s ->
      incoming s = S0 ++ c :: rest -> c <> CR ->
      has LF S0 = false ->
      Z.of_nat (length (retained S0)) < LINE_SIZE - 1 ->
      prompt_free (regex_prompt cfg) (retained S0) = true ->
      prompt_at (regex_prompt cfg) (retained (S0 ++ [c])) = true ->
      exists s', ser_readline cfg E fd s = Ok None s' /\
                 incoming s' = rest) /\
  (forall s', ser_readline cfg E fd s = Ok None s' ->
      exists S0 c, incoming s = S0 ++ c :: incoming s' /\ c <> CR /\
                   prompt_free (regex_prompt cfg) (retained S0) = true /\
                   prompt_at (regex_prompt cfg) (retained (S0 ++ [c]))
                   = true) /\
  (forall l s', ser_readline cfg E fd s = Ok (Some l) s' ->
      prompt_free (regex_prompt cfg) l = true).
Proof.
  split; [| split].
  - intros S0 c rest Hf Hin Hc Hlf Hlen Hpf Hp.
    pose proof (ser_readline_complete cfg E fd s Hf) as H.
    rewrite Hin, scan_at in H;
      [| apply midline_start; auto; lia | exact Hc].
    destruct (Z.geb_spec (Z.of_nat (length (retained S0))) (LINE_SIZE - 1));
      [lia |].
    rewrite retained_snoc in Hp by exact Hc. rewrite Hp in H.
    destruct H as (s' & Hr & Hi & _). eauto.
  - intros s' H. apply ser_readline_prompt in H
      as (S0 & c & Hin & Hc & _ & Hpf & Hp).
    exists S0, c. auto.
  - intros l s' H. apply ser_readline_line in H
      as (S0 & _ & _ & _ & Hpf & _). exact Hpf.
Qed.

Lemma has_retained c S0 : has c S0 = false -> has c (retained S0) = false.
Proof.
  rewrite !has_false. intros H Hin. apply H.
  unfold retained in Hin. apply filter_In in Hin. tauto.
Qed.

(** C7: a completed line returned by [ser_readline] ends with its
    newline, which is its only one; the prompt test has been made (and
    has failed) after every byte appended to it, the newline included;
    and when the pattern matches the line with its newline appended, the
    prompt is reported instead of the line. *)
Theorem C7_line_keeps_newline cfg E fd s :
  (forall l s', ser_readline cfg E fd s = Ok (Some l) s' ->
      exists l0, l = l0 ++ [LF] /\ has LF l0 = false /\
                 prompt_free (regex_prompt cfg) l = true) /\
  (forall S0 rest,
      flowing cfg s ->
      incoming s = S0 ++ LF :: rest ->
      has LF S0 = false ->
      Z.of_nat (length (retained S0)) < LINE_SIZE - 1 ->
      prompt_free (regex_prompt cfg) (retained S0) = true ->
      if prompt_at (regex_prompt cfg) (retained S0 ++ [LF])
      then exists s', ser_readline cfg E fd s = Ok None s' /\
                      incoming s' = rest
      else exists s', ser_readline cfg E fd s
                      = Ok (Some (retained S0 ++ [LF])) s' /\
                      incoming s' = rest).
Proof.
  split.
  - intros l s' H. apply ser_readline_line in H
      as (S0 & _ & -> & Hlf & Hpf & _).
    exists (retained S0). split; [reflexivity |].
    split; [apply has_retained; exact Hlf | exact Hpf].
  - intros S0 rest Hf Hin Hlf Hlen Hpf.
    pose proof (ser_readline_complete cfg E fd s Hf) as H.
    rewrite Hin, scan_at in H;
      [| apply midline_start; auto; lia | discriminate].
    destruct (Z.geb_spec (Z.of_nat (length (retained S0))) (LINE_SIZE - 1));
      [lia |].
    destruct (prompt_at (regex_prompt cfg) (retained S0 ++ [LF])).
    + destruct H as (s' & Hr & Hi & _). eauto.
    + rewrite Ascii.eqb_refl in H. cbn [negb] in H.
      destruct H as (s' & Hr & Hi & _). eauto.
Qed.

(** ** Carriage returns *)

Lemma verdict_retained P line bytes :
  verdict_of (scan P line bytes) = verdict_of (scan P line (retained bytes)).
Proof.
  revert line. induction bytes as [|a bytes IH]; intros line;
    [reflexivity |].
  cbn [scan retained filter].
  destruct (Ascii.eqb_spec a CR) as [->|Hcr]; cbn [negb].
  - apply IH.
  - cbn [scan]. destruct (Ascii.eqb_spec a CR); [contradiction |].
    destruct (Z.of_nat (length line) >=? LINE_SIZE - 1); [reflexivity |].
    destruct (regexec P (line ++ [a]) =? 0); [reflexivity |].
    destruct (negb (Ascii.eqb a LF)); [apply IH | reflexivity].
Qed.

Lemma ser_readline_verdict cfg E fd s :
  flowing cfg s ->
  returned (ser_readline cfg E fd s)
  = match verdict_of (scan (regex_prompt cfg) [] (incoming s)) with
    | VPrompt => Some None
    | VLine l => Some (Some l)
    | _ => None
    end /\
  (too_long s (ser_readline cfg E fd s) <->
   verdict_of (scan (regex_prompt cfg) [] (incoming s)) = VLong).
Proof.
  intros Hf. pose proof (ser_readline_complete cfg E fd s Hf) as H.
  destruct (scan (regex_prompt cfg) [] (incoming s)) as [l|rest|rest|l rest];
    cbn [verdict_of].
  - destruct H as [[_ [s' Hr]]|[_ (s' & Hr & He)]]; rewrite Hr; cbn.
    + split; [reflexivity |]. split; [| discriminate].
      intros (s2 & H2 & _). discriminate.
    + split; [reflexivity |]. split; [| discriminate].
      intros (s2 & H2 & He2). injection H2 as <-.
      rewrite He in He2. apply app_inv_head in He2.
      exfalso. exact (timeout_is_not_too_long He2).
  - destruct H as (s' & Hr & He & _). rewrite Hr. cbn.
    split; [reflexivity |]. split; [reflexivity |].
    intros _. exists s'. auto.
  - destruct H as (s' & Hr & _). rewrite Hr. cbn.
    split; [reflexivity |]. split; [| discriminate].
    intros (s2 & H2 & _). discriminate.
  - destruct H as (s' & Hr & _). rewrite Hr. cbn.
    split; [reflexivity |]. split; [| discriminate].
    intros (s2 & H2 & _). discriminate.
Qed.

(** C8: [ser_readline] discards carriage returns before storage.  A
    completed line is the incoming bytes it consumed with the carriage
    returns taken out, so holds none; and two streams that differ only in
    carriage returns get the same result: the same line or the same
    prompt report (so they take no part in the match), and "Line too
    long" for the one exactly when for the other (so they do not count
    toward the cap). *)
Theorem C8_carriage_returns_discarded cfg E fd s :
  (forall l s', ser_readline cfg E fd s = Ok (Some l) s' ->
      ~ In CR l /\
      exists S, incoming s = S ++ incoming s' /\ l = retained S) /\
  (forall s2,
      flowing cfg s -> flowing cfg s2 ->
      retained (incoming s2) = retained (incoming s) ->
      returned (ser_readline cfg E fd s2)
      = returned (ser_readline cfg E fd s) /\
      (too_long s2 (ser_readline cfg E fd s2) <->
       too_long s (ser_readline cfg E fd s))).
Proof.
  split.
  - intros l s' H. apply ser_readline_line in H
      as (S0 & Hin & -> & _ & _ & _).
    assert (Hl : retained S0 ++ [LF] = retained (S0 ++ [LF]))
      by (rewrite retained_snoc; [reflexivity | discriminate]).
    rewrite Hl. split; [apply retained_no_cr |].
    exists (S0 ++ [LF]). rewrite <- app_assoc. auto.
  - intros s2 Hf Hf2 Hret.
    destruct (ser_readline_verdict cfg E fd s Hf) as [Hr Ht].
    destruct (ser_readline_verdict cfg E fd s2 Hf2) as [Hr2 Ht2].
    rewrite verdict_retained in Hr, Ht.
    rewrite verdict_retained, Hret in Hr2, Ht2.
    split; [congruence | tauto].
Qed.

(** ** The cap on the line length *)

Lemma main_response_body_exits cfg E fd tv s st s' :
  ser_readline cfg E fd s = Exited st s' ->
  main_response_body cfg E fd tv s = Exited st s'.
Proof. intros H. unfold main_response_body. apply bind_eq_Exited, H. Qed.

Lemma main_echo_body_exits cfg E fd cmd tv s st s' :
  ser_readline cfg E fd s = Exited st s' ->
  main_echo_body cfg E fd cmd tv s = Exited st s'.
Proof. intros H. unfold main_echo_body. apply bind_eq_Exited, H. Qed.

(** C4: a line whose retained bytes number 1024 or more (1023 is the
    most the buffer of LINE_SIZE = 1024 holds with its NUL) ends the run
    at its 1024th retained byte with status -1 and "Line too long",
    whichever loop of [main] is reading, with nothing added to the
    standard output (debugging off); a line of at most 1023 retained
    bytes, newline included, is returned whole. *)
Theorem C4_line_too_long cfg E fd cmd tv s :
  (forall S0 c rest,
      flowing cfg s ->
      incoming s = S0 ++ c :: rest -> c <> CR ->
      has LF S0 = false ->
      Z.of_nat (length (retained S0)) = LINE_SIZE - 1 ->
      prompt_free (regex_prompt cfg) (retained S0) = true ->
      exists s',
        ser_readline cfg E fd s = Exited (-1) s' /\
        (forall fuel,
            main_response_loop cfg E (S fuel) fd tv s = Exited (-1) s' /\
            main_echo_loop cfg E (S fuel) fd cmd tv s = Exited (-1) s') /\
        exit_status (-1) <> 0 /\
        stderr s' = stderr s ++ chars "Line too long" ++ [LF] /\
        (opt_debug cfg = 0 -> stdout s' = stdout s)) /\
  (forall S0 rest,
      flowing cfg s ->
      incoming s = S0 ++ LF :: rest ->
      has LF S0 = false ->
      Z.of_nat (length (retained S0 ++ [LF])) <= LINE_SIZE - 1 ->
      prompt_free (regex_prompt cfg) (retained S0 ++ [LF]) = true ->
      exists s',
        ser_readline cfg E fd s = Ok (Some (retained S0 ++ [LF])) s' /\
        incoming s' = rest).
Proof.
  split.
  - intros S0 c rest Hf Hin Hc Hlf Hlen Hpf.
    pose proof (ser_readline_complete cfg E fd s Hf) as H.
    rewrite Hin, scan_at in H;
      [| apply midline_start; auto; lia | exact Hc].
    destruct (Z.geb_spec (Z.of_nat (length (retained S0))) (LINE_SIZE - 1));
      [| lia].
    destruct H as (s' & Hr & He & Ho & _).
    exists s'. split; [exact Hr |]. split.
    + intros fuel. cbn [main_response_loop main_echo_loop]. split.
      * apply bind_eq_Exited, main_response_body_exits, Hr.
      * apply bind_eq_Exited, main_echo_body_exits, Hr.
    + split; [discriminate |]. auto.
  - intros S0 rest Hf Hin Hlf Hlen Hpf.
    rewrite length_app in Hlen. cbn [length] in Hlen.
    rewrite prompt_free_snoc in Hpf. apply andb_true_iff in Hpf as [Hpf Hp].
    apply negb_true_iff in Hp.
    pose proof (ser_readline_complete cfg E fd s Hf) as H.
    rewrite Hin, scan_at in H;
      [| apply midline_start; auto; lia | discriminate].
    destruct (Z.geb_spec (Z.of_nat (length (retained S0))) (LINE_SIZE - 1));
      [lia |].
    rewrite Hp, Ascii.eqb_refl in H. cbn [negb] in H.
    destruct H as (s' & Hr & Hi & _). eauto.
Qed.

(** ** The echo wait *)

Lemma set_ticks_same s : set_ticks (ticks s) s = s.
Proof. destruct s; reflexivity. Qed.

Lemma timed_out_in_time cfg E tv s :
  in_time cfg E tv (ticks s) = true ->
  timed_out cfg E tv s = Ok false (set_ticks (tick cfg (ticks s)) s).
Proof.
  unfold in_time, tick. intros H.
  destruct (opt_timeout cfg <=? 0) eqn:Ht.
  - rewrite set_ticks_same. apply timed_out_disabled. apply Z.leb_le, Ht.
  - cbn [orb] in H. destruct (clock E (ticks s)) as [now|] eqn:Hc;
      [| discriminate].
    apply negb_true_iff in H. rewrite <- H.
    apply timed_out_enabled; [apply Z.leb_gt in Ht; lia | exact Hc].
Qed.

Lemma timed_out_late cfg E tv s :
  out_of_time cfg E tv (ticks s) = true ->
  timed_out cfg E tv s = Ok true (set_ticks (S (ticks s)) s).
Proof.
  unfold out_of_time. intros H. apply andb_true_iff in H as [Ht H].
  destruct (clock E (ticks s)) as [now|] eqn:Hc; [| discriminate].
  rewrite <- H. apply timed_out_enabled; [apply Z.ltb_lt, Ht | exact Hc].
Qed.

(** C9: in the echo wait the substring test comes before the deadline
    check, and the failure is raised in two cases only.  (a) A completed
    line containing the command ends the wait successfully in the very
    state the read left, with no look at the clock, whatever the
    deadline.  (b) The prompt ends the process with "Command echo not
    found".  (c) A completed line without the command, obtained when the
    deadline has expired, ends the process with "Command echo not found".
    (d) A completed line without the command, obtained with time left,
    is passed over and the wait goes on.  (e) When a pass through the
    loop ends the process, either the read itself did, or the read
    reported the prompt, or it returned a line without the command and
    then either the clock could not be read or the deadline was found
    expired. *)
Theorem C9_echo_test_before_deadline cfg E fd cmd tv s :
  (forall l s1 i,
      ser_readline cfg E fd s = Ok (Some l) s1 ->
      strstr l cmd = Some i ->
      main_echo_body cfg E fd cmd tv s = Ok Break s1 /\
      ticks s1 = ticks s /\
      forall fuel, main_echo_loop cfg E (S fuel) fd cmd tv s = Ok tt s1) /\
  (forall s1,
      ser_readline cfg E fd s = Ok None s1 ->
      main_echo_body cfg E fd cmd tv s = Exited (-1) (echo_not_found s1) /\
      forall fuel,
        main_echo_loop cfg E (S fuel) fd cmd tv s
        = Exited (-1) (echo_not_found s1)) /\
  (forall l s1,
      ser_readline cfg E fd s = Ok (Some l) s1 ->
      strstr l cmd = None ->
      out_of_time cfg E tv (ticks s1) = true ->
      main_echo_body cfg E fd cmd tv s
      = Exited (-1) (echo_not_found (set_ticks (S (ticks s1)) s1)) /\
      forall fuel,
        main_echo_loop cfg E (S fuel) fd cmd tv s
        = Exited (-1) (echo_not_found (set_ticks (S (ticks s1)) s1))) /\
  (forall l s1,
      ser_readline cfg E fd s = Ok (Some l) s1 ->
      strstr l cmd = None ->
      in_time cfg E tv (ticks s1) = true ->
      main_echo_body cfg E fd cmd tv s
      = Ok Continue (debug_out cfg (chars "Ignoring " ++ cstr l)
                       (set_ticks (tick cfg (ticks s1)) s1)) /\
      forall fuel,
        main_echo_loop cfg E (S fuel) fd cmd tv s
        = main_echo_loop cfg E fuel fd cmd tv
            (debug_out cfg (chars "Ignoring " ++ cstr l)
               (set_ticks (tick cfg (ticks s1)) s1))) /\
  (forall st s',
      main_echo_body cfg E fd cmd tv s = Exited st s' ->
      ser_readline cfg E fd s = Exited st s' \/
      (exists s1, ser_readline cfg E fd s = Ok None s1 /\
                  st = -1 /\ s' = echo_not_found s1) \/
      (exists l s1, ser_readline cfg E fd s = Ok (Some l) s1 /\
                    strstr l cmd = None /\
                    (timed_out cfg E tv s1 = Exited st s' \/
                     exists s2, timed_out cfg E tv s1 = Ok true s2 /\
                                st = -1 /\ s' = echo_not_found s2))).
Proof.
  assert (Hloop : forall o fuel,
             main_echo_body cfg E fd cmd tv s = o ->
             main_echo_loop cfg E (S fuel) fd cmd tv s
             = match o with
               | Ok Break s1 => Ok tt s1
               | Ok Continue s1 => main_echo_loop cfg E fuel fd cmd tv s1
               | Exited st s1 => Exited st s1
               | Blocked s1 => Blocked s1
               | Spinning s1 => Spinning s1
               end).
  { intros o fuel <-. cbn [main_echo_loop]. unfold bind.
    destruct (main_echo_body cfg E fd cmd tv s) as [[] s1|st s1|s1|s1];
      reflexivity. }
  split; [| split; [| split; [| split]]].
  - intros l s1 i Hr Hs.
    assert (Hb : main_echo_body cfg E fd cmd tv s = Ok Break s1).
    { unfold main_echo_body. rewrite (bind_eq_Ok _ _ _ _ _ Hr), Hs.
      reflexivity. }
    split; [exact Hb |]. split.
    + apply ser_readline_sound in Hr as [Hro _]. apply Hro.
    + intros fuel. apply (Hloop _ fuel Hb).
  - intros s1 Hr.
    assert (Hb : main_echo_body cfg E fd cmd tv s
                 = Exited (-1) (echo_not_found s1)).
    { unfold main_echo_body. rewrite (bind_eq_Ok _ _ _ _ _ Hr).
      reflexivity. }
    split; [exact Hb |]. intros fuel. apply (Hloop _ fuel Hb).
  - intros l s1 Hr Hs Hlate.
    assert (Hb : main_echo_body cfg E fd cmd tv s
                 = Exited (-1) (echo_not_found (set_ticks (S (ticks s1)) s1))).
    { unfold main_echo_body. rewrite (bind_eq_Ok _ _ _ _ _ Hr), Hs.
      rewrite (bind_eq_Ok _ _ _ _ _ (timed_out_late cfg E tv s1 Hlate)).
      reflexivity. }
    split; [exact Hb |]. intros fuel. apply (Hloop _ fuel Hb).
  - intros l s1 Hr Hs Hin.
    assert (Hb : main_echo_body cfg E fd cmd tv s
                 = Ok Continue (debug_out cfg (chars "Ignoring " ++ cstr l)
                                  (set_ticks (tick cfg (ticks s1)) s1))).
    { unfold main_echo_body. rewrite (bind_eq_Ok _ _ _ _ _ Hr), Hs.
      rewrite (bind_eq_Ok _ _ _ _ _ (timed_out_in_time cfg E tv s1 Hin)).
      cbv beta iota. unfold pr_debug, debug_out.
      destruct (opt_debug cfg =? 0); reflexivity. }
    split; [exact Hb |]. intros fuel. apply (Hloop _ fuel Hb).
  - intros st s' H. unfold main_echo_body in H.
    apply bind_Exited in H as [H|(r & s1 & Hr & H)]; [left; exact H |].
    right. destruct r as [l|].
    + right. exists l, s1. split; [exact Hr |].
      destruct (strstr l cmd); [discriminate |]. split; [reflexivity |].
      apply bind_Exited in H as [H|(late & s2 & Ht & H)]; [left; exact H |].
      right. exists s2. destruct late.
      * cbv [bind pr_err modify exit] in H. injection H as <- <-. auto.
      * unfold pr_debug in H. destruct (opt_debug cfg =? 0); discriminate.
    + left. exists s1. split; [exact Hr |].
      cbv [bind pr_err modify exit] in H. injection H as <- <-. auto.
Qed.

(** ** The command string and the substring test *)

Lemma starts_with_spec p s : starts_with p s = true <-> exists q, s = p ++ q.
Proof.
  revert s. induction p as [|a p IH]; intros s; cbn.
  - split; [intros _; exists s; reflexivity | reflexivity].
  - destruct s as [|b s].
    + split; [discriminate | intros [q Hq]; discriminate].
    + rewrite andb_true_iff, Ascii.eqb_eq, IH. split.
      * intros [-> [q ->]]. exists q. reflexivity.
      * intros [q Hq]. injection Hq as -> ->. eauto.
Qed.

Lemma strstr_from_Some off h n i :
  strstr_from off h n = Some i ->
  exists pre post, h = pre ++ n ++ post /\ i = (off + length pre)%nat.
Proof.
  revert off. induction h as [|a h IH]; intros off; cbn [strstr_from].
  - destruct (starts_with n []) eqn:Hs; [| discriminate].
    intros H. injection H as <-. apply starts_with_spec in Hs as [q Hq].
    exists [], q. cbn. split; [exact Hq | lia].
  - destruct (starts_with n (a :: h)) eqn:Hs.
    + intros H. injection H as <-. apply starts_with_spec in Hs as [q Hq].
      exists [], q. cbn. split; [exact Hq | lia].
    + intros H. apply IH in H as (pre & post & -> & ->).
      exists (a :: pre), post. cbn. split; [reflexivity | lia].
Qed.

Lemma strstr_from_found off pre n post :
  strstr_from off (pre ++ n ++ post) n <> None.
Proof.
  revert off. induction pre as [|a pre IH]; intros off.
  - cbn [app]. assert (Hs : starts_with n (n ++ post) = true)
      by (apply starts_with_spec; eauto).
    destruct (n ++ post); cbn [strstr_from]; rewrite Hs; discriminate.
  - cbn [app strstr_from].
    destruct (starts_with n (a :: pre ++ n ++ post)); [discriminate |].
    apply IH.
Qed.

Lemma cstr_prefix l : exists r, l = cstr l ++ r.
Proof.
  induction l as [|a l [r IH]]; cbn [cstr].
  - exists []. reflexivity.
  - destruct (Ascii.eqb a NUL).
    + exists (a :: l). reflexivity.
    + exists r. cbn [app]. congruence.
Qed.

Lemma cstr_no_nul l : has NUL l = false -> cstr l = l.
Proof.
  induction l as [|a l IH]; cbn [cstr has existsb]; [reflexivity |].
  rewrite Ascii.eqb_sym. intros H. apply orb_false_iff in H as [-> H].
  rewrite IH by exact H. reflexivity.
Qed.

Lemma has_app c l1 l2 : has c (l1 ++ l2) = has c l1 || has c l2.
Proof. apply existsb_app. Qed.

Lemma cstr_has_nul l : has NUL (cstr l) = false.
Proof.
  induction l as [|a l IH]; cbn [cstr]; [reflexivity |].
  destruct (Ascii.eqb a NUL) eqn:Ha; cbn [has existsb]; [reflexivity |].
  rewrite Ascii.eqb_sym, Ha. exact IH.
Qed.

Lemma join_from_no_nul i words : has NUL (join_from i words) = false.
Proof.
  revert i. induction words as [|w ws IH]; intros i; cbn [join_from];
    [reflexivity |].
  rewrite !has_app, cstr_has_nul, IH.
  destruct i; reflexivity.
Qed.

Lemma cstr_cmd words : cstr (fst (join_words words)) = fst (join_words words).
Proof.
  apply cstr_no_nul. cbn [join_words fst].
  rewrite has_app, join_from_no_nul. reflexivity.
Qed.

(** The only newline of a completed line is its last byte. *)
Lemma newline_is_last l0 a b :
  has LF l0 = false -> l0 ++ [LF] = a ++ LF :: b -> a = l0 /\ b = [].
Proof.
  revert a. induction l0 as [|x l0 IH]; intros a Hlf H.
  - destruct a as [|y a]; cbn in H.
    + injection H as <-. auto.
    + injection H as _ H. destruct a; discriminate.
  - cbn [has existsb] in Hlf. apply orb_false_iff in Hlf as [Hx Hlf].
    destruct a as [|y a]; cbn in H.
    + injection H as -> _. rewrite Ascii.eqb_refl in Hx. discriminate.
    + injection H as <- H. apply IH in H as [-> ->]; auto.
Qed.

(** Where [strstr] finds the command in a completed line. *)
Lemma strstr_line words l0 i :
  has LF l0 = false ->
  strstr (l0 ++ [LF]) (fst (join_words words)) = Some i ->
  cstr (l0 ++ [LF]) = l0 ++ [LF] /\
  l0 = firstn i l0 ++ join_from 0 words /\
  (i + length (join_from 0 words))%nat = length l0.
Proof.
  intros Hlf H. unfold strstr in H. rewrite cstr_cmd in H.
  apply strstr_from_Some in H as (pre & post & Hc & ->).
  destruct (cstr_prefix (l0 ++ [LF])) as [r Hr].
  rewrite Hc in Hr. cbn [join_words fst] in Hr, Hc.
  rewrite <- !app_assoc in Hr. cbn [app] in Hr.
  rewrite (app_assoc pre) in Hr.
  apply newline_is_last in Hr as [Hl0 Hpost]; [| exact Hlf].
  apply app_eq_nil in Hpost as [-> ->].
  rewrite app_nil_r in Hc. rewrite Hc.
  rewrite <- Hl0. rewrite <- !app_assoc. split; [reflexivity |].
  cbn [Nat.add]. rewrite firstn_app, firstn_all, Nat.sub_diag. cbn [firstn].
  rewrite app_nil_r, length_app. auto.
Qed.

(** C10 (as amended): for a completed line, the substring test of the
    echo wait succeeds exactly when the line, as the NUL-terminated
    string in the buffer, ends with the entire command string, newline
    included; when the command words are followed in the line by more
    text, a match is found only if the line comes to end with the whole
    command again, at the end of the line and not at those words. *)
Theorem C10_echo_match_at_line_end words l0 :
  has LF l0 = false ->
  (strstr (l0 ++ [LF]) (fst (join_words words)) <> None <->
   exists pre, cstr (l0 ++ [LF]) = pre ++ fst (join_words words)) /\
  (forall pre extra i,
      l0 = pre ++ join_from 0 words ++ extra ->
      strstr (l0 ++ [LF]) (fst (join_words words)) = Some i ->
      i = (length pre + length extra)%nat /\
      exists pre', l0 = pre' ++ join_from 0 words).
Proof.
  intros Hlf. split; [split |].
  - destruct (strstr (l0 ++ [LF]) (fst (join_words words))) as [i|] eqn:Hs;
      [| congruence].
    intros _. apply strstr_line in Hs as (Hc & Hl0 & _); [| exact Hlf].
    exists (firstn i l0). rewrite Hc. cbn [join_words fst].
    rewrite app_assoc, <- Hl0. reflexivity.
  - intros [pre Hpre]. unfold strstr. rewrite cstr_cmd, Hpre.
    rewrite <- (app_nil_r (fst (join_words words))) at 1.
    apply strstr_from_found.
  - intros pre extra i Hl0 Hs.
    apply strstr_line in Hs as (_ & Hf & Hlen); [| exact Hlf].
    split; [| eauto].
    rewrite Hl0, !length_app in Hlen. lia.
Qed.

(** The literal reading of the last part of C10 fails: the line
    "reset reset" holds the command "reset" followed by more text before
    its newline, and the test finds the command, at offset 6. *)
Lemma C10_followed_by_text_can_match :
  chars "reset reset" ++ [LF]
  = join_from 0 [chars "reset"] ++ chars " reset" ++ [LF] /\
  chars " reset" <> [] /\
  strstr (chars "reset reset" ++ [LF]) (fst (join_words [chars "reset"]))
  = Some 6%nat.
Proof. split; [reflexivity |]. split; [discriminate | reflexivity]. Qed.

(** ** The device acquirer *)

Lemma busy_errno_test e :
  negb (e =? EBUSY) && negb (e =? EAGAIN) = negb (busy_errno e).
Proof. unfold busy_errno. rewrite negb_orb. reflexivity. Qed.

Lemma pr_debug_out cfg text s : pr_debug cfg text s = Ok tt (debug_out cfg text s).
Proof. unfold pr_debug, debug_out. destruct (opt_debug cfg =? 0); reflexivity. Qed.

Lemma debug_out_fields cfg text s :
  stderr (debug_out cfg text s) = stderr s /\
  ticks (debug_out cfg text s) = ticks s /\
  attempts (debug_out cfg text s) = attempts s /\
  slept (debug_out cfg text s) = slept s /\
  errno (debug_out cfg text s) = errno s /\
  (opt_debug cfg = 0 -> stdout (debug_out cfg text s) = stdout s).
Proof.
  unfold debug_out. destruct (Z.eqb_spec (opt_debug cfg) 0); cbn;
    repeat split; try reflexivity; intros; congruence.
Qed.

(** One failed attempt with time left: the loop sleeps 200 ms and goes
    round again. *)
Lemma ser_open_retry cfg E path tv s :
  attempt_busy (opt_force cfg) (opens E (attempts s)) = true ->
  in_time cfg E tv (ticks s) = true ->
  exists s1,
    (forall fuel, ser_open_loop cfg E (S fuel) path tv s
                  = ser_open_loop cfg E fuel path tv s1) /\
    attempts s1 = S (attempts s) /\
    (opt_timeout cfg <= 0 /\ ticks s1 = ticks s \/
     0 < opt_timeout cfg /\ ticks s1 = S (ticks s)) /\
    slept s1 = slept s ++ [RETRY_MS * 1000] /\
    stderr s1 = stderr s /\
    (opt_debug cfg = 0 -> stdout s1 = stdout s).
Proof.
  intros Hb Ht. unfold in_time in Ht.
  assert (Hto : exists t,
             (opt_timeout cfg <= 0 /\ t = ticks s \/
              0 < opt_timeout cfg /\ t = S (ticks s)) /\
             forall s', ticks s' = ticks s ->
               timed_out cfg E tv s' = Ok false (set_ticks t s')).
  { destruct (Z.leb_spec (opt_timeout cfg) 0) as [Hle|Hgt].
    - exists (ticks s). split; [auto |]. intros s' Hs'.
      rewrite timed_out_disabled by exact Hle.
      rewrite <- Hs'. destruct s'; reflexivity.
    - cbn [orb] in Ht. destruct (clock E (ticks s)) as [now|] eqn:Hc;
        [| discriminate].
      apply negb_true_iff in Ht.
      exists (S (ticks s)). split; [right; split; [lia | reflexivity] |].
      intros s' Hs'.
      rewrite (timed_out_enabled cfg E tv s' now) by (congruence || lia).
      rewrite Ht, Hs'. reflexivity. }
  destruct Hto as (t & Htk & Hto).
  set (e := attempt_errno (opens E (attempts s))).
  set (sa := set_errno e (set_attempts (S (attempts s)) s)).
  exists (set_slept (slept s ++ [RETRY_MS * 1000])
            (debug_out cfg (strerror E e ++ chars ", retrying" ++ [LF])
               (set_ticks t sa))).
  split.
  - intros fuel. cbn [ser_open_loop]. unfold sys_open, sys_flock.
    unfold attempt_busy in Hb. subst sa e.
    destruct (opens E (attempts s)) as [e|fd [e|]] eqn:Hop;
      [| | discriminate].
    + run. rewrite Hop. cbn. rewrite busy_errno_test, Hb. cbn.
      rewrite Hto by reflexivity. cbn. unfold debug_out.
      destruct (opt_debug cfg =? 0); reflexivity.
    + apply andb_true_iff in Hb as [Hforce Hb].
      apply negb_true_iff in Hforce.
      run. rewrite Hop. cbn.
      destruct (Z.geb_spec (Z.of_nat fd) 0) as [_|Hneg]; [| lia].
      rewrite Hforce. cbn. rewrite Hop. cbn.
      rewrite busy_errno_test, Hb. cbn.
      rewrite Hto by reflexivity. cbn. unfold debug_out.
      destruct (opt_debug cfg =? 0); reflexivity.
  - destruct (debug_out_fields cfg
                (strerror E e ++ chars ", retrying" ++ [LF]) (set_ticks t sa))
      as (D1 & D2 & D3 & D4 & D5 & D6).
    cbn [attempts ticks slept stderr stdout set_slept].
    rewrite D1, D2, D3. cbn [attempts ticks stderr set_ticks].
    split; [reflexivity |]. split; [exact Htk |].
    split; [reflexivity |]. split; [reflexivity |].
    intros Hd. rewrite D6 by exact Hd. reflexivity.
Qed.

Lemma forallb_seq_S (f : nat -> bool) k :
  forallb f (seq 0 (S k)) = f O && forallb (fun j => f (S j)) (seq 0 k).
Proof.
  cbn [seq forallb]. f_equal. rewrite <- seq_shift, forallb_map_comp.
  reflexivity.
Qed.

Lemma in_time_disabled cfg E tv t :
  opt_timeout cfg <= 0 -> in_time cfg E tv t = true.
Proof.
  intros H. unfold in_time.
  destruct (Z.leb_spec (opt_timeout cfg) 0); [reflexivity | lia].
Qed.

(** [k] failed attempts with time left: [k] sleeps of 200 ms. *)
Lemma ser_open_retries cfg E path tv k s :
  busy_for cfg E tv s k = true ->
  exists sk,
    (forall fuel, ser_open_loop cfg E (k + fuel) path tv s
                  = ser_open_loop cfg E fuel path tv sk) /\
    attempts sk = (attempts s + k)%nat /\
    (opt_timeout cfg <= 0 \/ ticks sk = (ticks s + k)%nat) /\
    slept sk = slept s ++ repeat (RETRY_MS * 1000) k /\
    stderr sk = stderr s /\
    (opt_debug cfg = 0 -> stdout sk = stdout s).
Proof.
  revert s. induction k as [|k IH]; intros s Hb.
  - exists s. cbn [repeat]. rewrite app_nil_r, !Nat.add_0_r.
    repeat split; auto.
  - unfold busy_for in Hb. rewrite forallb_seq_S in Hb.
    apply andb_true_iff in Hb as [H0 Hb].
    rewrite !Nat.add_0_r in H0. apply andb_true_iff in H0 as [Ha Ht].
    destruct (ser_open_retry cfg E path tv s Ha Ht)
      as (s1 & Hstep & Hat & Htk & Hsl & Her & Hout).
    assert (Hb1 : busy_for cfg E tv s1 k = true).
    { unfold busy_for. rewrite <- Hb. apply forallb_pointwise. intros j.
      rewrite Hat. replace (S (attempts s) + j)%nat with (attempts s + S j)%nat
        by lia.
      f_equal. destruct Htk as [[Hle Htk]|[Hpos Htk]]; rewrite Htk.
      - rewrite !in_time_disabled by exact Hle. reflexivity.
      - replace (S (ticks s) + j)%nat with (ticks s + S j)%nat by lia.
        reflexivity. }
    destruct (IH s1 Hb1) as (sk & Hrun & Hatk & Htkk & Hslk & Herk & Houtk).
    exists sk. split; [| split; [| split; [| split; [| split]]]].
    + intros fuel. cbn [Nat.add]. rewrite Hstep. apply Hrun.
    + lia.
    + destruct Htk as [[Hle Htk]|[Hpos Htk]]; [left; exact Hle |].
      destruct Htkk as [Hle|Htkk]; [left; exact Hle | right; lia].
    + rewrite Hslk, Hsl, <- app_assoc. reflexivity.
    + congruence.
    + intros Hd. rewrite Houtk, Hout; auto.
Qed.

(** An attempt that yields the descriptor ends the loop. *)
Lemma ser_open_attempt_ok cfg E fuel path tv s fd :
  attempt_ok (opt_force cfg) (opens E (attempts s)) = Some fd ->
  exists s',
    ser_open_loop cfg E (S fuel) path tv s = Ok (Z.of_nat fd) s' /\
    s' = set_attempts (S (attempts s)) s.
Proof.
  intros Hok. cbn [ser_open_loop]. unfold sys_open, sys_flock. run.
  unfold attempt_ok in Hok.
  destruct (opens E (attempts s)) as [e|fd' [e|]] eqn:Hop;
    [discriminate | |]; cbn;
    (destruct (Z.geb_spec (Z.of_nat fd') 0) as [_|Hneg]; [| lia]).
  - destruct (opt_force cfg); [| discriminate].
    injection Hok as ->. cbn. eexists. split; reflexivity.
  - injection Hok as ->.
    destruct (opt_force cfg); cbn; [| rewrite Hop; cbn];
      (eexists; split; reflexivity).
Qed.


(** ** The loops of [main] end *)

Lemma timed_out_cases cfg E tv s :
  (exists b t, timed_out cfg E tv s = Ok b (set_ticks t s)) \/
  (exists st s', timed_out cfg E tv s = Exited st s').
Proof.
  unfold timed_out, get_time, gettimeofday.
  destruct (opt_timeout cfg <=? 0).
  - left. exists false, (ticks s). destruct s; reflexivity.
  - run. destruct (clock E (ticks s)); cbn; eauto.
Qed.

Lemma main_echo_body_Continue cfg E fd cmd tv s s' :
  main_echo_body cfg E fd cmd tv s = Ok Continue s' ->
  (length (incoming s') < length (incoming s))%nat.
Proof.
  unfold main_echo_body. intros H.
  apply bind_Ok in H as ([l|] & s1 & Hr & H); [| discriminate].
  apply ser_readline_line in Hr as (S0 & Hin & _).
  destruct (strstr l cmd); [discriminate |].
  apply bind_Ok in H as (late & s2 & Ht & H).
  destruct (timed_out_cases cfg E tv s1) as [(b & t & Hb)|(st & s3 & Hb)];
    rewrite Hb in Ht; [| discriminate].
  injection Ht as <- <-.
  assert (Hs' : incoming s' = incoming s1).
  { destruct b; [discriminate |]. unfold pr_debug in H.
    destruct (opt_debug cfg =? 0); cbn in H; injection H as <-; reflexivity. }
  rewrite Hs', Hin, length_app. cbn [length]. lia.
Qed.

Lemma main_echo_body_no_spin cfg E fd cmd tv s s' :
  main_echo_body cfg E fd cmd tv s <> Spinning s'.
Proof.
  unfold main_echo_body. unfold bind at 1.
  destruct (ser_readline cfg E fd s) as [[l|] s1| | |s1] eqn:Hr;
    try discriminate.
  - destruct (strstr l cmd); [discriminate |]. unfold bind at 1.
    destruct (timed_out_cases cfg E tv s1) as [(b & t & Hb)|(st & s3 & Hb)];
      rewrite Hb; [| discriminate].
    destruct b; [discriminate |]. unfold pr_debug.
    destruct (opt_debug cfg =? 0); discriminate.
  - exfalso. exact (ser_readline_no_spin _ _ _ _ _ Hr).
Qed.

Lemma main_echo_loop_no_spin cfg E fuel fd cmd tv s s' :
  (length (incoming s) < fuel)%nat ->
  main_echo_loop cfg E fuel fd cmd tv s <> Spinning s'.
Proof.
  revert s. induction fuel as [|fuel IH]; intros s Hlen; [lia |].
  cbn [main_echo_loop]. unfold bind at 1.
  destruct (main_echo_body cfg E fd cmd tv s) as [[|] s1| | |s1] eqn:Hb;
    try discriminate.
  - apply main_echo_body_Continue in Hb. apply IH. lia.
  - exfalso. exact (main_echo_body_no_spin _ _ _ _ _ _ _ Hb).
Qed.

Lemma main_response_body_Continue cfg E fd tv s s' :
  main_response_body cfg E fd tv s = Ok Continue s' ->
  (length (incoming s') < length (incoming s))%nat.
Proof.
  unfold main_response_body. intros H.
  apply bind_Ok in H as ([l|] & s1 & Hr & H); [| discriminate].
  apply ser_readline_line in Hr as (S0 & Hin & _).
  apply bind_Ok in H as (late & s2 & Ht & H).
  destruct (timed_out_cases cfg E tv s1) as [(b & t & Hb)|(st & s3 & Hb)];
    rewrite Hb in Ht; [| discriminate].
  injection Ht as <- <-.
  destruct b; [discriminate |].
  unfold printf, bind, modify, ret in H. injection H as <-.
  change (incoming (set_stdout (stdout s1 ++ cstr l) (set_ticks t s1)))
    with (incoming s1).
  rewrite Hin, length_app. cbn [length]. lia.
Qed.

Lemma main_response_body_no_spin cfg E fd tv s s' :
  main_response_body cfg E fd tv s <> Spinning s'.
Proof.
  unfold main_response_body. unfold bind at 1.
  destruct (ser_readline cfg E fd s) as [[l|] s1| | |s1] eqn:Hr;
    try discriminate.
  - unfold bind at 1.
    destruct (timed_out_cases cfg E tv s1) as [(b & t & Hb)|(st & s3 & Hb)];
      rewrite Hb; [| discriminate].
    destruct b; discriminate.
  - exfalso. exact (ser_readline_no_spin _ _ _ _ _ Hr).
Qed.

Lemma main_response_loop_no_spin cfg E fuel fd tv s s' :
  (length (incoming s) < fuel)%nat ->
  main_response_loop cfg E fuel fd tv s <> Spinning s'.
Proof.
  revert s. induction fuel as [|fuel IH]; intros s Hlen; [lia |].
  cbn [main_response_loop]. unfold bind at 1.
  destruct (main_response_body cfg E fd tv s) as [[|] s1| | |s1] eqn:Hb;
    try discriminate.
  - apply main_response_body_Continue in Hb. apply IH. lia.
  - exfalso. exact (main_response_body_no_spin _ _ _ _ _ _ Hb).
Qed.

Lemma timeout_init_no_spin cfg E tv s s' :
  timeout_init cfg E tv s <> Spinning s'.
Proof.
  unfold timeout_init, get_time, gettimeofday.
  destruct (opt_timeout cfg <=? 0); [discriminate |].
  run. destruct (clock E (ticks s)); cbn; [| discriminate].
  destruct (_ >=? 1000000); discriminate.
Qed.

(** The fuel of [main] can only be used up by the retries of [ser_open]. *)
Lemma main_spins_in_ser_open cfg E fuel words s s' :
  main cfg E fuel words s = Spinning s' ->
  ser_open cfg E fuel (opt_dev cfg) s = Spinning s'.
Proof.
  unfold main. destruct (join_words words) as [cmd len]. intros H.
  apply bind_Spinning in H as [H|(fd & s1 & _ & H)]; [exact H |].
  exfalso.
  apply bind_Spinning in H as [H|([] & s2 & _ & H)];
    [unfold pr_debug in H; destruct (opt_debug cfg =? 0); discriminate |].
  apply bind_Spinning in H as [H|(out & s3 & _ & H)];
    [unfold sys_write in H; destruct (wr E); discriminate |].
  destruct (out <? 0); [discriminate |].
  destruct (out <? len); [discriminate |].
  apply bind_Spinning in H as [H|([] & s4 & _ & H)];
    [unfold pr_debug in H; destruct (opt_debug cfg =? 0); discriminate |].
  apply bind_Spinning in H as [H|(tv & s5 & _ & H)];
    [exact (timeout_init_no_spin _ _ _ _ _ H) |].
  rewrite bind_gets in H.
  apply bind_Spinning in H as [H|([] & s6 & _ & H)];
    [apply main_echo_loop_no_spin in H; [exact H | lia] |].
  apply bind_Spinning in H as [H|([] & s7 & _ & H)];
    [unfold pr_debug in H; destruct (opt_debug cfg =? 0); discriminate |].
  apply bind_Spinning in H as [H|(tv' & s8 & _ & H)];
    [exact (timeout_init_no_spin _ _ _ _ _ H) |].
  rewrite bind_gets in H.
  apply bind_Spinning in H as [H|([] & s9 & _ & H)];
    [apply main_response_loop_no_spin in H; [exact H | lia] |].
  discriminate.
Qed.

(** ** The default prompt *)

Lemma isalnum_plain c : isalnum c = true -> c <> CR /\ c <> LF /\ c <> NUL.
Proof.
  intros H. repeat split; intros ->; vm_compute in H; discriminate.
Qed.

Lemma is_prompt_char_plain c :
  is_prompt_char c = true -> c <> CR /\ c <> LF /\ c <> NUL.
Proof.
  intros H. repeat split; intros ->; vm_compute in H; discriminate.
Qed.

Lemma has_cons_false c a l :
  a <> c -> has c l = false -> has c (a :: l) = false.
Proof.
  intros Hne H. cbn [has existsb]. fold (has c l). rewrite H.
  destruct (Ascii.eqb_spec c a); [congruence | reflexivity].
Qed.

(** A string the default prompt matches is not empty and holds no
    carriage return, newline or NUL. *)
Lemma default_prompt_plain p :
  DEFAULT_PROMPT p = true ->
  p <> [] /\ has CR p = false /\ has LF p = false /\ has NUL p = false.
Proof.
  induction p as [|c p IH]; cbn [DEFAULT_PROMPT]; [discriminate |].
  intros H. split; [discriminate |].
  apply orb_true_iff in H as [H|H]; apply andb_true_iff in H as [Hc Hp].
  - destruct p as [|sp [|x p]]; try discriminate.
    apply Ascii.eqb_eq in Hp. subst sp.
    apply is_prompt_char_plain in Hc as (H1 & H2 & H3).
    repeat split; apply has_cons_false; auto; reflexivity.
  - apply isalnum_plain in Hc as (H1 & H2 & H3).
    destruct (IH Hp) as (_ & I1 & I2 & I3).
    repeat split; apply has_cons_false; auto.
Qed.

Lemma retained_id l : has CR l = false -> retained l = l.
Proof.
  induction l as [|a l IH]; cbn [has existsb retained filter];
    [reflexivity |].
  intros H. apply orb_false_iff in H as [Ha H].
  rewrite Ascii.eqb_sym, Ha. cbn [negb]. f_equal. apply IH, H.
Qed.

Lemma length_retained l : (length (retained l) <= length l)%nat.
Proof. apply filter_length_le. Qed.

Lemma has_true_mid c a b : has c (a ++ c :: b) = true.
Proof.
  rewrite has_app. cbn [has existsb]. rewrite Ascii.eqb_refl.
  apply orb_true_r.
Qed.

(** *** Steps of a run *)

Lemma ser_readline_returns_line cfg E fd s S0 rest :
  flowing cfg s ->
  incoming s = S0 ++ LF :: rest ->
  has LF S0 = false ->
  Z.of_nat (length (retained S0)) < LINE_SIZE - 1 ->
  prompt_free (regex_prompt cfg) (retained S0 ++ [LF]) = true ->
  exists s',
    ser_readline cfg E fd s = Ok (Some (retained S0 ++ [LF])) s' /\
    incoming s' = rest /\ flowing cfg s' /\ only_read cfg s s'.
Proof.
  intros Hf Hin Hlf Hlen Hpf.
  rewrite prompt_free_snoc in Hpf. apply andb_true_iff in Hpf as [Hpf Hp].
  apply negb_true_iff in Hp.
  pose proof (ser_readline_complete cfg E fd s Hf) as H.
  rewrite Hin, scan_at in H;
    [| apply midline_start; auto; lia | discriminate].
  destruct (Z.geb_spec (Z.of_nat (length (retained S0))) (LINE_SIZE - 1));
    [lia |].
  rewrite Hp, Ascii.eqb_refl in H. cbn [negb] in H.
  destruct H as (s' & Hr & Hi & Hf').
  exists s'. repeat split; auto; apply ser_readline_sound in Hr; apply Hr.
Qed.

Lemma ser_readline_reports_default_prompt cfg E fd s p :
  regex_prompt cfg = DEFAULT_PROMPT ->
  flowing cfg s ->
  incoming s = p ->
  DEFAULT_PROMPT p = true ->
  Z.of_nat (length p) <= LINE_SIZE - 1 ->
  exists s', ser_readline cfg E fd s = Ok None s' /\ only_read cfg s s'.
Proof.
  intros HP Hf Hin Hp Hlen.
  destruct (default_prompt_plain p Hp) as (Hne & Hcr & Hlf & Hnul).
  pose proof (ser_readline_complete cfg E fd s Hf) as H.
  pose proof (scan_found (regex_prompt cfg) [] (incoming s)) as Hs.
  cbn [length app] in Hs. rewrite Hin in *.
  destruct (scan (regex_prompt cfg) [] p) as [l|rest|rest|l rest].
  - exfalso. destruct Hs as [(_ & Hpf & _) _]; [unfold LINE_SIZE; lia |].
    rewrite retained_id in Hpf by exact Hcr.
    apply prompt_free_spec with (p := p) (q := []) in Hpf;
      [| rewrite app_nil_r; reflexivity | exact Hne].
    unfold prompt_at, regexec in Hpf.
    rewrite HP, cstr_no_nul, Hp in Hpf by exact Hnul. discriminate.
  - exfalso. destruct Hs as (S0 & c & Hsp & _ & _ & Hl);
      [unfold LINE_SIZE; lia |].
    pose proof (length_retained S0) as Hr.
    rewrite Hsp, length_app in Hlen. cbn [length] in Hlen. lia.
  - destruct H as (s' & Hr & _). exists s'. split; [exact Hr |].
    apply ser_readline_sound in Hr. apply Hr.
  - exfalso. destruct Hs as (S0 & Hsp & _); [unfold LINE_SIZE; lia |].
    rewrite Hsp, has_true_mid in Hlf. discriminate.
Qed.

Lemma pr_debug_off cfg text s : opt_debug cfg = 0 -> pr_debug cfg text s = Ok tt s.
Proof. intros H. unfold pr_debug. rewrite H. reflexivity. Qed.

Lemma timeout_init_ok cfg E tv s :
  clock_ok cfg E (ticks s) = true ->
  exists tv',
    timeout_init cfg E tv s = Ok tv' (set_ticks (tick cfg (ticks s)) s) /\
    (0 < opt_timeout cfg ->
     exists now, clock E (ticks s) = Some now /\ tv' = deadline cfg now).
Proof.
  unfold clock_ok, tick. intros H.
  destruct (Z.leb_spec (opt_timeout cfg) 0) as [Hle|Hgt].
  - exists tv. rewrite timeout_init_disabled by exact Hle.
    split; [destruct s; reflexivity | lia].
  - cbn [orb] in H. destruct (clock E (ticks s)) as [now|] eqn:Hc;
      [| discriminate].
    exists (deadline cfg now).
    rewrite (timeout_init_enabled cfg E tv s now) by assumption.
    split; [reflexivity | eauto].
Qed.

Lemma drop_cap_step cfg E s :
  (if negb (opt_force cfg) then drop_cap_sys_admin E else ret tt) s
  = Ok tt (after_capng cfg E s).
Proof.
  unfold after_capng, drop_cap_sys_admin.
  destruct (negb (opt_force cfg)); [| reflexivity].
  destruct (capng E); reflexivity.
Qed.

Lemma after_capng_fields cfg E s :
  dev (after_capng cfg E s) = dev s /\
  buf (after_capng cfg E s) = buf s /\
  pos (after_capng cfg E s) = pos s /\
  stdout (after_capng cfg E s) = stdout s /\
  stderr (after_capng cfg E s) = stderr s /\
  sent (after_capng cfg E s) = sent s /\
  ticks (after_capng cfg E s) = ticks s /\
  attempts (after_capng cfg E s) = attempts s /\
  slept (after_capng cfg E s) = slept s /\
  closed (after_capng cfg E s) = closed s /\
  cap_dropped (after_capng cfg E s)
  = (negb (opt_force cfg) && capng_ok E) || cap_dropped s.
Proof.
  unfold after_capng, capng_ok.
  destruct (opt_force cfg), (capng E); cbn; auto 12.
Qed.

Lemma ser_open_ok cfg E fuel path s fd :
  attempt_ok (opt_force cfg) (opens E (attempts s)) = Some fd ->
  tty_ok E = true ->
  clock_ok cfg E (ticks s) = true ->
  opt_debug cfg = 0 ->
  exists s',
    ser_open cfg E (S fuel) path s = Ok (Z.of_nat fd) s' /\
    dev s' = dev s /\ buf s' = buf s /\ pos s' = pos s /\
    stdout s' = stdout s /\ stderr s' = stderr s /\ sent s' = sent s /\
    ticks s' = tick cfg (ticks s).
Proof.
  intros Hok Htty Hclk Hdbg. unfold ser_open.
  rewrite (bind_eq_Ok _ _ _ _ _ (drop_cap_step cfg E s)).
  destruct (after_capng_fields cfg E s)
    as (F1 & F2 & F3 & F4 & F5 & F6 & Ht1 & Ha1 & _).
  set (s1 := after_capng cfg E s) in *. clearbody s1.
  rewrite (bind_eq_Ok _ _ _ _ _ (pr_debug_off cfg _ s1 Hdbg)).
  destruct (timeout_init_ok cfg E tv_unset s1) as (tv & Hti & _);
    [rewrite Ht1; exact Hclk |].
  rewrite (bind_eq_Ok _ _ _ _ _ Hti).
  destruct (ser_open_attempt_ok cfg E fuel path tv
              (set_ticks (tick cfg (ticks s1)) s1) fd) as (s2 & Hop & Hs2);
    [cbn [attempts set_ticks]; rewrite Ha1; exact Hok |].
  rewrite (bind_eq_Ok _ _ _ _ _ Hop).
  unfold tty_ok in Htty.
  destruct (tiocexcl (tty E)); [discriminate |].
  destruct (tcgetattr (tty E)); [discriminate |].
  destruct (tcsetattr (tty E)); [discriminate |].
  destruct (tcflush (tty E)); [discriminate |].
  run. eexists. split; [reflexivity |].
  subst s2. rewrite <- Ht1, <- F1, <- F2, <- F3, <- F4, <- F5, <- F6.
  cbn. repeat split; reflexivity.
Qed.

Lemma reader_view cfg s s' :
  dev s' = dev s -> buf s' = buf s -> pos s' = pos s ->
  incoming s' = incoming s /\ (flowing cfg s -> flowing cfg s').
Proof.
  unfold incoming, flowing. intros -> -> ->. auto.
Qed.

Lemma round_trip_clock_facts cfg E :
  round_trip_clock cfg E = true ->
  clock_ok cfg E 0 = true /\
  clock_ok cfg E (tick cfg 0) = true /\
  clock_ok cfg E (tick cfg (tick cfg 0)) = true /\
  forall s tv,
    ticks s = tick cfg (tick cfg (tick cfg 0)) ->
    (0 < opt_timeout cfg ->
     exists now, clock E (tick cfg (tick cfg 0)) = Some now /\
                 tv = deadline cfg now) ->
    exists s', timed_out cfg E tv s = Ok false s' /\
               stdout s' = stdout s /\ stderr s' = stderr s /\
               sent s' = sent s /\ dev s' = dev s /\ buf s' = buf s /\
               pos s' = pos s.
Proof.
  unfold round_trip_clock, clock_ok, tick. intros H.
  destruct (Z.leb_spec (opt_timeout cfg) 0) as [Hle|Hgt]; cbn [orb] in *.
  - repeat split; try reflexivity. intros s tv _ _.
    exists s. rewrite timed_out_disabled by exact Hle. repeat split.
  - destruct (clock E 0); [| discriminate].
    destruct (clock E 1); [| discriminate].
    destruct (clock E 2) as [t2|] eqn:H2; [| discriminate].
    destruct (clock E 3) as [t3|] eqn:H3; [| discriminate].
    apply negb_true_iff in H.
    repeat split; try reflexivity. intros s tv Hs Htv.
    destruct (Htv Hgt) as (now & Hnow & ->). injection Hnow as <-.
    rewrite (timed_out_enabled cfg E _ s t3) by (congruence || lia).
    rewrite H. eexists. split; [reflexivity |]. cbn. repeat split.
Qed.

(** C3: the run with the command words ["reset"], the default prompt
    and debugging off, against a device that opens and takes the whole
    command, and whose stream is exactly the echo "reset\n", then "OK\n",
    then a line [p] the default prompt matches, all delivered in time:
    the process exits with status 0 having printed exactly "OK\n" to the
    standard output and nothing to the standard error. *)
Theorem C3_round_trip cfg E d p fd k fuel :
  regex_prompt cfg = DEFAULT_PROMPT ->
  opt_debug cfg = 0 ->
  flowing cfg (initial d) ->
  flat_map burst_bytes d
  = chars "reset" ++ [LF] ++ chars "OK" ++ [LF] ++ p ->
  DEFAULT_PROMPT p = true ->
  Z.of_nat (length p) <= LINE_SIZE - 1 ->
  attempt_ok (opt_force cfg) (opens E 0) = Some fd ->
  tty_ok E = true ->
  wr E = Wrote k -> (6 <= k)%nat ->
  round_trip_clock cfg E = true ->
  exists s',
    main cfg E (S fuel) [chars "reset"] (initial d) = Exited 0 s' /\
    exit_status 0 = 0 /\
    stdout s' = chars "OK" ++ [LF] /\
    stderr s' = [] /\
    sent s' = chars "reset" ++ [LF].
Proof.
  intros HP Hdbg Hf Hin Hp Hlen Hop Htty Hwr Hk Hclk.
  destruct (round_trip_clock_facts cfg E Hclk) as (C0 & C1 & C2 & C3).
  unfold main.
  assert (Hj : join_words [chars "reset"] = (chars "reset" ++ [LF], 6))
    by (vm_compute; reflexivity).
  rewrite Hj.
  destruct (ser_open_ok cfg E fuel (opt_dev cfg) (initial d) fd)
    as (s1 & Ho & D1 & B1 & P1 & O1 & E1 & S1 & T1); auto.
  rewrite (bind_eq_Ok _ _ _ _ _ Ho).
  rewrite (bind_eq_Ok _ _ _ _ _ (pr_debug_off cfg _ s1 Hdbg)).
  (* the command is written in full *)
  assert (Hcmd : firstn 6 (chars "reset" ++ [LF]) = chars "reset" ++ [LF])
    by (vm_compute; reflexivity).
  assert (Hw : sys_write E (Z.of_nat fd) (chars "reset" ++ [LF]) 6 s1
               = Ok 6 (set_sent (sent s1 ++ chars "reset" ++ [LF]) s1)).
  { unfold sys_write. rewrite Hwr. run.
    change (Pos.to_nat 6) with 6%nat. rewrite Nat.min_r by exact Hk.
    rewrite Hcmd. reflexivity. }
  rewrite (bind_eq_Ok _ _ _ _ _ Hw).
  change (6 <? 0) with false. change (6 <? 6) with false. cbv iota.
  set (s3 := set_sent (sent s1 ++ chars "reset" ++ [LF]) s1).
  rewrite (bind_eq_Ok _ _ _ _ _ (pr_debug_off cfg _ s3 Hdbg)).
  (* the echo wait *)
  destruct (timeout_init_ok cfg E tv_unset s3) as (tv1 & Hti1 & _);
    [subst s3; cbn [ticks set_sent]; rewrite T1; exact C1 |].
  rewrite (bind_eq_Ok _ _ _ _ _ Hti1).
  set (s4 := set_ticks (tick cfg (ticks s3)) s3).
  rewrite bind_gets. cbn [main_echo_loop]. rewrite bind_assoc.
  destruct (reader_view cfg (initial d) s4) as [Hin4 Hf4];
    [subst s4 s3; cbn; assumption ..|].
  change (incoming (initial d)) with (flat_map burst_bytes d) in Hin4.
  destruct (ser_readline_returns_line cfg E (Z.of_nat fd) s4 (chars "reset")
              (chars "OK" ++ [LF] ++ p))
    as (s5 & Hr5 & Hin5 & Hf5 & Hro5); auto.
  { rewrite Hin4, Hin. reflexivity. }
  { vm_compute. reflexivity. }
  { rewrite HP. vm_compute. reflexivity. }
  assert (Hecho : main_echo_body cfg E (Z.of_nat fd) (chars "reset" ++ [LF])
                    tv1 s4 = Ok Break s5).
  { unfold main_echo_body. rewrite (bind_eq_Ok _ _ _ _ _ Hr5).
    assert (Hs : strstr (retained (chars "reset") ++ [LF])
                   (chars "reset" ++ [LF]) = Some 0%nat)
      by (vm_compute; reflexivity).
    rewrite Hs. reflexivity. }
  rewrite (bind_eq_Ok _ _ _ _ _ Hecho).
  change (bind (ret tt) ?k s5) with (k tt s5). cbv beta.
  rewrite (bind_eq_Ok _ _ _ _ _ (pr_debug_off cfg _ s5 Hdbg)).
  destruct Hro5 as (R1 & R2 & _ & _ & _ & R6 & _ & _ & R9).
  (* the response *)
  assert (Ht5 : ticks s5 = tick cfg (tick cfg 0))
    by (rewrite R2; subst s4 s3; cbn [ticks set_ticks set_sent];
        rewrite T1; reflexivity).
  destruct (timeout_init_ok cfg E tv1 s5) as (tv2 & Hti2 & Htv2);
    [rewrite Ht5; exact C2 |].
  rewrite (bind_eq_Ok _ _ _ _ _ Hti2).
  set (s6 := set_ticks (tick cfg (ticks s5)) s5).
  rewrite bind_gets.
  destruct (reader_view cfg s5 s6) as [Hin6 Hf6]; [reflexivity ..|].
  assert (Hfuel : exists n, S (length (incoming s6)) = S (S n)).
  { rewrite Hin6, Hin5, !length_app. cbn [length].
    exists (length (chars "OK") + (0 + length p))%nat. lia. }
  destruct Hfuel as (n & ->). cbn [main_response_loop].
  rewrite !bind_assoc.
  destruct (ser_readline_returns_line cfg E (Z.of_nat fd) s6 (chars "OK") p)
    as (s7 & Hr7 & Hin7 & Hf7 & Hro7); auto.
  { vm_compute. reflexivity. }
  { rewrite HP. vm_compute. reflexivity. }
  destruct Hro7 as (Q1 & Q2 & _ & _ & _ & Q6 & _ & _ & Q9).
  destruct (C3 s7 tv2) as (s8 & Hto & W1 & W2 & W3 & W4 & W5 & W6).
  { rewrite Q2. subst s6. cbn [ticks set_ticks]. rewrite Ht5. reflexivity. }
  { intros Hpos. rewrite <- Ht5. exact (Htv2 Hpos). }
  assert (Hok : cstr (retained (chars "OK") ++ [LF]) = chars "OK" ++ [LF])
    by (vm_compute; reflexivity).
  set (s9 := set_stdout (stdout s8 ++ chars "OK" ++ [LF]) s8).
  assert (Hb1 : main_response_body cfg E (Z.of_nat fd) tv2 s6
                = Ok Continue s9).
  { unfold main_response_body. rewrite (bind_eq_Ok _ _ _ _ _ Hr7).
    rewrite (bind_eq_Ok _ _ _ _ _ Hto). unfold printf. run.
    rewrite Hok. reflexivity. }
  rewrite (bind_eq_Ok _ _ _ _ _ Hb1). cbv beta iota.
  cbn [main_response_loop]. rewrite !bind_assoc.
  destruct (reader_view cfg s7 s9) as [Hin9 Hf9];
    [subst s9; cbn; assumption ..|].
  destruct (ser_readline_reports_default_prompt cfg E (Z.of_nat fd) s9 p)
    as (s10 & Hr10 & Hro10); auto.
  { rewrite Hin9. exact Hin7. }
  destruct Hro10 as (U1 & _ & _ & _ & _ & U6 & _ & _ & U9).
  assert (Hb2 : main_response_body cfg E (Z.of_nat fd) tv2 s9
                = Ok Break s10).
  { unfold main_response_body. rewrite (bind_eq_Ok _ _ _ _ _ Hr10).
    reflexivity. }
  rewrite (bind_eq_Ok _ _ _ _ _ Hb2). run.
  eexists. split; [reflexivity |]. split; [reflexivity |].
  cbn [stdout stderr sent set_closed].
  split; [| split].
  - rewrite (U9 Hdbg). subst s9. cbn [stdout set_stdout].
    rewrite W1, (Q9 Hdbg). subst s6. cbn [stdout set_ticks].
    rewrite (R9 Hdbg). subst s4 s3. cbn [stdout set_ticks set_sent].
    rewrite O1. reflexivity.
  - rewrite U1. subst s9. cbn [stderr set_stdout].
    rewrite W2, Q1. subst s6. cbn [stderr set_ticks].
    rewrite R1. subst s4 s3. cbn [stderr set_ticks set_sent].
    rewrite E1. reflexivity.
  - rewrite U6. subst s9. cbn [sent set_stdout].
    rewrite W3, Q6. subst s6. cbn [sent set_ticks].
    rewrite R6. subst s4 s3. cbn [sent set_ticks set_sent].
    rewrite S1. reflexivity.
Qed.

#[local] Transparent BUF_SIZE chars fmt_d fmt_x hexdump_rows.

(** ** Concrete runs *)

(** C1: with a budget of 0, the readiness wait of [ser_getc] ends the run
    with "Timeout" as soon as the device is not readable at once: [poll]
    is given the budget itself, and a timeout of 0 makes it return
    without waiting; the deadline checks, which test [opt_timeout <= 0],
    are the only place where 0 disables the timeout.  The same session
    completes with a budget of -1. *)
Theorem C1_zero_budget_times_out :
  let reading := ser_getc (with_timeout 0 ttyACM0) env_ok 3
                   (initial reset_session) in
  let run := main (with_timeout 0 ttyACM0) env_ok 1 [chars "reset"]
               (initial reset_session) in
  exited reading = Some (-1) /\
  stderr (final reading) = chars "Timeout" ++ [LF] /\
  exited run = Some (-1) /\
  stderr (final run) = chars "Timeout" ++ [LF] /\
  stdout (final run) = [] /\
  exited (main (with_timeout (-1) ttyACM0) env_ok 1 [chars "reset"]
            (initial reset_session)) = Some 0.
Proof. vm_compute. repeat split; reflexivity. Qed.

(** Only a negative budget makes [poll] wait without bound: it then never
    reports a timeout. *)
Lemma sys_poll_negative timeout s r s' :
  timeout < 0 -> sys_poll timeout s = Ok r s' -> fst r <> 0.
Proof.
  intros Hneg. unfold sys_poll. run.
  destruct (Z.ltb_spec timeout 0) as [_|H]; [| lia]. cbn.
  destruct (dev s) as [|[wait bytes|wait e|e] d]; cbn;
    intros H; try discriminate; injection H as <- _; cbn; lia.
Qed.

(** C6: [timeout_init] adds the budget in [int] arithmetic: the product
    [opt_timeout * 1000] is an [int], and [div] takes the [long] sum of
    the microseconds as an [int].  With a budget of 2147483 ms and the
    clock at 999999 us the sum, 2148482999, does not fit: the deadline
    stored has a negative microsecond field and lies 2146 s in the past,
    so that [timed_out] holds at once. *)
Theorem C6_deadline_overflow :
  let now := {| tv_sec := 1700000000; tv_usec := 999999 |} in
  let cfg := with_timeout 2147483 ttyACM0 in
  let E := plain_env (stopped_clock now) free_device in
  returned (timeout_init cfg E tv_unset (initial []))
  = Some {| tv_sec := 1699997854; tv_usec := -484297 |} /\
  usec_of {| tv_sec := 1699997854; tv_usec := -484297 |}
  < usec_of now + 2147483 * 1000 /\
  returned (timed_out cfg E {| tv_sec := 1699997854; tv_usec := -484297 |}
              (initial []))
  = Some true.
Proof. vm_compute. repeat split; reflexivity. Qed.

Lemma C2_witness :
  exists s',
    ser_readline ttyACM0 env_ok 3 (initial [Burst 0 (chars "mcu> ls")])
    = Ok None s' /\
    incoming s' = chars "ls".
Proof.
  apply (proj1 (C2_prompt_at_first_match ttyACM0 env_ok 3
                  (initial [Burst 0 (chars "mcu> ls")]))
           (chars "mcu>") " "%char (chars "ls")).
  - reflexivity.
  - reflexivity.
  - discriminate.
  - reflexivity.
  - vm_compute. reflexivity.
  - reflexivity.
  - reflexivity.
Defined.

Lemma C3_witness :
  exists s',
    main ttyACM0 env_ok 1 [chars "reset"] (initial reset_session)
    = Exited 0 s' /\
    exit_status 0 = 0 /\
    stdout s' = chars "OK" ++ [LF] /\
    stderr s' = [] /\
    sent s' = chars "reset" ++ [LF].
Proof.
  apply (C3_round_trip ttyACM0 env_ok reset_session (chars "mcu> ")
           3%nat 4096%nat 0%nat).
  - reflexivity.
  - reflexivity.
  - reflexivity.
  - reflexivity.
  - reflexivity.
  - vm_compute. discriminate.
  - reflexivity.
  - reflexivity.
  - reflexivity.
  - lia.
  - vm_compute. reflexivity.
Defined.

Lemma C4_witness :
  (exists s',
      ser_readline ttyACM0 env_ok 3
        (initial [Burst 0 (repeat "a"%char 1024 ++ chars "bc" ++ [LF])])
      = Exited (-1) s' /\
      (forall fuel,
          main_response_loop ttyACM0 env_ok (S fuel) 3 tv_unset
            (initial [Burst 0 (repeat "a"%char 1024 ++ chars "bc" ++ [LF])])
          = Exited (-1) s' /\
          main_echo_loop ttyACM0 env_ok (S fuel) 3 (chars "reset" ++ [LF])
            tv_unset
            (initial [Burst 0 (repeat "a"%char 1024 ++ chars "bc" ++ [LF])])
          = Exited (-1) s') /\
      exit_status (-1) <> 0 /\
      stderr s' = [] ++ chars "Line too long" ++ [LF] /\
      (opt_debug ttyACM0 = 0 -> stdout s' = [])) /\
  (exists s',
      ser_readline ttyACM0 env_ok 3
        (initial [Burst 0 (repeat "a"%char 1022 ++ [LF])])
      = Ok (Some (retained (repeat "a"%char 1022) ++ [LF])) s' /\
      incoming s' = []).
Proof.
  split.
  - apply (proj1 (C4_line_too_long ttyACM0 env_ok 3 (chars "reset" ++ [LF])
                    tv_unset
                    (initial [Burst 0 (repeat "a"%char 1024 ++ chars "bc"
                                         ++ [LF])]))
             (repeat "a"%char 1023) "a"%char (chars "bc" ++ [LF])).
    + reflexivity.
    + vm_compute. reflexivity.
    + discriminate.
    + vm_compute. reflexivity.
    + vm_compute. reflexivity.
    + vm_compute. reflexivity.
  - apply (proj2 (C4_line_too_long ttyACM0 env_ok 3 (chars "reset" ++ [LF])
                    tv_unset
                    (initial [Burst 0 (repeat "a"%char 1022 ++ [LF])]))
             (repeat "a"%char 1022) []).
    + reflexivity.
    + vm_compute. reflexivity.
    + vm_compute. reflexivity.
    + vm_compute. discriminate.
    + vm_compute. reflexivity.
Defined.


Lemma C7_witness :
  (exists s',
      ser_readline ttyACM0 env_ok 3 (initial [Burst 0 (chars "OK" ++ [LF])])
      = Ok (Some (retained (chars "OK") ++ [LF])) s' /\
      incoming s' = []) /\
  (exists s',
      ser_readline (with_prompt newline_prompt ttyACM0) env_ok 3
        (initial [Burst 0 (chars "OK" ++ [LF])])
      = Ok None s' /\
      incoming s' = []).
Proof.
  split.
  - apply (proj2 (C7_line_keeps_newline ttyACM0 env_ok 3
                    (initial [Burst 0 (chars "OK" ++ [LF])]))
             (chars "OK") []).
    + vm_compute. reflexivity.
    + vm_compute. reflexivity.
    + vm_compute. reflexivity.
    + vm_compute. reflexivity.
    + vm_compute. reflexivity.
  - apply (proj2 (C7_line_keeps_newline (with_prompt newline_prompt ttyACM0)
                    env_ok 3 (initial [Burst 0 (chars "OK" ++ [LF])]))
             (chars "OK") []).
    + vm_compute. reflexivity.
    + vm_compute. reflexivity.
    + vm_compute. reflexivity.
    + vm_compute. reflexivity.
    + vm_compute. reflexivity.
Defined.

Lemma C8_witness :
  returned (ser_readline ttyACM0 env_ok 3
              (initial [Burst 0 [CR]; Burst 1 (chars "O" ++ [CR] ++ chars "K"
                                                 ++ [CR; LF])]))
  = returned (ser_readline ttyACM0 env_ok 3
                (initial [Burst 0 (chars "OK" ++ [LF])])) /\
  (too_long (initial [Burst 0 [CR]; Burst 1 (chars "O" ++ [CR] ++ chars "K"
                                               ++ [CR; LF])])
     (ser_readline ttyACM0 env_ok 3
        (initial [Burst 0 [CR]; Burst 1 (chars "O" ++ [CR] ++ chars "K"
                                           ++ [CR; LF])])) <->
   too_long (initial [Burst 0 (chars "OK" ++ [LF])])
     (ser_readline ttyACM0 env_ok 3
        (initial [Burst 0 (chars "OK" ++ [LF])]))).
Proof.
  apply (proj2 (C8_carriage_returns_discarded ttyACM0 env_ok 3
                  (initial [Burst 0 (chars "OK" ++ [LF])]))
           (initial [Burst 0 [CR]; Burst 1 (chars "O" ++ [CR] ++ chars "K"
                                              ++ [CR; LF])])).
  - vm_compute. reflexivity.
  - vm_compute. reflexivity.
  - vm_compute. reflexivity.
Defined.

Lemma C9_witness :
  (main_echo_body ttyACM0 (plain_env s_clock free_device) 3
     (chars "reset" ++ [LF]) {| tv_sec := 0; tv_usec := 0 |}
     (initial [Burst 0 (chars "reset" ++ [LF])])
   = Ok Break
       (final (ser_readline ttyACM0 (plain_env s_clock free_device) 3
                 (initial [Burst 0 (chars "reset" ++ [LF])]))) /\
   ticks (final (ser_readline ttyACM0 (plain_env s_clock free_device) 3
                   (initial [Burst 0 (chars "reset" ++ [LF])])))
   = ticks (initial [Burst 0 (chars "reset" ++ [LF])]) /\
   forall fuel,
     main_echo_loop ttyACM0 (plain_env s_clock free_device) (S fuel) 3
       (chars "reset" ++ [LF]) {| tv_sec := 0; tv_usec := 0 |}
       (initial [Burst 0 (chars "reset" ++ [LF])])
     = Ok tt
         (final (ser_readline ttyACM0 (plain_env s_clock free_device) 3
                   (initial [Burst 0 (chars "reset" ++ [LF])])))) /\
  later {| tv_sec := 1700000000; tv_usec := 0 |}
    {| tv_sec := 0; tv_usec := 0 |} = true /\
  (main_echo_body ttyACM0 env_ok 3 (chars "reset" ++ [LF])
     {| tv_sec := 1700000002; tv_usec := 0 |}
     (initial [Burst 0 (chars "mcu> ")])
   = Exited (-1)
       (echo_not_found
          (final (ser_readline ttyACM0 env_ok 3
                    (initial [Burst 0 (chars "mcu> ")])))) /\
   forall fuel,
     main_echo_loop ttyACM0 env_ok (S fuel) 3 (chars "reset" ++ [LF])
       {| tv_sec := 1700000002; tv_usec := 0 |}
       (initial [Burst 0 (chars "mcu> ")])
     = Exited (-1)
         (echo_not_found
            (final (ser_readline ttyACM0 env_ok 3
                      (initial [Burst 0 (chars "mcu> ")]))))) /\
  (main_echo_body ttyACM0 (plain_env s_clock free_device) 3
     (chars "reset" ++ [LF]) {| tv_sec := 0; tv_usec := 0 |}
     (initial [Burst 0 (chars "boot" ++ [LF])])
   = Exited (-1)
       (echo_not_found
          (set_ticks
             (S (ticks (final (ser_readline ttyACM0
                                 (plain_env s_clock free_device) 3
                                 (initial [Burst 0 (chars "boot" ++ [LF])])))))
             (final (ser_readline ttyACM0 (plain_env s_clock free_device) 3
                       (initial [Burst 0 (chars "boot" ++ [LF])]))))) /\
   forall fuel,
     main_echo_loop ttyACM0 (plain_env s_clock free_device) (S fuel) 3
       (chars "reset" ++ [LF]) {| tv_sec := 0; tv_usec := 0 |}
       (initial [Burst 0 (chars "boot" ++ [LF])])
     = Exited (-1)
         (echo_not_found
            (set_ticks
               (S (ticks (final (ser_readline ttyACM0
                                   (plain_env s_clock free_device) 3
                                   (initial [Burst 0
                                               (chars "boot" ++ [LF])])))))
               (final (ser_readline ttyACM0 (plain_env s_clock free_device) 3
                         (initial [Burst 0 (chars "boot" ++ [LF])])))))) /\
  (main_echo_body ttyACM0 env_ok 3 (chars "reset" ++ [LF])
     {| tv_sec := 1700000002; tv_usec := 0 |}
     (initial [Burst 0 (chars "boot" ++ [LF])])
   = Ok Continue
       (debug_out ttyACM0 (chars "Ignoring " ++ cstr (chars "boot" ++ [LF]))
          (set_ticks
             (tick ttyACM0
                (ticks (final (ser_readline ttyACM0 env_ok 3
                                 (initial [Burst 0
                                             (chars "boot" ++ [LF])])))))
             (final (ser_readline ttyACM0 env_ok 3
                       (initial [Burst 0 (chars "boot" ++ [LF])]))))) /\
   forall fuel,
     main_echo_loop ttyACM0 env_ok (S fuel) 3 (chars "reset" ++ [LF])
       {| tv_sec := 1700000002; tv_usec := 0 |}
       (initial [Burst 0 (chars "boot" ++ [LF])])
     = main_echo_loop ttyACM0 env_ok fuel 3 (chars "reset" ++ [LF])
         {| tv_sec := 1700000002; tv_usec := 0 |}
         (debug_out ttyACM0
            (chars "Ignoring " ++ cstr (chars "boot" ++ [LF]))
            (set_ticks
               (tick ttyACM0
                  (ticks (final (ser_readline ttyACM0 env_ok 3
                                   (initial [Burst 0
                                               (chars "boot" ++ [LF])])))))
               (final (ser_readline ttyACM0 env_ok 3
                         (initial [Burst 0 (chars "boot" ++ [LF])])))))) /\
  (ser_readline ttyACM0 env_ok 3 (initial [Burst 0 (chars "mcu> ")])
   = Exited (-1)
       (final (main_echo_body ttyACM0 env_ok 3 (chars "reset" ++ [LF])
                 {| tv_sec := 1700000002; tv_usec := 0 |}
                 (initial [Burst 0 (chars "mcu> ")]))) \/
   (exists s1,
       ser_readline ttyACM0 env_ok 3 (initial [Burst 0 (chars "mcu> ")])
       = Ok None s1 /\
       -1 = -1 /\
       final (main_echo_body ttyACM0 env_ok 3 (chars "reset" ++ [LF])
                {| tv_sec := 1700000002; tv_usec := 0 |}
                (initial [Burst 0 (chars "mcu> ")]))
       = echo_not_found s1) \/
   (exists l s1,
       ser_readline ttyACM0 env_ok 3 (initial [Burst 0 (chars "mcu> ")])
       = Ok (Some l) s1 /\
       strstr l (chars "reset" ++ [LF]) = None /\
       (timed_out ttyACM0 env_ok {| tv_sec := 1700000002; tv_usec := 0 |} s1
        = Exited (-1)
            (final (main_echo_body ttyACM0 env_ok 3 (chars "reset" ++ [LF])
                      {| tv_sec := 1700000002; tv_usec := 0 |}
                      (initial [Burst 0 (chars "mcu> ")]))) \/
        exists s2,
          timed_out ttyACM0 env_ok {| tv_sec := 1700000002; tv_usec := 0 |}
            s1 = Ok true s2 /\
          -1 = -1 /\
          final (main_echo_body ttyACM0 env_ok 3 (chars "reset" ++ [LF])
                   {| tv_sec := 1700000002; tv_usec := 0 |}
                   (initial [Burst 0 (chars "mcu> ")]))
          = echo_not_found s2))).
Proof.
  split; [| split; [vm_compute; reflexivity |]].
  - apply (proj1 (C9_echo_test_before_deadline ttyACM0
                    (plain_env s_clock free_device) 3 (chars "reset" ++ [LF])
                    {| tv_sec := 0; tv_usec := 0 |}
                    (initial [Burst 0 (chars "reset" ++ [LF])]))
             (chars "reset" ++ [LF])
             (final (ser_readline ttyACM0 (plain_env s_clock free_device) 3
                       (initial [Burst 0 (chars "reset" ++ [LF])])))
             0%nat).
    + vm_compute. reflexivity.
    + vm_compute. reflexivity.
  - split; [| split; [| split]].
    + apply (proj1 (proj2 (C9_echo_test_before_deadline ttyACM0 env_ok 3
                             (chars "reset" ++ [LF])
                             {| tv_sec := 1700000002; tv_usec := 0 |}
                             (initial [Burst 0 (chars "mcu> ")])))
               (final (ser_readline ttyACM0 env_ok 3
                         (initial [Burst 0 (chars "mcu> ")])))).
      vm_compute. reflexivity.
    + apply (proj1 (proj2 (proj2
               (C9_echo_test_before_deadline ttyACM0
                  (plain_env s_clock free_device) 3 (chars "reset" ++ [LF])
                  {| tv_sec := 0; tv_usec := 0 |}
                  (initial [Burst 0 (chars "boot" ++ [LF])]))))
               (chars "boot" ++ [LF])
               (final (ser_readline ttyACM0 (plain_env s_clock free_device) 3
                         (initial [Burst 0 (chars "boot" ++ [LF])])))).
      * vm_compute. reflexivity.
      * vm_compute. reflexivity.
      * vm_compute. reflexivity.
    + apply (proj1 (proj2 (proj2 (proj2
               (C9_echo_test_before_deadline ttyACM0 env_ok 3
                  (chars "reset" ++ [LF])
                  {| tv_sec := 1700000002; tv_usec := 0 |}
                  (initial [Burst 0 (chars "boot" ++ [LF])])))))
               (chars "boot" ++ [LF])
               (final (ser_readline ttyACM0 env_ok 3
                         (initial [Burst 0 (chars "boot" ++ [LF])])))).
      * vm_compute. reflexivity.
      * vm_compute. reflexivity.
      * vm_compute. reflexivity.
    + apply (proj2 (proj2 (proj2 (proj2
               (C9_echo_test_before_deadline ttyACM0 env_ok 3
                  (chars "reset" ++ [LF])
                  {| tv_sec := 1700000002; tv_usec := 0 |}
                  (initial [Burst 0 (chars "mcu> ")])))))
               (-1)
               (final (main_echo_body ttyACM0 env_ok 3 (chars "reset" ++ [LF])
                         {| tv_sec := 1700000002; tv_usec := 0 |}
                         (initial [Burst 0 (chars "mcu> ")])))).
      vm_compute. reflexivity.
Defined.

Lemma C10_witness :
  (strstr (chars "reset" ++ [LF]) (fst (join_words [chars "reset"])) <> None
   <-> exists pre,
         cstr (chars "reset" ++ [LF])
         = pre ++ fst (join_words [chars "reset"])) /\
  (forall pre extra i,
      chars "reset" = pre ++ join_from 0 [chars "reset"] ++ extra ->
      strstr (chars "reset" ++ [LF]) (fst (join_words [chars "reset"]))
      = Some i ->
      i = (length pre + length extra)%nat /\
      exists pre', chars "reset" = pre' ++ join_from 0 [chars "reset"]).
Proof.
  apply (C10_echo_match_at_line_end [chars "reset"] (chars "reset")).
  vm_compute. reflexivity.
Defined.

(** * Further properties *)

#[local] Opaque BUF_SIZE chars fmt_d fmt_x hexdump_rows.

(** ** Frames *)

Lemma keeps_ret {A B} (f : state -> B) (a : A) : keeps f (ret a).
Proof. intros s. reflexivity. Qed.

Lemma keeps_gets {A B} (f : state -> B) (g : state -> A) : keeps f (gets g).
Proof. intros s. reflexivity. Qed.

Lemma keeps_exit {A B} (f : state -> B) st : keeps f (exit st : M A).
Proof. intros s. reflexivity. Qed.

Lemma keeps_block {A B} (f : state -> B) : keeps f (block : M A).
Proof. intros s. reflexivity. Qed.

Lemma keeps_spin {A B} (f : state -> B) : keeps f (spin : M A).
Proof. intros s. reflexivity. Qed.

Lemma keeps_modify {B} (f : state -> B) (g : state -> state) :
  (forall s, f (g s) = f s) -> keeps f (modify g).
Proof. intros H s. apply H. Qed.

Lemma keeps_bind {A B C} (f : state -> C) (m : M A) (k : A -> M B) :
  keeps f m -> (forall a, keeps f (k a)) -> keeps f (bind m k).
Proof.
  intros Hm Hk s. unfold bind. specialize (Hm s).
  destruct (m s) as [a s1|st s1|s1|s1]; cbn in *; try exact Hm.
  rewrite Hk. exact Hm.
Qed.

Ltac flags_clash :=
  exfalso;
  repeat match goal with
         | H : (_ >? _) = true |- _ => apply Z.gtb_lt in H
         | H : (_ =? _) = true |- _ => apply Z.eqb_eq in H
         | H : (_ <=? _) = true |- _ => apply Z.leb_le in H
         | H : (_ <=? _) = false |- _ => apply Z.leb_gt in H
         end;
  lia.

Ltac keeps_field_eq :=
  intros [];
  cbv [beside_reading beside_echo beside_response clock_if_disabled set_dev set_ticks set_attempts set_errno
         set_buf set_pos set_stdout set_stderr set_slept set_sent
         set_cap_dropped set_closed dev ticks attempts errno buf pos stdout
         stderr slept sent cap_dropped closed];
  repeat match goal with
         | H : ?b = _ |- context [if ?b then _ else _] => rewrite H
         | |- context [if ?b then _ else _] => destruct b eqn:?
         end;
  first [reflexivity | flags_clash].

Ltac keeps_step :=
  match goal with
  | |- keeps _ (bind _ _) => apply keeps_bind; [| intros ?]
  | |- keeps _ (ret _) => apply keeps_ret
  | |- keeps _ (gets _) => apply keeps_gets
  | |- keeps _ (exit _) => apply keeps_exit
  | |- keeps _ block => apply keeps_block
  | |- keeps _ spin => apply keeps_spin
  | |- keeps _ (modify _) =>
      apply keeps_modify; keeps_field_eq
  | |- keeps _ (pr_err _) => unfold pr_err
  | |- keeps _ (printf _) => unfold printf
  | |- keeps _ (pr_debug _ _) => unfold pr_debug
  | |- keeps _ (pr_hexdump _ _) => unfold pr_hexdump
  | |- keeps _ (usleep _) => unfold usleep
  | |- keeps _ (if ?b then _ else _) => destruct b eqn:?
  | |- keeps _ (match ?x with _ => _ end) => destruct x eqn:?
  | |- keeps _ (let (_, _) := ?x in _) => destruct x eqn:?
  end.

Lemma ser_getc_beside cfg E fd : keeps (beside_reading cfg) (ser_getc cfg E fd).
Proof.
  unfold ser_getc, sys_poll, sys_read. repeat keeps_step.
Qed.

Lemma keeps_weaken {A B C} (f : state -> B) (g : state -> C) (m : M A) :
  (forall s s', f s' = f s -> g s' = g s) -> keeps f m -> keeps g m.
Proof. intros H Hm s. apply H, Hm. Qed.

Create HintDb frames.

Ltac keeps_auto := repeat first [keeps_step | solve [eauto with frames]].

#[local] Hint Resolve ser_getc_beside : frames.

Lemma skip_cr_beside cfg E fuel fd :
  keeps (beside_reading cfg) (ser_getc_skip_cr cfg E fuel fd).
Proof.
  induction fuel as [|fuel IH]; cbn [ser_getc_skip_cr]; keeps_auto.
Qed.

#[local] Hint Resolve skip_cr_beside : frames.

Lemma readline_loop_beside cfg E fuel fd line :
  keeps (beside_reading cfg) (ser_readline_loop cfg E fuel fd line).
Proof.
  revert line. induction fuel as [|fuel IH]; intros line;
    cbn [ser_readline_loop]; keeps_auto.
Qed.

(** Whatever its outcome, [ser_readline] makes no clock reading, no
    attempt at opening, no sleep, sends nothing, and prints nothing on
    the standard output unless debugging is on. *)
Lemma ser_readline_beside cfg E fd :
  keeps (beside_reading cfg) (ser_readline cfg E fd).
Proof. intros s. unfold ser_readline. apply readline_loop_beside. Qed.

Lemma beside_reading_echo cfg s s' :
  beside_reading cfg s' = beside_reading cfg s ->
  beside_echo cfg s' = beside_echo cfg s.
Proof.
  unfold beside_reading, beside_echo. intros H.
  injection H as -> -> -> -> -> -> ->. reflexivity.
Qed.

Lemma beside_echo_response cfg s s' :
  beside_echo cfg s' = beside_echo cfg s ->
  beside_response cfg s' = beside_response cfg s.
Proof.
  unfold beside_response, beside_echo. intros H.
  injection H as -> -> -> -> -> _ ->. reflexivity.
Qed.

Lemma beside_response_clock cfg s s' :
  beside_response cfg s' = beside_response cfg s ->
  clock_if_disabled cfg s' = clock_if_disabled cfg s.
Proof.
  unfold beside_response, clock_if_disabled. intros H.
  injection H as _ _ _ _ _ ->. reflexivity.
Qed.

Lemma ser_readline_beside_echo cfg E fd :
  keeps (beside_echo cfg) (ser_readline cfg E fd).
Proof.
  eapply keeps_weaken; [apply beside_reading_echo | apply ser_readline_beside].
Qed.

Lemma timed_out_beside_echo cfg E tv :
  keeps (beside_echo cfg) (timed_out cfg E tv).
Proof. unfold timed_out, get_time, gettimeofday. keeps_auto. Qed.

Lemma timeout_init_beside_echo cfg E tv :
  keeps (beside_echo cfg) (timeout_init cfg E tv).
Proof. unfold timeout_init, get_time, gettimeofday. keeps_auto. Qed.

#[local] Hint Resolve ser_readline_beside_echo timed_out_beside_echo
  timeout_init_beside_echo : frames.

Lemma main_echo_body_beside cfg E fd cmd tv :
  keeps (beside_echo cfg) (main_echo_body cfg E fd cmd tv).
Proof. unfold main_echo_body. keeps_auto. Qed.

#[local] Hint Resolve main_echo_body_beside : frames.

Lemma main_echo_loop_beside cfg E fuel fd cmd tv :
  keeps (beside_echo cfg) (main_echo_loop cfg E fuel fd cmd tv).
Proof.
  induction fuel as [|fuel IH]; cbn [main_echo_loop]; keeps_auto.
Qed.

Lemma ser_readline_beside_response cfg E fd :
  keeps (beside_response cfg) (ser_readline cfg E fd).
Proof.
  eapply keeps_weaken; [apply beside_echo_response |].
  apply ser_readline_beside_echo.
Qed.

Lemma timed_out_beside_response cfg E tv :
  keeps (beside_response cfg) (timed_out cfg E tv).
Proof.
  eapply keeps_weaken; [apply beside_echo_response |].
  apply timed_out_beside_echo.
Qed.

#[local] Hint Resolve ser_readline_beside_response timed_out_beside_response
  : frames.

Lemma main_response_body_beside cfg E fd tv :
  keeps (beside_response cfg) (main_response_body cfg E fd tv).
Proof. unfold main_response_body. keeps_auto. Qed.

#[local] Hint Resolve main_response_body_beside : frames.

Lemma main_response_loop_beside cfg E fuel fd tv :
  keeps (beside_response cfg) (main_response_loop cfg E fuel fd tv).
Proof.
  induction fuel as [|fuel IH]; cbn [main_response_loop]; keeps_auto.
Qed.

(** ** The clock is left alone when the timeout is disabled *)

Lemma ser_readline_clock cfg E fd :
  keeps (clock_if_disabled cfg) (ser_readline cfg E fd).
Proof.
  eapply keeps_weaken; [apply beside_response_clock |].
  apply ser_readline_beside_response.
Qed.

Lemma main_echo_loop_clock cfg E fuel fd cmd tv :
  keeps (clock_if_disabled cfg) (main_echo_loop cfg E fuel fd cmd tv).
Proof.
  eapply keeps_weaken; [| apply main_echo_loop_beside].
  intros s s' H. apply beside_response_clock, beside_echo_response, H.
Qed.

Lemma main_response_loop_clock cfg E fuel fd tv :
  keeps (clock_if_disabled cfg) (main_response_loop cfg E fuel fd tv).
Proof.
  eapply keeps_weaken; [apply beside_response_clock |].
  apply main_response_loop_beside.
Qed.

Lemma timeout_init_clock cfg E tv :
  keeps (clock_if_disabled cfg) (timeout_init cfg E tv).
Proof. unfold timeout_init, get_time, gettimeofday. keeps_auto. Qed.

Lemma timed_out_clock cfg E tv :
  keeps (clock_if_disabled cfg) (timed_out cfg E tv).
Proof. unfold timed_out, get_time, gettimeofday. keeps_auto. Qed.

#[local] Hint Resolve main_echo_loop_clock main_response_loop_clock
  timeout_init_clock timed_out_clock : frames.

Lemma ser_open_loop_clock cfg E fuel path tv :
  keeps (clock_if_disabled cfg) (ser_open_loop cfg E fuel path tv).
Proof.
  induction fuel as [|fuel IH]; cbn [ser_open_loop];
    unfold sys_open, sys_flock; keeps_auto.
Qed.

#[local] Hint Resolve ser_open_loop_clock : frames.

Lemma ser_open_clock cfg E fuel path :
  keeps (clock_if_disabled cfg) (ser_open cfg E fuel path).
Proof. unfold ser_open, drop_cap_sys_admin, tty_call. keeps_auto. Qed.

#[local] Hint Resolve ser_open_clock : frames.

Lemma main_clock cfg E fuel words :
  keeps (clock_if_disabled cfg) (main cfg E fuel words).
Proof.
  unfold main. destruct (join_words words) as [cmd len].
  unfold sys_write. keeps_auto.
Qed.

(** X1: with the timeout disabled ([-t 0] or a negative value) the program
    never reads the clock, however the session ends. *)
Theorem disabled_timeout_never_reads_clock cfg E fuel words s :
  opt_timeout cfg <= 0 ->
  ticks (final (main cfg E fuel words s)) = ticks s.
Proof.
  intros Ht. pose proof (main_clock cfg E fuel words s) as H.
  unfold clock_if_disabled in H.
  apply Z.leb_le in Ht. rewrite Ht in H. exact H.
Qed.

Lemma loud_ret b {A} (a : A) : loud b (ret a).
Proof. intros s. reflexivity. Qed.

Lemma loud_gets b {A} (g : state -> A) : loud b (gets g).
Proof. intros s. reflexivity. Qed.

Lemma loud_block {A} : loud true (block : M A).
Proof. intros s. split; reflexivity. Qed.

Lemma loud_spin b {A} : loud b (spin : M A).
Proof. intros s. reflexivity. Qed.

Lemma loud_modify b (g : state -> state) :
  (forall s, session_view (g s) = session_view s) -> loud b (modify g).
Proof. intros H s. apply H. Qed.

Lemma session_view_eq s s' :
  session_view s' = session_view s ->
  stderr s' = stderr s /\ closed s' = closed s /\ sent s' = sent s.
Proof. unfold session_view. intros H. injection H as -> -> ->. auto. Qed.

Lemma loud_bind b {A B} (m : M A) (k : A -> M B) :
  loud b m -> (forall a, loud b (k a)) -> loud b (bind m k).
Proof.
  intros Hm Hk s. unfold bind. specialize (Hm s).
  destruct (m s) as [a s1|st s1|s1|s1]; try exact Hm.
  specialize (Hk a s1). destruct (session_view_eq _ _ Hm) as (He & Hc & Hs).
  destruct (k a s1) as [c s2|st s2|s2|s2].
  - rewrite Hk. exact Hm.
  - destruct Hk as (-> & (msg & Hne & Hmsg) & Hc2 & Hs2).
    split; [reflexivity|]. split; [|split; congruence].
    exists msg. split; [exact Hne | congruence].
  - destruct Hk as [Hb Hk]. split; [exact Hb | congruence].
  - congruence.
Qed.

(** [pr_err(...); exit(-1)] with a text that is not empty. *)
Lemma loud_fail b {A} (text : list ascii) :
  text <> [] -> loud b (pr_err text ;;; exit (-1) : M A).
Proof.
  intros Hne s. unfold pr_err, bind, modify, exit. cbn.
  split; [reflexivity|]. split; [|split; reflexivity].
  exists text. split; [exact Hne | reflexivity].
Qed.

Ltac text_not_empty :=
  let H := fresh in
  intro H;
  repeat match type of H with
         | _ ++ _ = [] => apply app_eq_nil in H; destruct H as [_ H]
         end;
  discriminate H.

Create HintDb louds.

Ltac loud_step :=
  match goal with
  | |- loud _ (bind (pr_err _) (fun _ => exit (-1))) =>
      apply loud_fail; text_not_empty
  | |- loud _ (bind _ _) => apply loud_bind; [| intros ?]
  | |- loud _ (ret _) => apply loud_ret
  | |- loud _ (gets _) => apply loud_gets
  | |- loud true block => apply loud_block
  | |- loud _ spin => apply loud_spin
  | |- loud _ (modify _) => apply loud_modify; intros []; reflexivity
  | |- loud _ (printf _) => unfold printf
  | |- loud _ (pr_debug _ _) => unfold pr_debug
  | |- loud _ (pr_hexdump _ _) => unfold pr_hexdump
  | |- loud _ (usleep _) => unfold usleep
  | |- loud _ (if ?c then _ else _) => destruct c eqn:?
  | |- loud _ (match ?x with _ => _ end) => destruct x eqn:?
  end.

Ltac loud_auto := repeat first [loud_step | solve [eauto with louds]].

Lemma get_time_loud b E : loud b (get_time E).
Proof. unfold get_time, gettimeofday. loud_auto. Qed.

#[local] Hint Resolve get_time_loud : louds.

Lemma timeout_init_loud b cfg E tv : loud b (timeout_init cfg E tv).
Proof. unfold timeout_init. loud_auto. Qed.

Lemma timed_out_loud b cfg E tv : loud b (timed_out cfg E tv).
Proof. unfold timed_out. loud_auto. Qed.

#[local] Hint Resolve timeout_init_loud timed_out_loud : louds.

Lemma ser_getc_loud cfg E fd : loud true (ser_getc cfg E fd).
Proof. unfold ser_getc, sys_poll, sys_read. loud_auto. Qed.

#[local] Hint Resolve ser_getc_loud : louds.

Lemma skip_cr_loud cfg E fuel fd : loud true (ser_getc_skip_cr cfg E fuel fd).
Proof. induction fuel as [|fuel IH]; cbn [ser_getc_skip_cr]; loud_auto. Qed.

#[local] Hint Resolve skip_cr_loud : louds.

Lemma readline_loop_loud cfg E fuel fd line :
  loud true (ser_readline_loop cfg E fuel fd line).
Proof.
  revert line. induction fuel as [|fuel IH]; intros line;
    cbn [ser_readline_loop]; loud_auto.
Qed.

Lemma ser_readline_loud cfg E fd : loud true (ser_readline cfg E fd).
Proof. intros s. unfold ser_readline. apply readline_loop_loud. Qed.

#[local] Hint Resolve ser_readline_loud : louds.

Lemma main_echo_body_loud cfg E fd cmd tv :
  loud true (main_echo_body cfg E fd cmd tv).
Proof. unfold main_echo_body. loud_auto. Qed.

#[local] Hint Resolve main_echo_body_loud : louds.

Lemma main_echo_loop_loud cfg E fuel fd cmd tv :
  loud true (main_echo_loop cfg E fuel fd cmd tv).
Proof. induction fuel as [|fuel IH]; cbn [main_echo_loop]; loud_auto. Qed.

Lemma main_response_body_loud cfg E fd tv :
  loud true (main_response_body cfg E fd tv).
Proof. unfold main_response_body. loud_auto. Qed.

#[local] Hint Resolve main_response_body_loud : louds.

Lemma main_response_loop_loud cfg E fuel fd tv :
  loud true (main_response_loop cfg E fuel fd tv).
Proof. induction fuel as [|fuel IH]; cbn [main_response_loop]; loud_auto. Qed.

#[local] Hint Resolve main_echo_loop_loud main_response_loop_loud : louds.

Lemma ser_open_loop_loud cfg E fuel path tv :
  loud false (ser_open_loop cfg E fuel path tv).
Proof.
  induction fuel as [|fuel IH]; cbn [ser_open_loop];
    unfold sys_open, sys_flock; loud_auto.
Qed.

#[local] Hint Resolve ser_open_loop_loud : louds.

Lemma ser_open_loud cfg E fuel path : loud false (ser_open cfg E fuel path).
Proof. unfold ser_open, drop_cap_sys_admin, tty_call. loud_auto. Qed.

Lemma ends_well_bind {A B} (m : M A) (k : A -> M B) :
  loud true m -> (forall a, ends_well (k a)) -> ends_well (bind m k).
Proof.
  intros Hm Hk s. unfold bind. specialize (Hm s).
  destruct (m s) as [a s1|st s1|s1|s1].
  - specialize (Hk a s1). destruct (session_view_eq _ _ Hm) as (He & Hc & Hs).
    destruct (k a s1) as [c s2|st s2|s2|s2]; [exact Hk | | congruence ..].
    destruct Hk as [(-> & He2 & Hc2 & Hs2)|(-> & (msg & Hne & Hmsg) & Hc2 & Hs2)].
    + left. repeat split; congruence.
    + right. split; [reflexivity|]. split; [|split; congruence].
      exists msg. split; [exact Hne | congruence].
  - right. exact Hm.
  - apply Hm.
  - exact Hm.
Qed.

Lemma ends_well_close {A} :
  ends_well (modify (set_closed true) ;;; exit 0 : M A).
Proof. intros s. left. destruct s; cbn. auto. Qed.

(** ** join_words *)

Lemma join_from_length i words :
  Z.of_nat (length (join_from i words))
  = fold_left (fun len w => len + (strlen w + 1)) words 0
    - (match i, words with O, _ :: _ => 1 | _, _ => 0 end).
Proof.
  assert (Hfold : forall ws a,
             fold_left (fun len w => len + (strlen w + 1)) ws a
             = a + fold_left (fun len w => len + (strlen w + 1)) ws 0).
  { induction ws as [|w ws IH]; intros a; cbn [fold_left]; [lia|].
    rewrite IH, (IH (0 + _)). lia. }
  revert i. induction words as [|w ws IH]; intros i; cbn [join_from fold_left].
  - destruct i; reflexivity.
  - rewrite !length_app, !Nat2Z.inj_add, IH, (Hfold ws (0 + _)).
    unfold strlen. destruct i; cbn [length]; destruct ws; lia.
Qed.

(** The length stored through [len_out] is the length of the line built,
    provided there is a word at all. *)
Lemma join_words_len words :
  words <> [] ->
  snd (join_words words) = Z.of_nat (length (fst (join_words words))).
Proof.
  intros Hne. unfold join_words. cbn [fst snd].
  rewrite length_app, Nat2Z.inj_add, join_from_length.
  destruct words; [contradiction | cbn [length]; lia].
Qed.

Lemma firstn_min_all {A} (l : list A) (k : nat) (len : Z) :
  len = Z.of_nat (length l) ->
  (Z.of_nat (Nat.min k (Z.to_nat len)) <? len) = false ->
  firstn (Nat.min k (Z.to_nat len)) l = l.
Proof.
  intros -> H. apply Z.ltb_ge in H. apply firstn_all2. lia.
Qed.

Lemma main_after_write_ends_well cfg E fd cmd :
  ends_well (main_after_write cfg E fd cmd).
Proof.
  unfold main_after_write.
  repeat first [ apply ends_well_close
               | apply ends_well_bind; [loud_auto | intros ?] ].
Qed.

Lemma main_after_write_no_spin cfg E fd cmd s s' :
  main_after_write cfg E fd cmd s <> Spinning s'.
Proof.
  unfold main_after_write. intros H.
  apply bind_Spinning in H as [H|([] & s4 & _ & H)];
    [unfold pr_debug in H; destruct (opt_debug cfg =? 0); discriminate |].
  apply bind_Spinning in H as [H|(tv & s5 & _ & H)];
    [exact (timeout_init_no_spin _ _ _ _ _ H) |].
  rewrite bind_gets in H.
  apply bind_Spinning in H as [H|([] & s6 & _ & H)];
    [apply main_echo_loop_no_spin in H; [exact H | lia] |].
  apply bind_Spinning in H as [H|([] & s7 & _ & H)];
    [unfold pr_debug in H; destruct (opt_debug cfg =? 0); discriminate |].
  apply bind_Spinning in H as [H|(tv' & s8 & _ & H)];
    [exact (timeout_init_no_spin _ _ _ _ _ H) |].
  rewrite bind_gets in H.
  apply bind_Spinning in H as [H|([] & s9 & _ & H)];
    [apply main_response_loop_no_spin in H; [exact H | lia] |].
  discriminate.
Qed.

Lemma main_outcome cfg E fuel words s :
  words <> [] ->
  match main cfg E fuel words s with
  | Ok _ _ => False
  | Exited st s' =>
      (st = 0 /\ stderr s' = stderr s /\ closed s' = true /\
       sent s' = sent s ++ fst (join_words words)) \/
      (st = -1 /\ complained s s' /\ closed s' = closed s /\
       exists n, sent s' = sent s ++ firstn n (fst (join_words words)))
  | Blocked s' =>
      stderr s' = stderr s /\ closed s' = closed s /\
      sent s' = sent s ++ fst (join_words words)
  | Spinning s' =>
      stderr s' = stderr s /\ closed s' = closed s /\ sent s' = sent s
  end.
Proof.
  intros Hne. pose proof (join_words_len words Hne) as Hlen.
  unfold main. destruct (join_words words) as [cmd len]. cbn [fst snd] in *.
  unfold bind at 1. pose proof (ser_open_loud cfg E fuel (opt_dev cfg) s) as Ho.
  destruct (ser_open cfg E fuel (opt_dev cfg) s) as [fd s1|st s1|s1|s1].
  2:{ destruct Ho as (-> & Hc & Hcl & Hs). right.
      split; [reflexivity|]. split; [exact Hc|]. split; [exact Hcl|].
      exists O. rewrite Hs. cbn. symmetry. apply app_nil_r. }
  2:{ destruct Ho as [Hb _]. discriminate Hb. }
  2:{ apply session_view_eq in Ho. exact Ho. }
  apply session_view_eq in Ho. destruct Ho as (He1 & Hc1 & Hs1).
  unfold bind at 1. rewrite pr_debug_out.
  set (s2 := debug_out cfg _ s1).
  assert (H2 : stderr s2 = stderr s /\ closed s2 = closed s /\ sent s2 = sent s).
  { unfold s2, debug_out. destruct (opt_debug cfg =? 0); cbn; auto. }
  clearbody s2. clear s1 He1 Hc1 Hs1. destruct H2 as (He2 & Hc2 & Hs2).
  unfold sys_write. destruct (wr E) as [e|k].
  - (* write error *)
    unfold bind, modify, ret, gets, pr_err, exit, complained. cbn.
    right. split; [reflexivity|]. split; [|split].
    + eexists. split; [|rewrite He2; reflexivity]. text_not_empty.
    + exact Hc2.
    + exists O. rewrite Hs2. cbn. symmetry. apply app_nil_r.
  - unfold bind at 1. unfold bind at 1. unfold modify at 1. unfold ret at 1.
    cbv beta iota.
    set (k' := Nat.min k (Z.to_nat len)).
    assert (Hk0 : (Z.of_nat k' <? 0) = false) by (apply Z.ltb_ge; lia).
    rewrite Hk0.
    destruct (Z.of_nat k' <? len) eqn:Hshort.
    + (* short write *)
      unfold bind, modify, pr_err, exit, complained. cbn.
      right. split; [reflexivity|]. split; [|split].
      * eexists. split; [|rewrite He2; reflexivity]. text_not_empty.
      * exact Hc2.
      * exists k'. rewrite Hs2. reflexivity.
    + unfold k' in *. rewrite (firstn_min_all cmd k len Hlen Hshort).
      match goal with
      | |- match ?m ?s3 with _ => _ end =>
          change (m s3) with (main_after_write cfg E fd cmd s3);
          pose proof (main_after_write_ends_well cfg E fd cmd s3) as Hr;
          pose proof (main_after_write_no_spin cfg E fd cmd s3) as Hn;
          destruct (main_after_write cfg E fd cmd s3) as [u s4|st s4|s4|s4]
      end.
      all: unfold complained in *; cbn [stderr closed sent set_sent] in Hr.
      * exact Hr.
      * unfold complained in *.
        destruct Hr as [(-> & He & Hc & Hs)|(-> & (msg & Hm & He) & Hc & Hs)].
        -- left. rewrite He, Hc, Hs, He2, Hs2. auto.
        -- right. split; [reflexivity|]. split; [|split].
           ++ exists msg. split; [exact Hm|]. rewrite He, He2. reflexivity.
           ++ rewrite Hc. exact Hc2.
           ++ exists (length cmd). rewrite firstn_all, Hs, Hs2. reflexivity.
      * apply session_view_eq in Hr. cbn in Hr. destruct Hr as (He & Hc & Hs).
        rewrite He, Hc, Hs, He2, Hc2, Hs2. auto.
      * exfalso. exact (Hn s4 eq_refl).
Qed.

(** X2: how a session can end.  It never returns; status 0 means that the
    command was written in full, the descriptor closed, and nothing
    written to the standard error; any other exit has status -1 and comes
    with a diagnostic on the standard error; retrying the open without
    end happens before anything is sent, blocking in a read after the
    command is sent. *)
Theorem main_verdict cfg E fuel words s :
  words <> [] ->
  match main cfg E fuel words s with
  | Ok _ _ => False
  | Exited st s' =>
      (st = 0 /\ stderr s' = stderr s /\ closed s' = true /\
       sent s' = sent s ++ fst (join_words words)) \/
      (st = -1 /\ complained s s' /\ closed s' = closed s /\
       exists n, sent s' = sent s ++ firstn n (fst (join_words words)))
  | Blocked s' =>
      stderr s' = stderr s /\ closed s' = closed s /\
      sent s' = sent s ++ fst (join_words words)
  | Spinning s' =>
      stderr s' = stderr s /\ closed s' = closed s /\ sent s' = sent s
  end.
Proof. apply main_outcome. Qed.

Lemma plain_line_spec P S0 :
  plain_line P S0 = true ->
  has LF S0 = false /\ Z.of_nat (length (retained S0)) < LINE_SIZE - 1 /\
  prompt_free P (retained S0 ++ [LF]) = true.
Proof.
  unfold plain_line. intros H.
  apply andb_true_iff in H as [H H3]. apply andb_true_iff in H as [H1 H2].
  apply negb_true_iff in H1. apply Z.ltb_lt in H2. auto.
Qed.

(** A plain line at the head of the stream is what [ser_readline]
    returns next. *)
Lemma ser_readline_plain_line cfg E fd s S0 rest :
  flowing cfg s ->
  incoming s = S0 ++ LF :: rest ->
  plain_line (regex_prompt cfg) S0 = true ->
  exists s',
    ser_readline cfg E fd s = Ok (Some (line_of S0)) s' /\
    incoming s' = rest /\ flowing cfg s' /\ only_read cfg s s'.
Proof.
  intros Hf Hin Hp. apply plain_line_spec in Hp as (H1 & H2 & H3).
  apply ser_readline_returns_line; assumption.
Qed.

(** The prompt at the head of the stream is reported. *)
Lemma ser_readline_sees_prompt cfg E fd s S0 c rest :
  flowing cfg s ->
  incoming s = S0 ++ c :: rest -> c <> CR ->
  has LF S0 = false ->
  Z.of_nat (length (retained S0)) < LINE_SIZE - 1 ->
  prompt_free (regex_prompt cfg) (retained S0) = true ->
  prompt_at (regex_prompt cfg) (retained (S0 ++ [c])) = true ->
  exists s', ser_readline cfg E fd s = Ok None s' /\
             incoming s' = rest /\ flowing cfg s' /\ only_read cfg s s'.
Proof.
  intros Hf Hin Hc Hlf Hlen Hpf Hp.
  pose proof (ser_readline_complete cfg E fd s Hf) as H.
  rewrite Hin, scan_at in H;
    [| apply midline_start; auto; lia | exact Hc].
  destruct (Z.geb_spec (Z.of_nat (length (retained S0))) (LINE_SIZE - 1));
    [lia |].
  rewrite retained_snoc in Hp by exact Hc. rewrite Hp in H.
  destruct H as (s' & Hr & Hi & Hf'). exists s'.
  repeat split; auto; apply ser_readline_sound in Hr; apply Hr.
Qed.

Lemma checks_in_time_S cfg E tv t n :
  checks_in_time cfg E tv t (S n) =
  in_time cfg E tv t && checks_in_time cfg E tv (tick cfg t) n.
Proof.
  unfold checks_in_time. rewrite forallb_seq_S, Nat.add_0_r. f_equal.
  apply forallb_pointwise. intros j. unfold tick.
  destruct (opt_timeout cfg <=? 0) eqn:Ht.
  - rewrite !in_time_disabled by (apply Z.leb_le, Ht). reflexivity.
  - rewrite Nat.add_succ_r. reflexivity.
Qed.

(** One pass through the response loop over a plain line met in time. *)
Lemma response_step cfg E fd tv s S0 rest :
  opt_debug cfg = 0 ->
  flowing cfg s ->
  incoming s = S0 ++ LF :: rest ->
  plain_line (regex_prompt cfg) S0 = true ->
  in_time cfg E tv (ticks s) = true ->
  exists s1,
    main_response_body cfg E fd tv s = Ok Continue s1 /\
    flowing cfg s1 /\ incoming s1 = rest /\
    stdout s1 = stdout s ++ cstr (line_of S0) /\
    stderr s1 = stderr s /\ ticks s1 = tick cfg (ticks s).
Proof.
  intros Hd Hf Hin Hp Ht.
  destruct (ser_readline_plain_line cfg E fd s S0 rest Hf Hin Hp)
    as (s' & Hr & Hi & Hf' & He & Htk & _ & _ & _ & _ & _ & _ & Ho).
  unfold main_response_body. rewrite (bind_eq_Ok _ _ _ _ _ Hr).
  rewrite <- Htk in Ht. cbv beta iota.
  rewrite (bind_eq_Ok _ _ _ _ _ (timed_out_in_time cfg E tv s' Ht)).
  cbv beta iota. unfold printf, bind, modify, ret.
  match goal with
  | |- exists s1, Ok Continue ?x = Ok Continue s1 /\ _ =>
      exists x; split; [reflexivity |];
      destruct (reader_view cfg s' x) as [Hi' Hf'']; try reflexivity
  end.
  rewrite Hi'. cbn [stdout stderr ticks set_stdout set_ticks].
  rewrite Ho, He, Htk by exact Hd. auto.
Qed.

(** The response loop over [Ss], plain lines all met in time. *)
Lemma response_run cfg E fd tv Ss : forall s tail,
  opt_debug cfg = 0 ->
  flowing cfg s ->
  incoming s = wire Ss ++ tail ->
  forallb (plain_line (regex_prompt cfg)) Ss = true ->
  checks_in_time cfg E tv (ticks s) (length Ss) = true ->
  exists s1,
    (forall fuel, main_response_loop cfg E (length Ss + fuel) fd tv s
                  = main_response_loop cfg E fuel fd tv s1) /\
    flowing cfg s1 /\ incoming s1 = tail /\
    stdout s1 = stdout s ++ printed Ss /\
    stderr s1 = stderr s /\
    ticks s1 = Nat.iter (length Ss) (tick cfg) (ticks s).
Proof.
  induction Ss as [|S0 Ss IH]; intros s tail Hd Hf Hin Hp Ht.
  - exists s. unfold printed. cbn in *. rewrite app_nil_r. repeat split; auto.
  - cbn [forallb] in Hp. apply andb_true_iff in Hp as [Hp0 Hp].
    cbn [length] in Ht. rewrite checks_in_time_S in Ht.
    apply andb_true_iff in Ht as [Ht0 Ht].
    unfold wire in Hin. cbn [map concat] in Hin.
    rewrite <- !app_assoc in Hin. cbn [app] in Hin.
    destruct (response_step cfg E fd tv s S0 _ Hd Hf Hin Hp0 Ht0)
      as (s1 & Hb & Hf1 & Hi1 & Ho1 & He1 & Htk1).
    rewrite <- Htk1 in Ht.
    destruct (IH s1 tail Hd Hf1 Hi1 Hp Ht)
      as (s2 & Hrun & Hf2 & Hi2 & Ho2 & He2 & Htk2).
    exists s2. split; [| split; [exact Hf2 | split; [exact Hi2 |]]].
    + intros fuel. cbn [length Nat.add main_response_loop].
      rewrite (bind_eq_Ok _ _ _ _ _ Hb). apply Hrun.
    + unfold printed in *. cbn [map concat length].
      rewrite Ho2, Ho1, He2, He1, Htk2, Htk1, <- app_assoc.
      rewrite Nat.iter_succ_r. auto.
Qed.

Lemma iter_tick cfg n t :
  Nat.iter n (tick cfg) t = if opt_timeout cfg <=? 0 then t else (t + n)%nat.
Proof.
  induction n as [|n IH]; simpl Nat.iter.
  - destruct (_ <=? _); [reflexivity | lia].
  - rewrite IH. unfold tick. destruct (_ <=? _); [reflexivity | lia].
Qed.

Lemma noise_line_spec P cmd S0 :
  noise_line P cmd S0 = true ->
  plain_line P S0 = true /\ strstr (line_of S0) cmd = None.
Proof.
  unfold noise_line. intros H. apply andb_true_iff in H as [H1 H2].
  split; [exact H1 |]. destruct (strstr _ _); [discriminate | reflexivity].
Qed.

(** One pass through the echo wait over a line without the command, met
    in time. *)
Lemma echo_step cfg E fd cmd tv s S0 rest :
  opt_debug cfg = 0 ->
  flowing cfg s ->
  incoming s = S0 ++ LF :: rest ->
  noise_line (regex_prompt cfg) cmd S0 = true ->
  in_time cfg E tv (ticks s) = true ->
  exists s1,
    main_echo_body cfg E fd cmd tv s = Ok Continue s1 /\
    flowing cfg s1 /\ incoming s1 = rest /\
    stdout s1 = stdout s /\
    stderr s1 = stderr s /\ ticks s1 = tick cfg (ticks s).
Proof.
  intros Hd Hf Hin Hp Ht. apply noise_line_spec in Hp as [Hp Hn].
  destruct (ser_readline_plain_line cfg E fd s S0 rest Hf Hin Hp)
    as (s' & Hr & Hi & Hf' & He & Htk & _ & _ & _ & _ & _ & _ & Ho).
  unfold main_echo_body. rewrite (bind_eq_Ok _ _ _ _ _ Hr).
  rewrite <- Htk in Ht. cbv beta iota. rewrite Hn.
  rewrite (bind_eq_Ok _ _ _ _ _ (timed_out_in_time cfg E tv s' Ht)).
  cbv beta iota. rewrite bind_eq_Ok with (a := tt) (s1 := set_ticks (tick cfg (ticks s')) s')
    by (apply pr_debug_off, Hd).
  unfold ret.
  exists (set_ticks (tick cfg (ticks s')) s'). split; [reflexivity |].
  destruct (reader_view cfg s' (set_ticks (tick cfg (ticks s')) s'))
    as [Hi' Hf'']; try reflexivity.
  rewrite Hi'. cbn [stdout stderr ticks set_ticks].
  rewrite Ho, He, Htk by exact Hd. auto.
Qed.

(** The echo wait over [Ss], lines without the command all met in time. *)
Lemma echo_run cfg E fd cmd tv Ss : forall s tail,
  opt_debug cfg = 0 ->
  flowing cfg s ->
  incoming s = wire Ss ++ tail ->
  forallb (noise_line (regex_prompt cfg) cmd) Ss = true ->
  checks_in_time cfg E tv (ticks s) (length Ss) = true ->
  exists s1,
    (forall fuel, main_echo_loop cfg E (length Ss + fuel) fd cmd tv s
                  = main_echo_loop cfg E fuel fd cmd tv s1) /\
    flowing cfg s1 /\ incoming s1 = tail /\
    stdout s1 = stdout s /\
    stderr s1 = stderr s /\
    ticks s1 = Nat.iter (length Ss) (tick cfg) (ticks s).
Proof.
  induction Ss as [|S0 Ss IH]; intros s tail Hd Hf Hin Hp Ht.
  - exists s. cbn in *. repeat split; auto.
  - cbn [forallb] in Hp. apply andb_true_iff in Hp as [Hp0 Hp].
    cbn [length] in Ht. rewrite checks_in_time_S in Ht.
    apply andb_true_iff in Ht as [Ht0 Ht].
    unfold wire in Hin. cbn [map concat] in Hin.
    rewrite <- !app_assoc in Hin. cbn [app] in Hin.
    destruct (echo_step cfg E fd cmd tv s S0 _ Hd Hf Hin Hp0 Ht0)
      as (s1 & Hb & Hf1 & Hi1 & Ho1 & He1 & Htk1).
    rewrite <- Htk1 in Ht.
    destruct (IH s1 tail Hd Hf1 Hi1 Hp Ht)
      as (s2 & Hrun & Hf2 & Hi2 & Ho2 & He2 & Htk2).
    exists s2. split; [| split; [exact Hf2 | split; [exact Hi2 |]]].
    + intros fuel. cbn [length Nat.add main_echo_loop].
      rewrite (bind_eq_Ok _ _ _ _ _ Hb). apply Hrun.
    + cbn [length]. rewrite Ho2, Ho1, He2, He1, Htk2, Htk1.
      rewrite Nat.iter_succ_r. auto.
Qed.

Lemma fuel_split (n fuel : nat) :
  (n < fuel)%nat -> exists k, fuel = (n + S k)%nat.
Proof. intros H. exists (fuel - n - 1)%nat. lia. Qed.

(** X3: the response loop prints the lines that precede the prompt, each
    as the C string it holds, in their order, and stops at the prompt;
    the bytes after the prompt are left unread. *)
Theorem response_printed_until_prompt cfg E fd tv s Ss P0 c rest fuel :
  opt_debug cfg = 0 ->
  flowing cfg s ->
  incoming s = wire Ss ++ P0 ++ c :: rest ->
  forallb (plain_line (regex_prompt cfg)) Ss = true ->
  checks_in_time cfg E tv (ticks s) (length Ss) = true ->
  c <> CR ->
  has LF P0 = false ->
  Z.of_nat (length (retained P0)) < LINE_SIZE - 1 ->
  prompt_free (regex_prompt cfg) (retained P0) = true ->
  prompt_at (regex_prompt cfg) (retained (P0 ++ [c])) = true ->
  (length Ss < fuel)%nat ->
  exists s',
    main_response_loop cfg E fuel fd tv s = Ok tt s' /\
    stdout s' = stdout s ++ printed Ss /\
    stderr s' = stderr s /\
    incoming s' = rest.
Proof.
  intros Hd Hf Hin Hp Ht Hc Hlf Hlen Hpf Hpa Hfuel.
  destruct (response_run cfg E fd tv Ss s _ Hd Hf Hin Hp Ht)
    as (s1 & Hrun & Hf1 & Hi1 & Ho1 & He1 & _).
  destruct (fuel_split _ _ Hfuel) as [k ->]. rewrite Hrun.
  destruct (ser_readline_sees_prompt cfg E fd s1 P0 c rest
              Hf1 Hi1 Hc Hlf Hlen Hpf Hpa)
    as (s' & Hr & Hi & _ & He & _ & _ & _ & _ & _ & _ & _ & Ho).
  exists s'. cbn [main_response_loop]. unfold main_response_body.
  rewrite bind_assoc, (bind_eq_Ok _ _ _ _ _ Hr).
  split; [reflexivity |]. rewrite Ho, He by exact Hd. auto.
Qed.

(** X4: a line of the response that is complete only after the deadline
    is not printed: the session ends with "Response too long" and the
    lines printed before. *)
Theorem response_cut_at_deadline cfg E fd tv s Ss S0 rest fuel :
  opt_debug cfg = 0 ->
  flowing cfg s ->
  incoming s = wire Ss ++ S0 ++ LF :: rest ->
  forallb (plain_line (regex_prompt cfg)) Ss = true ->
  checks_in_time cfg E tv (ticks s) (length Ss) = true ->
  plain_line (regex_prompt cfg) S0 = true ->
  out_of_time cfg E tv (ticks s + length Ss) = true ->
  (length Ss < fuel)%nat ->
  exists s',
    main_response_loop cfg E fuel fd tv s = Exited (-1) s' /\
    stdout s' = stdout s ++ printed Ss /\
    stderr s' = stderr s ++ chars "Response too long" ++ [LF] /\
    incoming s' = rest.
Proof.
  intros Hd Hf Hin Hp Ht Hp0 Hlate Hfuel.
  destruct (response_run cfg E fd tv Ss s _ Hd Hf Hin Hp Ht)
    as (s1 & Hrun & Hf1 & Hi1 & Ho1 & He1 & Htk1).
  destruct (fuel_split _ _ Hfuel) as [k ->]. rewrite Hrun.
  destruct (ser_readline_plain_line cfg E fd s1 S0 rest Hf1 Hi1 Hp0)
    as (s2 & Hr & Hi & _ & He & Htk & _ & _ & _ & _ & _ & _ & Ho).
  assert (Hen : (opt_timeout cfg <=? 0) = false).
  { unfold out_of_time in Hlate. apply andb_true_iff in Hlate as [H _].
    apply Z.ltb_lt in H. apply Z.leb_gt. exact H. }
  rewrite iter_tick, Hen in Htk1. rewrite <- Htk1, <- Htk in Hlate.
  cbn [main_response_loop]. unfold main_response_body.
  rewrite bind_assoc, (bind_eq_Ok _ _ _ _ _ Hr). cbv beta iota.
  rewrite bind_assoc, (bind_eq_Ok _ _ _ _ _ (timed_out_late cfg E tv s2 Hlate)).
  cbv beta iota. unfold pr_err, bind, modify, exit.
  eexists. split; [reflexivity |].
  match goal with
  | |- _ /\ _ /\ incoming ?x = _ =>
      destruct (reader_view cfg s2 x) as [Hi' _]; try reflexivity;
      rewrite Hi'
  end.
  cbn [stdout stderr set_stderr set_ticks].
  rewrite Ho, He, Ho1, He1 by exact Hd. auto.
Qed.

(** X5: the wait for the echo passes over the lines in which the command
    is not found, printing none of them, and ends at the first line in
    which it is found; that line is not subject to the deadline. *)
Theorem echo_found_after_noise cfg E fd cmd tv s Ss S0 rest fuel :
  opt_debug cfg = 0 ->
  flowing cfg s ->
  incoming s = wire Ss ++ S0 ++ LF :: rest ->
  forallb (noise_line (regex_prompt cfg) cmd) Ss = true ->
  checks_in_time cfg E tv (ticks s) (length Ss) = true ->
  plain_line (regex_prompt cfg) S0 = true ->
  strstr (line_of S0) cmd <> None ->
  (length Ss < fuel)%nat ->
  exists s',
    main_echo_loop cfg E fuel fd cmd tv s = Ok tt s' /\
    stdout s' = stdout s /\
    stderr s' = stderr s /\
    incoming s' = rest.
Proof.
  intros Hd Hf Hin Hp Ht Hp0 Hfound Hfuel.
  destruct (echo_run cfg E fd cmd tv Ss s _ Hd Hf Hin Hp Ht)
    as (s1 & Hrun & Hf1 & Hi1 & Ho1 & He1 & _).
  destruct (fuel_split _ _ Hfuel) as [k ->]. rewrite Hrun.
  destruct (ser_readline_plain_line cfg E fd s1 S0 rest Hf1 Hi1 Hp0)
    as (s2 & Hr & Hi & _ & He & _ & _ & _ & _ & _ & _ & _ & Ho).
  exists s2. cbn [main_echo_loop]. unfold main_echo_body.
  rewrite bind_assoc, (bind_eq_Ok _ _ _ _ _ Hr). cbv beta iota.
  destruct (strstr (line_of S0) cmd); [| contradiction].
  split; [reflexivity |]. rewrite Ho, He by exact Hd. auto.
Qed.

(** X6: when the prompt comes before any line in which the command is
    found, the session ends with "Command echo not found". *)
Theorem echo_missing_before_prompt cfg E fd cmd tv s Ss P0 c rest fuel :
  opt_debug cfg = 0 ->
  flowing cfg s ->
  incoming s = wire Ss ++ P0 ++ c :: rest ->
  forallb (noise_line (regex_prompt cfg) cmd) Ss = true ->
  checks_in_time cfg E tv (ticks s) (length Ss) = true ->
  c <> CR ->
  has LF P0 = false ->
  Z.of_nat (length (retained P0)) < LINE_SIZE - 1 ->
  prompt_free (regex_prompt cfg) (retained P0) = true ->
  prompt_at (regex_prompt cfg) (retained (P0 ++ [c])) = true ->
  (length Ss < fuel)%nat ->
  exists s',
    main_echo_loop cfg E fuel fd cmd tv s = Exited (-1) s' /\
    stdout s' = stdout s /\
    stderr s' = stderr s ++ chars "Command echo not found" ++ [LF].
Proof.
  intros Hd Hf Hin Hp Ht Hc Hlf Hlen Hpf Hpa Hfuel.
  destruct (echo_run cfg E fd cmd tv Ss s _ Hd Hf Hin Hp Ht)
    as (s1 & Hrun & Hf1 & Hi1 & Ho1 & He1 & _).
  destruct (fuel_split _ _ Hfuel) as [k ->]. rewrite Hrun.
  destruct (ser_readline_sees_prompt cfg E fd s1 P0 c rest
              Hf1 Hi1 Hc Hlf Hlen Hpf Hpa)
    as (s' & Hr & Hi & _ & He & _ & _ & _ & _ & _ & _ & _ & Ho).
  cbn [main_echo_loop]. unfold main_echo_body.
  rewrite bind_assoc, (bind_eq_Ok _ _ _ _ _ Hr). cbv beta iota.
  unfold pr_err, bind, modify, exit.
  eexists. split; [reflexivity |].
  cbn [stdout stderr set_stderr].
  rewrite Ho, He, Ho1, He1 by exact Hd. auto.
Qed.

(** An attempt that does not yield the descriptor leaves [errno] set and
    the loop at its test of [errno]. *)
Lemma ser_open_attempt_failed cfg E fuel path tv s :
  attempt_ok (opt_force cfg) (opens E (attempts s)) = None ->
  ser_open_loop cfg E (S fuel) path tv s
  = ser_open_failed cfg E fuel path tv
      (set_errno (attempt_errno (opens E (attempts s)))
         (set_attempts (S (attempts s)) s)).
Proof.
  intros Hno. cbn [ser_open_loop]. unfold ser_open_failed, sys_open, sys_flock.
  unfold attempt_ok in Hno.
  destruct (opens E (attempts s)) as [e|fd [e|]] eqn:Hop; [| | discriminate].
  - unfold bind at 1. unfold bind at 1. unfold gets at 1.
    unfold bind at 1. unfold modify at 1. cbv beta iota. rewrite Hop.
    unfold bind at 1. unfold bind at 1. unfold modify at 1. unfold ret at 1.
    cbv beta iota.
    replace (-1 >=? 0) with false by reflexivity.
    unfold bind at 1. unfold ret at 1. cbv beta iota. reflexivity.
  - destruct (opt_force cfg) eqn:Hforce; [discriminate |].
    unfold bind at 1. unfold bind at 1. unfold gets at 1.
    unfold bind at 1. unfold modify at 1. cbv beta iota. rewrite Hop.
    unfold ret at 1. cbv beta iota.
    destruct (Z.geb_spec (Z.of_nat fd) 0) as [_|Hneg]; [| lia].
    unfold bind at 1. unfold bind at 1. unfold bind at 1. unfold gets at 1.
    cbn [attempts set_attempts Nat.pred]. rewrite Hop.
    unfold bind at 1. unfold modify at 1. unfold ret at 1. cbv beta iota.
    unfold ret at 1. cbv beta iota.
    replace (-1 =? 0) with false by reflexivity. reflexivity.
Qed.

Lemma bind_eq_Spinning {A B} (m : M A) (k : A -> M B) s s1 :
  m s = Spinning s1 -> bind m k s = Spinning s1.
Proof. intros H. unfold bind. rewrite H. reflexivity. Qed.

Lemma attempt_fatal_spec force a :
  attempt_fatal force a = true ->
  attempt_ok force a = None /\ busy_errno (attempt_errno a) = false.
Proof.
  unfold attempt_fatal. destruct (attempt_ok force a); [discriminate |].
  intros H. apply negb_true_iff in H. auto.
Qed.

Lemma failed_busy_attempt force a :
  attempt_ok force a = None -> busy_errno (attempt_errno a) = true ->
  attempt_busy force a = true.
Proof.
  unfold attempt_ok, attempt_busy, attempt_errno.
  destruct a as [e|fd [e|]]; [auto | | discriminate].
  destruct force; [discriminate |]. auto.
Qed.

(** X7: an attempt at opening that fails for another reason than the
    device being busy or locked ends the process at once, with "Failed to
    open", whatever time is left: the clock is not even read for it. *)
Theorem ser_open_gives_up_on_error cfg E path tv s k fuel :
  busy_for cfg E tv s k = true ->
  attempt_fatal (opt_force cfg) (opens E (attempts s + k)) = true ->
  (k < fuel)%nat ->
  exists s',
    ser_open_loop cfg E fuel path tv s = Exited (-1) s' /\
    slept s' = slept s ++ repeat (RETRY_MS * 1000) k /\
    attempts s' = (attempts s + k + 1)%nat /\
    (opt_timeout cfg <= 0 \/ ticks s' = (ticks s + k)%nat) /\
    stderr s' = stderr s
                  ++ failed_to_open E path
                       (attempt_errno (opens E (attempts s + k))).
Proof.
  intros Hb Hfatal Hfuel.
  destruct (ser_open_retries cfg E path tv k s Hb)
    as (sk & Hrun & Hat & Htk & Hsl & Her & _).
  destruct (fuel_split _ _ Hfuel) as [m ->]. rewrite Hrun.
  apply attempt_fatal_spec in Hfatal as [Hno Hnb].
  rewrite <- Hat in Hno, Hnb |- *.
  rewrite (ser_open_attempt_failed cfg E m path tv sk Hno).
  unfold ser_open_failed. rewrite bind_gets. cbn [errno set_errno].
  rewrite busy_errno_test, Hnb. cbn [negb].
  unfold bind, ret, pr_err, modify, exit, failed_to_open.
  eexists. split; [reflexivity |].
  cbn [slept attempts ticks stderr set_stderr set_errno set_attempts].
  rewrite Hsl, Her. repeat split; auto; lia.
Qed.

Lemma busy_for_ever cfg E tv s k :
  opt_timeout cfg <= 0 ->
  (forall j, attempt_busy (opt_force cfg) (opens E (attempts s + j)) = true) ->
  busy_for cfg E tv s k = true.
Proof.
  intros Ht Hb. unfold busy_for. apply forallb_forall. intros j _.
  rewrite Hb, in_time_disabled by exact Ht. reflexivity.
Qed.

(** X8: with the timeout disabled and a device that stays busy or locked,
    the program retries every 200 ms without end, and sends nothing. *)
Theorem busy_device_without_timeout cfg E fuel words s :
  opt_timeout cfg <= 0 ->
  (forall j, attempt_busy (opt_force cfg) (opens E (attempts s + j)) = true) ->
  exists s',
    main cfg E fuel words s = Spinning s' /\
    slept s' = slept s ++ repeat (RETRY_MS * 1000) fuel /\
    attempts s' = (attempts s + fuel)%nat /\
    sent s' = sent s /\ stderr s' = stderr s.
Proof.
  intros Ht Hb.
  assert (Hopen : exists s',
             ser_open cfg E fuel (opt_dev cfg) s = Spinning s' /\
             slept s' = slept s ++ repeat (RETRY_MS * 1000) fuel /\
             attempts s' = (attempts s + fuel)%nat).
  { unfold ser_open.
    rewrite (bind_eq_Ok _ _ _ _ _ (drop_cap_step cfg E s)).
    destruct (after_capng_fields cfg E s)
      as (_ & _ & _ & _ & _ & _ & _ & Ha0 & Hsl0 & _).
    set (s0 := after_capng cfg E s) in *. clearbody s0.
    rewrite (bind_eq_Ok _ _ _ _ _ (pr_debug_out cfg _ s0)).
    set (s1 := debug_out cfg _ s0).
    rewrite (bind_eq_Ok _ _ _ _ _ (timeout_init_disabled cfg E tv_unset s1 Ht)).
    assert (Hs1 : attempts s1 = attempts s /\ slept s1 = slept s).
    { rewrite <- Ha0, <- Hsl0. unfold s1, debug_out.
      destruct (opt_debug cfg =? 0); auto. }
    destruct Hs1 as [Ha1 Hsl1].
    assert (Hb1 : busy_for cfg E tv_unset s1 fuel = true).
    { apply busy_for_ever; [exact Ht |]. rewrite Ha1. exact Hb. }
    destruct (ser_open_retries cfg E (opt_dev cfg) tv_unset fuel s1 Hb1)
      as (sk & Hrun & Hat & _ & Hsl & _).
    specialize (Hrun O). rewrite Nat.add_0_r in Hrun.
    exists sk. split; [| split; congruence].
    apply bind_eq_Spinning. rewrite Hrun. reflexivity. }
  destruct Hopen as (s' & Hopen & Hsl & Hat).
  pose proof (ser_open_loud cfg E fuel (opt_dev cfg) s) as Hl.
  rewrite Hopen in Hl. apply session_view_eq in Hl as (He & _ & Hs).
  exists s'. split; [| auto].
  unfold main. destruct (join_words words) as [cmd len].
  apply bind_eq_Spinning, Hopen.
Qed.

Lemma ser_open_loop_Ok cfg E path tv fuel : forall s fd s',
  ser_open_loop cfg E fuel path tv s = Ok fd s' ->
  exists k fd',
    (k < fuel)%nat /\
    attempt_ok (opt_force cfg) (opens E (attempts s + k)) = Some fd' /\
    fd = Z.of_nat fd' /\
    (forall j, (j < k)%nat ->
               attempt_busy (opt_force cfg) (opens E (attempts s + j)) = true) /\
    attempts s' = (attempts s + S k)%nat /\
    slept s' = slept s ++ repeat (RETRY_MS * 1000) k /\
    cap_dropped s' = cap_dropped s.
Proof.
  induction fuel as [|fuel IH]; intros s fd s' H; [discriminate |].
  destruct (attempt_ok (opt_force cfg) (opens E (attempts s))) as [fd0|] eqn:Hok.
  - destruct (ser_open_attempt_ok cfg E fuel path tv s fd0 Hok)
      as (s1 & Hr & ->).
    rewrite Hr in H. injection H as <- <-.
    exists O, fd0. rewrite Nat.add_0_r, app_nil_r.
    repeat split; auto; try lia. cbn. lia.
  - rewrite (ser_open_attempt_failed cfg E fuel path tv s Hok) in H.
    unfold ser_open_failed in H. rewrite bind_gets in H.
    cbn [errno set_errno] in H. rewrite busy_errno_test in H.
    destruct (busy_errno (attempt_errno (opens E (attempts s)))) eqn:Hbusy;
      cbn [negb] in H; [| discriminate].
    apply bind_Ok in H as (giveup & s2 & Hto & H).
    destruct giveup; [discriminate |].
    destruct (timed_out_cases cfg E tv
                (set_errno (attempt_errno (opens E (attempts s)))
                   (set_attempts (S (attempts s)) s)))
      as [(b & t & Hc)|(st & sx & Hc)]; rewrite Hc in Hto; [| discriminate].
    injection Hto as _ <-.
    rewrite (bind_eq_Ok _ _ _ _ _ (pr_debug_out cfg _ _)) in H.
    unfold usleep in H. unfold bind at 1 in H. unfold modify at 1 in H.
    apply IH in H as (k & fd' & Hk & Hok' & Hfd & Hbusy' & Hat & Hsl & Hcap).
    assert (Hfields : forall text s0,
               attempts (set_slept (slept (debug_out cfg text s0)
                                      ++ [RETRY_MS * 1000])
                           (debug_out cfg text s0)) = attempts s0 /\
               slept (set_slept (slept (debug_out cfg text s0)
                                   ++ [RETRY_MS * 1000])
                        (debug_out cfg text s0))
               = slept s0 ++ [RETRY_MS * 1000] /\
               cap_dropped (set_slept (slept (debug_out cfg text s0)
                                         ++ [RETRY_MS * 1000])
                              (debug_out cfg text s0)) = cap_dropped s0).
    { intros text s0. unfold debug_out.
      destruct (opt_debug cfg =? 0); auto. }
    match type of Hat with
    | attempts _ = (attempts (set_slept _ (debug_out _ ?text ?s0)) + _)%nat =>
        destruct (Hfields text s0) as (F1 & F2 & F3)
    end.
    rewrite F1 in Hok', Hbusy', Hat. rewrite F2 in Hsl. rewrite F3 in Hcap.
    cbn [attempts slept cap_dropped set_ticks set_errno set_attempts]
      in Hok', Hbusy', Hat, Hsl, Hcap.
    exists (S k), fd'. split; [lia |]. split.
    { rewrite <- Hok'. f_equal. f_equal. lia. }
    split; [exact Hfd |]. split; [| split; [| split]].
    + intros [|j] Hj.
      * rewrite Nat.add_0_r. apply failed_busy_attempt; assumption.
      * rewrite <- (Hbusy' j) by lia. f_equal. f_equal. lia.
    + lia.
    + rewrite Hsl, <- app_assoc. reflexivity.
    + exact Hcap.
Qed.

Lemma tty_call_Ok answer s r s' :
  tty_call answer s = Ok r s' ->
  (answer = None /\ r = 0 /\ s' = s) \/
  (exists e, answer = Some e /\ r = -1 /\ s' = set_errno e s).
Proof.
  unfold tty_call. destruct answer as [e|]; cbn; intros H;
    injection H as <- <-; [right; eauto | left; auto].
Qed.

(** X9: the descriptor [ser_open] returns was opened and, unless forced,
    locked, after one sleep of 200 ms for each earlier attempt, each of
    which found the device busy or locked; the terminal is then in
    exclusive raw mode and flushed.  The capability is dropped only when
    the program is not forced and the capng calls succeed: their results
    are not looked at, so a descriptor is returned as well when they
    fail and the capability is still there. *)
Theorem ser_open_returns_locked cfg E fuel path s fd s' :
  ser_open cfg E fuel path s = Ok fd s' ->
  tty_ok E = true /\
  cap_dropped s' = (negb (opt_force cfg) && capng_ok E) || cap_dropped s /\
  exists k fd',
    (k < fuel)%nat /\
    attempt_ok (opt_force cfg) (opens E (attempts s + k)) = Some fd' /\
    fd = Z.of_nat fd' /\
    (forall j, (j < k)%nat ->
               attempt_busy (opt_force cfg) (opens E (attempts s + j)) = true) /\
    attempts s' = (attempts s + S k)%nat /\
    slept s' = slept s ++ repeat (RETRY_MS * 1000) k.
Proof.
  unfold ser_open. intros H.
  rewrite (bind_eq_Ok _ _ _ _ _ (drop_cap_step cfg E s)) in H.
  destruct (after_capng_fields cfg E s)
    as (_ & _ & _ & _ & _ & _ & _ & Ha0 & Hsl0 & _ & Hc0).
  set (s0 := after_capng cfg E s) in *. clearbody s0.
  rewrite (bind_eq_Ok _ _ _ _ _ (pr_debug_out cfg _ s0)) in H.
  set (s1 := debug_out cfg _ s0) in *.
  assert (Hs1 : attempts s1 = attempts s /\ slept s1 = slept s /\
                cap_dropped s1
                = (negb (opt_force cfg) && capng_ok E) || cap_dropped s).
  { rewrite <- Ha0, <- Hsl0, <- Hc0. unfold s1, debug_out.
    destruct (opt_debug cfg =? 0); auto. }
  clearbody s1. destruct Hs1 as (Ha1 & Hsl1 & Hc1).
  apply bind_Ok in H as (tv & s2 & Hti & H).
  pose proof (timeout_init_beside_echo cfg E tv_unset s1) as Hk.
  rewrite Hti in Hk. unfold beside_echo in Hk. cbn [final] in Hk.
  injection Hk as Ha2 Hsl2 _ Hc2 _ _ _.
  apply bind_Ok in H as (fd0 & s3 & Hloop & H).
  apply ser_open_loop_Ok in Hloop
    as (k & fd' & Hlt & Hok & Hfd & Hbusy & Hat & Hsl & Hcap).
  rewrite Ha2, Ha1 in Hok, Hbusy, Hat. rewrite Hsl2, Hsl1 in Hsl.
  rewrite Hc2, Hc1 in Hcap.
  assert (Htty : tty_ok E = true /\ fd = fd0 /\ s' = s3).
  { unfold tty_ok.
    apply bind_Ok in H as (r1 & t1 & Hr1 & H).
    apply tty_call_Ok in Hr1 as [(-> & -> & ->)|(e & _ & -> & _)];
      [| discriminate].
    cbn [negb Z.eqb] in H.
    apply bind_Ok in H as (r2 & t2 & Hr2 & H).
    apply tty_call_Ok in Hr2 as [(-> & -> & ->)|(e & _ & -> & _)];
      [| discriminate].
    cbn [negb Z.eqb] in H.
    apply bind_Ok in H as (r3 & t3 & Hr3 & H).
    apply tty_call_Ok in Hr3 as [(-> & -> & ->)|(e & _ & -> & _)];
      [| discriminate].
    cbn [negb Z.eqb] in H.
    apply bind_Ok in H as (r4 & t4 & Hr4 & H).
    apply tty_call_Ok in Hr4 as [(-> & -> & ->)|(e & _ & -> & _)];
      [| discriminate].
    cbn [negb Z.eqb] in H. injection H as <- <-. auto. }
  destruct Htty as (Htty & -> & ->).
  split; [exact Htty |]. split; [exact Hcap |].
  exists k, fd'. auto 10.
Qed.

(** ** The read buffer *)

(** X10: the byte [ser_getc] returns is [buf[pos - 1]] for the new value of
    [pos], which lies within the bytes the last [read] delivered: no byte
    beyond them is ever returned, and the buffer never holds more than
    [BUF_SIZE] bytes. *)
Theorem ser_getc_within_buffer cfg E fd s c s' :
  ser_getc cfg E fd s = Ok c s' ->
  (exists p, pos s' = S p /\ (p < length (buf s'))%nat /\
             nth_error (buf s') p = Some c) /\
  ((length (buf s) <= BUF_SIZE)%nat -> (length (buf s') <= BUF_SIZE)%nat).
Proof.
  unfold ser_getc. run.
  destruct (Nat.leb_spec (length (buf s)) (pos s)) as [Hle|Hlt].
  - unfold sys_poll, sys_read. run.
    destruct (dev s) as [|[wait bytes|wait e|e] d] eqn:Hdev; cbn.
    + destruct (opt_timeout cfg <? 0); cbn;
        destruct (opt_debug cfg =? 0); cbn; discriminate.
    + destruct ((opt_timeout cfg <? 0) || (wait <=? opt_timeout cfg)); cbn.
      2: destruct (opt_debug cfg =? 0); cbn; discriminate.
      destruct bytes as [|b bytes].
      * destruct (opt_debug cfg =? 0); cbn; rewrite Hdev; cbn; discriminate.
      * destruct (firstn_skipn_chunk (b :: bytes)) as (c0 & chunk & Hf & Hb);
          [discriminate |].
        pose proof (firstn_le_length BUF_SIZE (b :: bytes)) as Hbound.
        rewrite Hf in Hbound.
        remember (skipn BUF_SIZE (b :: bytes)) as rest eqn:Hrest.
        destruct (opt_debug cfg =? 0) eqn:Hd; cbn; rewrite Hdev; cbn;
          rewrite <- Hrest, Hf; cbn;
          destruct (opt_debug cfg >? 1) eqn:Hd1; cbn;
          intros H; injection H as <- <-; cbn;
          (split; [exists O; repeat split; lia | intros _; exact Hbound]).
    + destruct ((opt_timeout cfg <? 0) || (wait <=? opt_timeout cfg)); cbn;
        destruct (opt_debug cfg =? 0); cbn; rewrite ?Hdev; cbn; discriminate.
    + destruct (opt_debug cfg =? 0); cbn; discriminate.
  - intros H. injection H as <- <-. cbn. split; [| auto].
    exists (pos s). split; [reflexivity |]. split; [exact Hlt |].
    apply nth_error_nth'. exact Hlt.
Qed.

(** ** Bytes in their order *)

Lemma ser_getc_n_Ok cfg E fd n : forall s l s',
  ser_getc_n cfg E n fd s = Ok l s' ->
  length l = n /\ incoming s = l ++ incoming s' /\ only_read cfg s s'.
Proof.
  induction n as [|n IH]; intros s l s' H; cbn [ser_getc_n] in H.
  - injection H as <- <-. split; [reflexivity |]. split; [reflexivity |].
    apply only_read_refl.
  - apply bind_Ok in H as (c & s1 & Hc & H).
    apply bind_Ok in H as (cs & s2 & Hcs & H). injection H as <- <-.
    apply ser_getc_Ok in Hc as [Hi1 Ho1].
    apply IH in Hcs as (Hlen & Hi2 & Ho2).
    cbn [length app]. rewrite Hi1, Hi2, Hlen.
    split; [reflexivity |]. split; [reflexivity |].
    eapply only_read_trans; eassumption.
Qed.

(** X11: successive calls of [ser_getc] hand out the incoming bytes one by
    one in their order, none lost and none twice, wherever the
    boundaries of the reads fall; while the device keeps delivering, as
    many bytes as are to come can be had. *)
Theorem ser_getc_in_order cfg E fd n s :
  (forall l s', ser_getc_n cfg E n fd s = Ok l s' ->
                length l = n /\ incoming s = l ++ incoming s') /\
  (forall l rest,
      flowing cfg s -> incoming s = l ++ rest -> length l = n ->
      exists s', ser_getc_n cfg E n fd s = Ok l s' /\ incoming s' = rest).
Proof.
  split.
  - intros l s' H. apply ser_getc_n_Ok in H as (H1 & H2 & _). auto.
  - revert s. induction n as [|n IH]; intros s l rest Hf Hin Hlen.
    + destruct l; [| discriminate]. exists s. split; [reflexivity | exact Hin].
    + destruct l as [|c l]; [discriminate |]. cbn [app length] in *.
      destruct (ser_getc_flowing cfg E fd s c (l ++ rest) Hf Hin)
        as (s1 & Hc & Hi1 & Hf1).
      destruct (IH s1 l rest Hf1 Hi1 ltac:(lia)) as (s2 & Hcs & Hi2).
      exists s2. cbn [ser_getc_n].
      rewrite (bind_eq_Ok _ _ _ _ _ Hc), (bind_eq_Ok _ _ _ _ _ Hcs).
      split; [reflexivity | exact Hi2].
Qed.

(** ** Lines that never end *)

Lemma scan_unfinished P S0 :
  has LF S0 = false ->
  prompt_free P (retained S0) = true ->
  Z.of_nat (length (retained S0)) <= LINE_SIZE - 1 ->
  scan P [] S0 = SMore (retained S0).
Proof.
  intros H1 H2 H3.
  pose proof (scan_midline P [] S0 [] (midline_start P S0 H1 H2 H3)) as H.
  rewrite app_nil_r in H. exact H.
Qed.

(** X12: bytes that end neither in a newline nor in a prompt are never
    handed on: once the device has nothing more, the read blocks for ever
    (negative timeout) or ends the process with "Timeout", and the
    response loop prints nothing of them. *)
Theorem unterminated_line_is_lost cfg E fd tv fuel s :
  flowing cfg s ->
  has LF (incoming s) = false ->
  prompt_free (regex_prompt cfg) (retained (incoming s)) = true ->
  Z.of_nat (length (retained (incoming s))) <= LINE_SIZE - 1 ->
  runs_dry cfg s (ser_readline cfg E fd s) /\
  runs_dry cfg s (main_response_loop cfg E (S fuel) fd tv s) /\
  (opt_debug cfg = 0 ->
   stdout (final (main_response_loop cfg E (S fuel) fd tv s)) = stdout s).
Proof.
  intros Hf H1 H2 H3.
  pose proof (ser_readline_complete cfg E fd s Hf) as H.
  rewrite (scan_unfinished _ _ H1 H2 H3) in H.
  split; [exact H |].
  cbn [main_response_loop]. unfold main_response_body.
  split; [apply runs_dry_bind, runs_dry_bind, H |].
  intros Hd. pose proof (ser_readline_beside cfg E fd s) as Hk.
  unfold beside_reading in Hk. rewrite Hd in Hk. cbn [Z.eqb] in Hk.
  injection Hk as _ _ _ _ _ _ Hk. rewrite <- Hk.
  unfold bind.
  destruct H as [(_ & s' & ->)|(_ & s' & -> & _)]; reflexivity.
Qed.

(** ** NUL bytes *)

Lemma cstr_app_nul a b : cstr (a ++ NUL :: b) = cstr a.
Proof.
  induction a as [|c a IH]; cbn [app cstr].
  - reflexivity.
  - destruct (Ascii.eqb c NUL); [reflexivity | rewrite IH; reflexivity].
Qed.

Lemma retained_nul S0 T :
  retained (S0 ++ NUL :: T) = retained S0 ++ NUL :: retained T.
Proof. rewrite retained_app. reflexivity. Qed.

Lemma prompt_free_past_nul P l t :
  prompt_free P (l ++ [NUL]) = true -> prompt_free P (l ++ NUL :: t) = true.
Proof.
  rewrite prompt_free_snoc. intros H. apply andb_true_iff in H as [Hl Hn].
  apply negb_true_iff in Hn.
  unfold prompt_free in *. rewrite prompt_free_from_app, Hl. cbn [app andb].
  rewrite prompt_free_from_cons, Hn. cbn [negb andb].
  apply prompt_free_from_spec. intros p q _ _.
  unfold prompt_at, regexec in *. rewrite <- app_assoc. cbn [app].
  rewrite cstr_app_nul. rewrite cstr_app_nul in Hn. exact Hn.
Qed.

(** X13: bytes that follow a NUL on a line are invisible: the prompt is not
    seen in them, the command is not found in them, and printing the line
    stops at the NUL, its newline included. *)
Theorem nul_hides_rest_of_line cfg E fd s S0 T rest :
  flowing cfg s ->
  incoming s = S0 ++ NUL :: T ++ LF :: rest ->
  has LF S0 = false -> has LF T = false ->
  Z.of_nat (length (retained (S0 ++ NUL :: T))) < LINE_SIZE - 1 ->
  prompt_free (regex_prompt cfg) (retained S0 ++ [NUL]) = true ->
  exists s',
    ser_readline cfg E fd s = Ok (Some (line_of (S0 ++ NUL :: T))) s' /\
    incoming s' = rest /\
    cstr (line_of (S0 ++ NUL :: T)) = cstr (retained S0) /\
    forall cmd, strstr (line_of (S0 ++ NUL :: T)) cmd
                = strstr (retained S0) cmd.
Proof.
  intros Hf Hin H1 H2 Hlen Hpf.
  assert (Hc : cstr (line_of (S0 ++ NUL :: T)) = cstr (retained S0)).
  { unfold line_of. rewrite retained_nul, <- app_assoc. cbn [app].
    apply cstr_app_nul. }
  destruct (ser_readline_plain_line cfg E fd s (S0 ++ NUL :: T) rest Hf)
    as (s' & Hr & Hi & _).
  - rewrite <- app_assoc. exact Hin.
  - unfold plain_line. rewrite has_app, H1. cbn [has existsb orb].
    change (existsb (Ascii.eqb LF) T) with (has LF T). rewrite H2.
    cbn [negb andb orb]. change (Ascii.eqb LF NUL) with false. cbn [orb negb andb].
    apply Z.ltb_lt in Hlen. rewrite Hlen. cbn [andb].
    rewrite retained_nul, <- app_assoc. cbn [app].
    apply prompt_free_past_nul, Hpf.
  - exists s'. split; [exact Hr |]. split; [exact Hi |]. split; [exact Hc |].
    intros cmd. unfold strstr. rewrite Hc. reflexivity.
Qed.

#[local] Transparent chars.
#[local] Opaque to_int usage_text.

(** ** The command line *)

Lemma parse_options_render L o g rest :
  parse_options L g (render o ++ rest) = parse_options L (apply_opt L g o) rest.
Proof. destruct o as [[]|[]|[] v|[] v|[] v]; reflexivity. Qed.

Lemma parse_options_renders L os : forall g rest,
  parse_options L g (flat_map render os ++ rest)
  = parse_options L (fold_left (apply_opt L) os g) rest.
Proof.
  induction os as [|o os IH]; intros g rest; [reflexivity |].
  cbn [flat_map fold_left]. rewrite <- app_assoc, parse_options_render.
  apply IH.
Qed.

Lemma same_chars_eq a : forall b, same_chars a b = true -> a = b.
Proof.
  induction a as [|x a IH]; intros [|y b] H; cbn in H; try discriminate;
    [reflexivity |].
  apply andb_true_iff in H as [Hxy H]. apply Ascii.eqb_eq in Hxy.
  rewrite Hxy, (IH b H). reflexivity.
Qed.

Lemma streq_cstr a b : streq a b = true -> cstr a = cstr b.
Proof. apply same_chars_eq. Qed.

(** What the loop over the options does with an argument that starts
    with a dash depends on its C string only. *)
Lemma parse_options_cstr L g a b rest :
  cstr a = cstr b ->
  Ascii.eqb (first_char b) "-"%char = true ->
  parse_options L g (a :: rest) = parse_options L g (b :: rest).
Proof.
  intros H Hd. cbn [parse_options]. unfold first_char, streq in *.
  rewrite H, Hd. reflexivity.
Qed.

Lemma parse_options_end L g sep w ws :
  ends_options sep w = true ->
  parse_options L g (sep ++ w :: ws) = ret (g, w :: ws).
Proof.
  unfold ends_options. destruct sep as [|dd [|? ?]]; [| | discriminate].
  - intros H. cbn [app parse_options]. rewrite H. reflexivity.
  - intros H. apply streq_cstr in H. cbn [app].
    rewrite (parse_options_cstr L g dd (chars "--") _ H) by reflexivity.
    reflexivity.
Qed.

Lemma usage_exits (L : libc) {A} s :
  usage L s = (Exited 1 (usage_shown L s) : outcome A).
Proof. reflexivity. Qed.

(** *** What the options leave in the option variables *)

Lemma fold_g_dev L os : forall g,
  g_dev (fold_left (apply_opt L) os g)
  = or_else (last_value device_value os) (g_dev g).
Proof.
  induction os as [|o os IH]; intros g; cbn [fold_left last_value];
    [reflexivity |].
  rewrite IH. destruct (last_value device_value os); [reflexivity |].
  destruct o; reflexivity.
Qed.

Lemma fold_g_prompt L os : forall g,
  g_prompt (fold_left (apply_opt L) os g)
  = or_else (last_value prompt_value os) (g_prompt g).
Proof.
  induction os as [|o os IH]; intros g; cbn [fold_left last_value];
    [reflexivity |].
  rewrite IH. destruct (last_value prompt_value os); [reflexivity |].
  destruct o; reflexivity.
Qed.

Lemma fold_g_timeout L os : forall g,
  g_timeout (fold_left (apply_opt L) os g)
  = match last_value timeout_value os with
    | Some v => atoi L v
    | None => g_timeout g
    end.
Proof.
  induction os as [|o os IH]; intros g; cbn [fold_left last_value];
    [reflexivity |].
  rewrite IH. destruct (last_value timeout_value os); [reflexivity |].
  destruct o; reflexivity.
Qed.

Lemma fold_g_force L os : forall g,
  g_force (fold_left (apply_opt L) os g) = existsb is_force os || g_force g.
Proof.
  induction os as [|o os IH]; intros g; cbn [fold_left existsb];
    [reflexivity |].
  rewrite IH. destruct o; cbn; rewrite ?orb_true_r; reflexivity.
Qed.

Lemma fold_g_debug L os : forall g,
  0 <= g_debug g ->
  g_debug g + Z.of_nat (length os) <= INT_MAX ->
  g_debug (fold_left (apply_opt L) os g)
  = g_debug g + Z.of_nat (length (filter is_debug os)).
Proof.
  unfold INT_MAX.
  induction os as [|o os IH]; intros g H0 Hmax;
    cbn [fold_left filter length] in *; [lia |].
  pose proof (filter_length_le is_debug os) as Hle.
  destruct o; cbn [is_debug apply_opt]; rewrite IH;
    cbn [g_debug set_g_debug set_g_force set_g_dev set_g_prompt
         set_g_timeout length];
    rewrite ?to_int_small; lia.
Qed.

(** X14: a command line made of options, then (after [--], or at the first
    word that does not start with a dash) a command, is accepted when a
    device is known and the prompt pattern compiles: the last [-s], [-p]
    and [-t] count, the command line goes before the environment and the
    environment before the default, [-d] is counted, and the command is
    what follows the options, untouched. *)
Theorem startup_accepts L os sep w ws d preg s :
  ends_options sep w = true ->
  device_choice L os = Some d ->
  regcomp L (prompt_choice L os) = inl preg ->
  Z.of_nat (length os) <= INT_MAX ->
  main_startup L (flat_map render os ++ sep ++ w :: ws) s
  = Ok ({| opt_dev := d;
           opt_timeout := timeout_choice L os;
           opt_debug := Z.of_nat (length (filter is_debug os));
           opt_force := existsb is_force os;
           regex_prompt := preg |}, w :: ws) s.
Proof.
  intros Hend Hdev Hre Hlen. unfold main_startup.
  rewrite (bind_eq_Ok _ _ s (globals0_after L os, w :: ws) s).
  2:{ rewrite parse_options_renders, parse_options_end by exact Hend.
      reflexivity. }
  cbn [fst snd]. unfold globals0_after.
  rewrite fold_g_dev, fold_g_prompt, fold_g_timeout, fold_g_force.
  rewrite fold_g_debug by (cbn; unfold INT_MAX in *; lia).
  cbn [g_dev g_prompt g_timeout g_force g_debug globals0].
  unfold device_choice in Hdev. unfold prompt_choice in Hre.
  unfold or_else in *.
  destruct (last_value device_value os) as [d0|].
  - injection Hdev as ->.
    destruct (last_value prompt_value os) as [p0|];
      [| destruct (getenv L MCUXEQ_PROMPT_ENV)]; rewrite Hre;
      unfold timeout_choice; rewrite orb_false_r; reflexivity.
  - rewrite Hdev.
    destruct (last_value prompt_value os) as [p0|];
      [| destruct (getenv L MCUXEQ_PROMPT_ENV)]; rewrite Hre;
      unfold timeout_choice; rewrite orb_false_r; reflexivity.
Qed.

(** *** Command lines that are refused *)

Lemma main_startup_usage L args s :
  (exists st, parse_options L globals0 args s = Exited st (usage_shown L s)
              /\ st = 1) ->
  main_startup L args s = Exited 1 (usage_shown L s).
Proof.
  intros (st & H & ->). unfold main_startup.
  apply bind_eq_Exited, H.
Qed.

Lemma cstr_first_dash a b :
  cstr a = cstr b -> Ascii.eqb (first_char b) "-"%char = true ->
  Ascii.eqb (first_char a) "-"%char = true.
Proof. unfold first_char. intros ->. auto. Qed.

Lemma parse_help L g h rest s :
  streq h (chars "-h") || streq h (chars "--help") = true ->
  parse_options L g (h :: rest) s = Exited 1 (usage_shown L s).
Proof.
  intros H. apply orb_true_iff in H as [H|H]; apply streq_cstr in H.
  - rewrite (parse_options_cstr L g h (chars "-h") _ H) by reflexivity.
    reflexivity.
  - rewrite (parse_options_cstr L g h (chars "--help") _ H) by reflexivity.
    reflexivity.
Qed.

Lemma parse_value_missing L g a s :
  wants_value a = true ->
  parse_options L g [a] s = Exited 1 (usage_shown L s).
Proof.
  unfold wants_value. intros H.
  repeat (apply orb_true_iff in H as [H|H]); apply streq_cstr in H;
    match type of H with
    | _ = cstr ?x =>
        rewrite (parse_options_cstr L g a x _ H) by reflexivity
    end; reflexivity.
Qed.

Lemma parse_unknown L g a rest s :
  unknown_option a = true ->
  parse_options L g (a :: rest) s = Exited 1 (usage_shown L s).
Proof.
  unfold unknown_option, wants_value. intros H.
  apply andb_true_iff in H as [Hd H]. apply negb_true_iff in H.
  repeat match goal with
         | H : _ || _ = false |- _ =>
             apply orb_false_iff in H; destruct H
         end.
  cbn [parse_options].
  repeat match goal with
         | H : ?b = _ |- context [?b] => rewrite H
         end.
  cbn [negb orb]. destruct rest; reflexivity.
Qed.

(** X15: the command lines the program refuses: a request for help, an
    option without its value, an unknown option, no command, no device.
    Each ends the process with status 1 and the usage text on the
    standard error, before anything else is done. *)
Theorem startup_rejects L args s :
  rejected L args ->
  main_startup L args s = Exited 1 (usage_shown L s).
Proof.
  intros [os h rest H|os a H|os a rest H|os sep H|os sep w ws Hend Hdev].
  - apply main_startup_usage. exists 1. split; [| reflexivity].
    rewrite parse_options_renders. apply parse_help, H.
  - apply main_startup_usage. exists 1. split; [| reflexivity].
    rewrite parse_options_renders. apply parse_value_missing, H.
  - apply main_startup_usage. exists 1. split; [| reflexivity].
    rewrite parse_options_renders. apply parse_unknown, H.
  - unfold main_startup.
    rewrite (bind_eq_Ok _ _ s (globals0_after L os, []) s).
    + cbn [fst snd].
      destruct (match g_dev (globals0_after L os) with
                | Some d => Some d
                | None => getenv L MCUXEQ_DEV_ENV
                end); reflexivity.
    + rewrite parse_options_renders. destruct H as [-> | ->]; reflexivity.
  - unfold main_startup.
    rewrite (bind_eq_Ok _ _ s (globals0_after L os, w :: ws) s).
    + cbn [fst snd]. unfold globals0_after. rewrite fold_g_dev.
      unfold device_choice in Hdev. cbn [g_dev globals0].
      unfold or_else in *.
      destruct (last_value device_value os); [discriminate |].
      rewrite Hdev. reflexivity.
    + rewrite parse_options_renders, parse_options_end by exact Hend.
      reflexivity.
Qed.

(** *** Every command line *)

Lemma parsed_from_more L front args s o :
  parsed_from L args s o -> parsed_from L (front ++ args) s o.
Proof.
  destruct o as [r s'|st s'|s'|s']; cbn; auto.
  intros (-> & pre & ->). split; [reflexivity |].
  exists (front ++ pre). apply app_assoc.
Qed.

Lemma parse_options_outcome L n : forall args g s,
  (length args <= n)%nat ->
  parsed_from L args s (parse_options L g args s).
Proof.
  induction n as [|n IH]; intros [|a rest] g s Hlen; cbn [length] in Hlen;
    try lia.
  - cbn. split; [reflexivity |]. exists []. reflexivity.
  - cbn. split; [reflexivity |]. exists []. reflexivity.
  - cbn [parse_options].
    destruct (negb _).
    { cbn. split; [reflexivity |]. exists []. reflexivity. }
    destruct (_ || _); [cbn; auto |].
    destruct (_ || _).
    { apply (parsed_from_more L [a]), IH. lia. }
    destruct (_ || _).
    { apply (parsed_from_more L [a]), IH. lia. }
    destruct (streq a (chars "--")).
    { cbn. split; [reflexivity |]. exists [a]. reflexivity. }
    destruct rest as [|value rest']; [cbn; auto |].
    cbn [length] in Hlen.
    destruct (_ || _).
    { apply (parsed_from_more L [a; value]), IH. lia. }
    destruct (_ || _).
    { apply (parsed_from_more L [a; value]), IH. lia. }
    destruct (_ || _).
    { apply (parsed_from_more L [a; value]), IH. lia. }
    cbn. auto.
Qed.

Lemma main_startup_outcome L args s :
  match main_startup L args s with
  | Ok r s' =>
      s' = s /\ snd r <> [] /\
      (exists front, args = front ++ snd r) /\
      exists pattern, regcomp L pattern = inl (regex_prompt (fst r))
  | Exited st s' =>
      (st = 1 /\ s' = usage_shown L s) \/
      (st = -1 /\ exists pattern code,
                    regcomp L pattern = inr code /\
                    s' = regex_refused L code s)
  | Blocked _ | Spinning _ => False
  end.
Proof.
  unfold main_startup, bind.
  pose proof (parse_options_outcome L (length args) args globals0 s
                (Nat.le_refl _)) as H.
  destruct (parse_options L globals0 args s) as [[g words] s1|st s1|s1|s1];
    cbn [parsed_from fst snd] in *; [| left; exact H | exact H ..].
  destruct H as (-> & Hfront).
  destruct (match g_dev g with
            | Some d => Some d
            | None => getenv L MCUXEQ_DEV_ENV
            end) as [d|]; [| left; split; reflexivity].
  destruct words as [|w ws]; [left; split; reflexivity |].
  match goal with
  | |- context [regcomp L ?p] => destruct (regcomp L p) as [preg|code] eqn:Hre
  end.
  - cbn. split; [reflexivity |]. split; [discriminate |].
    split; [exact Hfront |]. eauto.
  - right. split; [reflexivity |]. eauto.
Qed.

(** X16: reading the command line touches nothing but the standard error
    and cannot hang; when it succeeds the state is as before, there is at
    least one command word, the words are a tail of the arguments and the
    prompt is a pattern that compiled; otherwise the process ends with
    status 1 and the usage text, or, when the pattern does not compile,
    with status -1 and the message of [regerror], cut at 255 bytes. *)
Theorem startup_outcomes L args s :
  match main_startup L args s with
  | Ok r s' =>
      s' = s /\ snd r <> [] /\
      (exists front, args = front ++ snd r) /\
      exists pattern, regcomp L pattern = inl (regex_prompt (fst r))
  | Exited st s' =>
      (st = 1 /\ s' = usage_shown L s) \/
      (st = -1 /\ exists pattern code,
                    regcomp L pattern = inr code /\
                    s' = regex_refused L code s)
  | Blocked _ | Spinning _ => False
  end.
Proof. apply main_startup_outcome. Qed.

#[local] Transparent usage_text.

Lemma usage_text_not_empty L : usage_text L <> [].
Proof. unfold usage_text. discriminate. Qed.

#[local] Opaque usage_text.

(** X17: the exit status of the program is 0, 1 or -1 (seen as 255 by the
    parent).  Status 0 comes with nothing on the standard error and the
    descriptor closed; status 1 and -1 come with a text on the standard
    error; the program never ends in another way than by [exit]. *)
Theorem exit_statuses L E fuel args s :
  match main_argv L E fuel args s with
  | Ok _ _ => False
  | Exited st s' =>
      (st = 0 /\ stderr s' = stderr s /\ closed s' = true) \/
      ((st = 1 \/ st = -1) /\ complained s s' /\ closed s' = closed s)
  | Blocked s' | Spinning s' => stderr s' = stderr s /\ closed s' = closed s
  end.
Proof.
  unfold main_argv, bind.
  pose proof (main_startup_outcome L args s) as H.
  destruct (main_startup L args s) as [[cfg words] s1|st s1|s1|s1];
    [| | contradiction ..].
  - destruct H as (-> & Hne & _). cbn [fst snd] in *.
    pose proof (main_outcome cfg E fuel words s Hne) as Hm.
    destruct (main cfg E fuel words s) as [u s2|st s2|s2|s2].
    + exact Hm.
    + destruct Hm as [(-> & He & Hc & _)|(-> & Hco & Hc & _)]; [left | right];
        auto.
    + destruct Hm as (He & Hc & _). auto.
    + destruct Hm as (He & Hc & _). auto.
  - right. destruct H as [(-> & ->)|(-> & pattern & code & _ & ->)].
    + split; [auto |]. split; [| reflexivity].
      exists (usage_text L). split; [apply usage_text_not_empty | reflexivity].
    + split; [auto |]. split; [| reflexivity].
      eexists. split; [| reflexivity]. text_not_empty.
Qed.

#[local] Opaque chars.
#[local] Transparent to_int usage_text.

(** ** The deadline *)

(** X18: while the microseconds fit an [int], a deadline armed at one
    reading of the clock is found expired at a later reading exactly
    when more than the budget has gone by between the two. *)
Theorem deadline_expires_after_budget cfg E tv s s2 now now' :
  0 < opt_timeout cfg ->
  tv_usec now + opt_timeout cfg * 1000 <= INT_MAX ->
  normalized now -> normalized now' ->
  - 2 ^ 62 <= tv_sec now <= 2 ^ 62 ->
  clock E (ticks s) = Some now ->
  clock E (ticks s2) = Some now' ->
  exists d s1 b s3,
    timeout_init cfg E tv s = Ok d s1 /\
    timed_out cfg E d s2 = Ok b s3 /\
    (b = true <-> opt_timeout cfg * 1000 < usec_of now' - usec_of now).
Proof.
  intros Hpos Hfit Hn Hn' Hsec Hc Hc'.
  destruct (deadline_in_range cfg now Hpos Hfit Hn Hsec) as [Hd Hu].
  exists (deadline cfg now), (set_ticks (S (ticks s)) s),
    (later now' (deadline cfg now)), (set_ticks (S (ticks s2)) s2).
  split; [apply timeout_init_enabled; assumption |].
  split; [apply timed_out_enabled; assumption |].
  rewrite (later_spec now' (deadline cfg now) Hn' Hd), Hu. lia.
Qed.

(** X19: with a timeout set, a clock that cannot be read ends the process
    before the device is touched: nothing is opened and nothing sent.
    The message names the error of the failed call, whatever [errno]
    held before. *)
Theorem clock_failure_is_fatal cfg E fuel words s :
  0 < opt_timeout cfg ->
  clock E (ticks s) = None ->
  exists s',
    main cfg E fuel words s = Exited (-1) s' /\
    stderr s' = stderr s ++ chars "Failed to get time: "
                  ++ strerror E (clock_errno E (ticks s)) ++ [LF] /\
    errno s' = clock_errno E (ticks s) /\
    attempts s' = attempts s /\ sent s' = sent s /\ slept s' = slept s.
Proof.
  intros Hpos Hc. unfold main. destruct (join_words words) as [cmd len].
  unfold ser_open.
  rewrite bind_assoc, (bind_eq_Ok _ _ _ _ _ (drop_cap_step cfg E s)).
  destruct (after_capng_fields cfg E s)
    as (_ & _ & _ & _ & He0 & Hs0 & Ht0 & Ha0 & Hsl0 & _).
  set (s0 := after_capng cfg E s) in *. clearbody s0.
  rewrite bind_assoc, (bind_eq_Ok _ _ _ _ _ (pr_debug_out cfg _ s0)).
  set (s1 := debug_out cfg _ s0).
  assert (Hs1 : ticks s1 = ticks s /\ stderr s1 = stderr s /\
                attempts s1 = attempts s /\
                sent s1 = sent s /\ slept s1 = slept s).
  { rewrite <- Ht0, <- He0, <- Ha0, <- Hs0, <- Hsl0. unfold s1, debug_out.
    destruct (opt_debug cfg =? 0); cbn; auto 10. }
  clearbody s1. destruct Hs1 as (Ht & He & Ha & Hs & Hsl).
  assert (Hi : timeout_init cfg E tv_unset s1
               = Exited (-1)
                   (set_stderr (stderr s1 ++ chars "Failed to get time: "
                                  ++ strerror E (clock_errno E (ticks s1))
                                  ++ [LF])
                      (set_errno (clock_errno E (ticks s1))
                         (set_ticks (S (ticks s1)) s1)))).
  { unfold timeout_init.
    destruct (Z.leb_spec (opt_timeout cfg) 0) as [Hle|_]; [lia |].
    unfold get_time, gettimeofday, bind, gets, modify, ret, pr_err, exit.
    cbn. rewrite Ht, Hc. reflexivity. }
  rewrite bind_assoc, (bind_eq_Exited _ _ _ _ _ Hi).
  eexists. split; [reflexivity |].
  cbn [stderr errno attempts sent slept set_stderr set_errno set_ticks].
  rewrite He, Ht, Ha, Hs, Hsl. auto 10.
Qed.

(** ** join_words *)

(** X20: the length [join_words] reports is the length of the line it
    builds when there is at least one word; with no word the line is one
    byte longer than reported.  The line holds no NUL and ends with a
    newline. *)
Theorem join_words_fits words :
  (words <> [] ->
   Z.of_nat (length (fst (join_words words))) = snd (join_words words)) /\
  (words = [] ->
   Z.of_nat (length (fst (join_words words))) = snd (join_words words) + 1) /\
  has NUL (fst (join_words words)) = false /\
  exists l0, fst (join_words words) = l0 ++ [LF].
Proof.
  split; [| split; [| split]].
  - intros H. symmetry. apply join_words_len, H.
  - intros ->. reflexivity.
  - unfold join_words. cbn [fst]. rewrite has_app, join_from_no_nul.
    reflexivity.
  - exists (join_from 0 words). reflexivity.
Qed.

(** ** A whole session *)

Lemma length_wire Ss : (length Ss <= length (wire Ss))%nat.
Proof.
  unfold wire. induction Ss as [|S0 Ss IH]; cbn [map concat length]; [lia |].
  rewrite !length_app. cbn [length]. lia.
Qed.

Lemma checks_in_time_disabled cfg E tv t n :
  opt_timeout cfg <= 0 -> checks_in_time cfg E tv t n = true.
Proof.
  intros H. unfold checks_in_time. apply forallb_forall. intros j _.
  apply in_time_disabled, H.
Qed.

(** The echo wait that finds the command after the lines [Ss]. *)
Lemma echo_loop_found cfg E fd cmd tv s Ss S0 rest fuel :
  opt_debug cfg = 0 ->
  flowing cfg s ->
  incoming s = wire Ss ++ S0 ++ LF :: rest ->
  forallb (noise_line (regex_prompt cfg) cmd) Ss = true ->
  checks_in_time cfg E tv (ticks s) (length Ss) = true ->
  plain_line (regex_prompt cfg) S0 = true ->
  strstr (line_of S0) cmd <> None ->
  (length Ss < fuel)%nat ->
  exists s',
    main_echo_loop cfg E fuel fd cmd tv s = Ok tt s' /\
    flowing cfg s' /\ incoming s' = rest /\
    stdout s' = stdout s /\ stderr s' = stderr s /\ sent s' = sent s /\
    ticks s' = Nat.iter (length Ss) (tick cfg) (ticks s).
Proof.
  intros Hd Hf Hin Hp Ht Hp0 Hfound Hfuel.
  destruct (echo_run cfg E fd cmd tv Ss s _ Hd Hf Hin Hp Ht)
    as (s1 & Hrun & Hf1 & Hi1 & Ho1 & He1 & Htk1).
  destruct (fuel_split _ _ Hfuel) as [k ->].
  destruct (ser_readline_plain_line cfg E fd s1 S0 rest Hf1 Hi1 Hp0)
    as (s2 & Hr & Hi & Hf2 & He & Htk & _ & _ & _ & _ & _ & _ & Ho).
  assert (Hloop : main_echo_loop cfg E (length Ss + S k) fd cmd tv s
                  = Ok tt s2).
  { rewrite Hrun. cbn [main_echo_loop]. unfold main_echo_body.
    rewrite bind_assoc, (bind_eq_Ok _ _ _ _ _ Hr). cbv beta iota.
    destruct (strstr (line_of S0) cmd); [reflexivity | contradiction]. }
  exists s2. split; [exact Hloop |].
  pose proof (main_echo_loop_beside cfg E (length Ss + S k) fd cmd tv s) as Hk.
  rewrite Hloop in Hk. unfold beside_echo in Hk. cbn [final] in Hk.
  injection Hk as _ _ Hs _ _ _ _.
  rewrite Ho, He, Htk, Ho1, He1, Htk1 by exact Hd. auto 10.
Qed.

(** The response loop that prints the lines [Ss] and meets the prompt. *)
Lemma response_loop_done cfg E fd tv s Ss P0 c rest fuel :
  opt_debug cfg = 0 ->
  flowing cfg s ->
  incoming s = wire Ss ++ P0 ++ c :: rest ->
  forallb (plain_line (regex_prompt cfg)) Ss = true ->
  checks_in_time cfg E tv (ticks s) (length Ss) = true ->
  c <> CR ->
  has LF P0 = false ->
  Z.of_nat (length (retained P0)) < LINE_SIZE - 1 ->
  prompt_free (regex_prompt cfg) (retained P0) = true ->
  prompt_at (regex_prompt cfg) (retained (P0 ++ [c])) = true ->
  (length Ss < fuel)%nat ->
  exists s',
    main_response_loop cfg E fuel fd tv s = Ok tt s' /\
    stdout s' = stdout s ++ printed Ss /\
    stderr s' = stderr s /\ sent s' = sent s /\
    incoming s' = rest.
Proof.
  intros Hd Hf Hin Hp Ht Hc Hlf Hlen Hpf Hpa Hfuel.
  destruct (response_run cfg E fd tv Ss s _ Hd Hf Hin Hp Ht)
    as (s1 & Hrun & Hf1 & Hi1 & Ho1 & He1 & _).
  destruct (fuel_split _ _ Hfuel) as [k ->].
  destruct (ser_readline_sees_prompt cfg E fd s1 P0 c rest
              Hf1 Hi1 Hc Hlf Hlen Hpf Hpa)
    as (s' & Hr & Hi & _ & He & _ & _ & _ & _ & _ & _ & _ & Ho).
  assert (Hloop : main_response_loop cfg E (length Ss + S k) fd tv s
                  = Ok tt s').
  { rewrite Hrun. cbn [main_response_loop]. unfold main_response_body.
    rewrite bind_assoc, (bind_eq_Ok _ _ _ _ _ Hr). reflexivity. }
  exists s'. split; [exact Hloop |].
  pose proof (main_response_loop_beside cfg E (length Ss + S k) fd tv s) as Hk.
  rewrite Hloop in Hk. unfold beside_response in Hk. cbn [final] in Hk.
  injection Hk as _ _ Hs _ _ _.
  rewrite Ho, He, Ho1, He1 by exact Hd. auto.
Qed.

Lemma session_clock_facts cfg E n m :
  session_clock cfg E n m = true ->
  clock_ok cfg E 0 = true /\
  clock_ok cfg E (tick cfg 0) = true /\
  (forall tv1,
      (0 < opt_timeout cfg ->
       exists now, clock E (tick cfg 0) = Some now /\ tv1 = deadline cfg now) ->
      checks_in_time cfg E tv1 (tick cfg (tick cfg 0)) n = true) /\
  clock_ok cfg E (Nat.iter n (tick cfg) (tick cfg (tick cfg 0))) = true /\
  (forall tv2,
      (0 < opt_timeout cfg ->
       exists now,
         clock E (Nat.iter n (tick cfg) (tick cfg (tick cfg 0))) = Some now /\
         tv2 = deadline cfg now) ->
      checks_in_time cfg E tv2
        (tick cfg (Nat.iter n (tick cfg) (tick cfg (tick cfg 0)))) m = true).
Proof.
  unfold session_clock, clock_ok. intros H.
  rewrite iter_tick. unfold tick.
  destruct (Z.leb_spec (opt_timeout cfg) 0) as [Hle|Hgt].
  - cbn [orb]. repeat split; auto;
      intros; apply checks_in_time_disabled, Hle.
  - cbn [orb] in H |- *. cbv iota.
    change (2 + n)%nat with (S (S n)) in *.
    change (3 + n)%nat with (S (S (S n))) in H.
    destruct (clock E 0) as [t0|]; [| discriminate].
    destruct (clock E 1) as [t1|] eqn:H1; [| discriminate].
    destruct (clock E (S (S n))) as [t2|] eqn:H2; [| discriminate].
    apply andb_true_iff in H as [Ha Hb].
    split; [reflexivity |]. split; [reflexivity |].
    split; [| split; [reflexivity |]].
    + intros tv1 Htv. destruct (Htv Hgt) as (now & Hnow & ->).
      injection Hnow as <-. exact Ha.
    + intros tv2 Htv. destruct (Htv Hgt) as (now & Hnow & ->).
      injection Hnow as <-. exact Hb.
Qed.

Lemma sys_write_full E fd cmd len k s :
  wr E = Wrote k -> len = Z.of_nat (length cmd) -> (length cmd <= k)%nat ->
  sys_write E fd cmd len s = Ok len (set_sent (sent s ++ cmd) s).
Proof.
  intros Hwr -> Hk. unfold sys_write. rewrite Hwr.
  unfold bind, modify, ret. rewrite Nat2Z.id, Nat.min_r by exact Hk.
  rewrite firstn_all. reflexivity.
Qed.

(** X21: a whole session.  The device opens at the first attempt and takes
    the command in full; it sends lines in which the command is not
    found, then a line in which it is, then the lines of the response,
    then the prompt, every byte in time.  Then the process exits with
    status 0, having sent the command once, printed the lines of the
    response and nothing else, and written nothing to the standard
    error; what follows the prompt is left unread. *)
Theorem session_round_trip cfg E d fd k fuel words Ns Echo Rs P0 c rest :
  opt_debug cfg = 0 ->
  words <> [] ->
  flowing cfg (initial d) ->
  flat_map burst_bytes d
  = wire Ns ++ Echo ++ LF :: wire Rs ++ P0 ++ c :: rest ->
  forallb (noise_line (regex_prompt cfg) (fst (join_words words))) Ns = true ->
  plain_line (regex_prompt cfg) Echo = true ->
  strstr (line_of Echo) (fst (join_words words)) <> None ->
  forallb (plain_line (regex_prompt cfg)) Rs = true ->
  c <> CR ->
  has LF P0 = false ->
  Z.of_nat (length (retained P0)) < LINE_SIZE - 1 ->
  prompt_free (regex_prompt cfg) (retained P0) = true ->
  prompt_at (regex_prompt cfg) (retained (P0 ++ [c])) = true ->
  attempt_ok (opt_force cfg) (opens E 0) = Some fd ->
  tty_ok E = true ->
  wr E = Wrote k -> (length (fst (join_words words)) <= k)%nat ->
  session_clock cfg E (length Ns) (length Rs) = true ->
  exists s',
    main cfg E (S fuel) words (initial d) = Exited 0 s' /\
    stdout s' = printed Rs /\
    stderr s' = [] /\
    sent s' = fst (join_words words) /\
    incoming s' = rest.
Proof.
  intros Hdbg Hne Hf Hin HNs HEcho Hfound HRs Hc Hlf Hlen Hpf Hpa
         Hop Htty Hwr Hk Hclk.
  destruct (session_clock_facts cfg E _ _ Hclk) as (C0 & C1 & C2 & C3 & C4).
  pose proof (join_words_len words Hne) as Hjl.
  unfold main. destruct (join_words words) as [cmd len].
  cbn [fst snd] in *.
  destruct (ser_open_ok cfg E fuel (opt_dev cfg) (initial d) fd)
    as (s1 & Ho & D1 & B1 & P1 & O1 & E1 & S1 & T1); auto.
  rewrite (bind_eq_Ok _ _ _ _ _ Ho).
  rewrite (bind_eq_Ok _ _ _ _ _ (pr_debug_off cfg _ s1 Hdbg)).
  (* the command is written in full *)
  rewrite (bind_eq_Ok _ _ _ _ _
             (sys_write_full E (Z.of_nat fd) cmd len k s1 Hwr Hjl Hk)).
  replace (len <? 0) with false by (symmetry; apply Z.ltb_ge; lia).
  rewrite Z.ltb_irrefl.
  set (s3 := set_sent (sent s1 ++ cmd) s1).
  rewrite (bind_eq_Ok _ _ _ _ _ (pr_debug_off cfg _ s3 Hdbg)).
  (* the echo wait *)
  destruct (timeout_init_ok cfg E tv_unset s3) as (tv1 & Hti1 & Htv1);
    [subst s3; cbn [ticks set_sent]; rewrite T1; exact C1 |].
  rewrite (bind_eq_Ok _ _ _ _ _ Hti1).
  set (s4 := set_ticks (tick cfg (ticks s3)) s3).
  rewrite bind_gets.
  destruct (reader_view cfg (initial d) s4) as [Hin4 Hf4];
    [subst s4 s3; cbn; assumption ..|].
  change (incoming (initial d)) with (flat_map burst_bytes d) in Hin4.
  assert (Ht4 : ticks s4 = tick cfg (tick cfg 0))
    by (subst s4 s3; cbn [ticks set_ticks set_sent]; rewrite T1; reflexivity).
  destruct (echo_loop_found cfg E (Z.of_nat fd) cmd tv1 s4 Ns Echo
              (wire Rs ++ P0 ++ c :: rest) (S (length (incoming s4))))
    as (s5 & Hecho & Hf5 & Hin5 & O5 & E5 & S5 & T5); auto.
  { rewrite Hin4. exact Hin. }
  { rewrite Ht4. apply C2. intros Hpos. specialize (Htv1 Hpos).
    subst s3. cbn [ticks set_sent] in Htv1. rewrite T1 in Htv1.
    exact Htv1. }
  { rewrite Hin4, Hin, length_app. pose proof (length_wire Ns). lia. }
  rewrite (bind_eq_Ok _ _ _ _ _ Hecho).
  rewrite (bind_eq_Ok _ _ _ _ _ (pr_debug_off cfg _ s5 Hdbg)).
  (* the response *)
  rewrite Ht4 in T5.
  destruct (timeout_init_ok cfg E tv1 s5) as (tv2 & Hti2 & Htv2);
    [rewrite T5; exact C3 |].
  rewrite (bind_eq_Ok _ _ _ _ _ Hti2).
  set (s6 := set_ticks (tick cfg (ticks s5)) s5).
  rewrite bind_gets.
  destruct (reader_view cfg s5 s6) as [Hin6 Hf6]; [reflexivity ..|].
  destruct (response_loop_done cfg E (Z.of_nat fd) tv2 s6 Rs P0 c rest
              (S (length (incoming s6))))
    as (s7 & Hresp & O7 & E7 & S7 & Hin7); auto.
  { subst s6. cbn [ticks set_ticks]. rewrite T5. apply C4.
    intros Hpos. specialize (Htv2 Hpos). rewrite T5 in Htv2. exact Htv2. }
  { rewrite Hin6, Hin5, length_app. pose proof (length_wire Rs). lia. }
  rewrite (bind_eq_Ok _ _ _ _ _ Hresp).
  unfold bind, modify, exit.
  eexists. split; [reflexivity |].
  destruct (reader_view cfg s7 (set_closed true s7)) as [Hin8 _];
    [reflexivity ..|].
  rewrite Hin8. cbn [stdout stderr sent set_closed].
  rewrite O7, E7, S7. subst s6. cbn [stdout stderr sent set_ticks].
  rewrite O5, E5, S5. subst s4 s3. cbn [stdout stderr sent set_ticks set_sent].
  rewrite O1, E1, S1. cbn. auto.
Qed.

#[local] Transparent BUF_SIZE chars fmt_d fmt_x hexdump_rows.

(** ** pr_hexdump *)

Lemma mkprint_printable c : isprint (mkprint c) = true.
Proof. unfold mkprint. destruct (isprint c) eqn:H; [exact H | reflexivity]. Qed.

Lemma hex2_all c :
  length (fmt_x 2 (code c)) = 2%nat /\
  forallb isprint (fmt_x 2 (code c)) = true.
Proof.
  destruct c as [[] [] [] [] [] [] [] []]; vm_compute; split; reflexivity.
Qed.

Lemma hex4_row k :
  0 <= k < 4 ->
  length (fmt_x 4 (16 * k)) = 4%nat /\
  forallb isprint (fmt_x 4 (16 * k)) = true.
Proof.
  intros H. assert (Hk : k = 0 \/ k = 1 \/ k = 2 \/ k = 3) by lia.
  destruct Hk as [-> | [-> | [-> | ->]]]; vm_compute; split; reflexivity.
Qed.

#[local] Opaque fmt_x.

Lemma hex_bytes_shape row :
  length (flat_map (fun c => SP :: fmt_x 2 (code c)) row)
  = (3 * length row)%nat /\
  forallb isprint (flat_map (fun c => SP :: fmt_x 2 (code c)) row) = true.
Proof.
  induction row as [|c row [IH1 IH2]]; [split; reflexivity |].
  destruct (hex2_all c) as [H1 H2].
  cbn [flat_map]. rewrite length_app, forallb_app. cbn [length forallb].
  rewrite H1, H2, IH1, IH2. split; [lia | reflexivity].
Qed.

Lemma hex_pad_shape pad :
  length (concat (repeat (chars "   ") pad)) = (3 * pad)%nat /\
  forallb isprint (concat (repeat (chars "   ") pad)) = true.
Proof.
  induction pad as [|pad [IH1 IH2]]; [split; reflexivity |].
  cbn [repeat concat]. rewrite length_app, forallb_app, IH1, IH2.
  split; [cbn; lia | reflexivity].
Qed.

Lemma text_column_shape row :
  forallb isprint (map mkprint row) = true.
Proof.
  induction row as [|c row IH]; [reflexivity |].
  cbn [map forallb]. rewrite mkprint_printable, IH. reflexivity.
Qed.

Lemma spaces_shape pad : forallb isprint (repeat SP pad) = true.
Proof. induction pad as [|pad IH]; [reflexivity | exact IH]. Qed.

Lemma rows_needed n :
  (0 < n)%nat -> ((n + 15) / 16 = S ((n - 16 + 15) / 16))%nat.
Proof.
  intros H. destruct (Nat.le_gt_cases 16 n) as [Hge|Hlt].
  - replace (n + 15)%nat with ((n - 16 + 15) + 1 * 16)%nat by lia.
    rewrite Nat.div_add by lia. lia.
  - replace (n - 16 + 15)%nat with 15%nat by lia.
    replace (n + 15)%nat with ((n - 1) + 1 * 16)%nat by lia.
    rewrite Nat.div_add by lia. rewrite Nat.div_small by lia. reflexivity.
Qed.

Lemma hexdump_rows_shape fuel : forall k b,
  (length b <= fuel)%nat ->
  0 <= k ->
  16 * k + Z.of_nat (length b) <= 64 ->
  exists rows,
    hexdump_rows fuel (16 * k) b = concat rows /\
    length rows = ((length b + 15) / 16)%nat /\
    Forall dump_row rows.
Proof.
  induction fuel as [|fuel IH]; intros k b Hfuel Hk Hfit.
  - destruct b; [| cbn in Hfuel; lia]. exists []. repeat split; constructor.
  - destruct b as [|c b'].
    + exists []. repeat split; constructor.
    + set (b := c :: b') in *. cbn [hexdump_rows]. fold b.
      assert (Hlen : (0 < length b)%nat) by (cbn; lia).
      destruct (IH (k + 1) (skipn 16 b)) as (rows & Hrows & Hn & Hall).
      { rewrite length_skipn. lia. }
      { lia. }
      { rewrite length_skipn. lia. }
      replace (16 * k + 16) with (16 * (k + 1)) by lia. rewrite Hrows.
      set (row := firstn 16 b).
      assert (Hrow : (length row <= 16)%nat) by apply firstn_le_length.
      set (pad := (16 - length row)%nat).
      destruct (hex4_row k ltac:(lia)) as [X1 X2].
      destruct (hex_bytes_shape row) as [Y1 Y2].
      destruct (hex_pad_shape pad) as [Z1 Z2].
      exists ((fmt_x 4 (16 * k) ++ chars ":"
                 ++ flat_map (fun c => SP :: fmt_x 2 (code c)) row
                 ++ concat (repeat (chars "   ") pad)
                 ++ chars " |" ++ map mkprint row ++ repeat SP pad
                 ++ chars "|" ++ [LF]) :: rows).
      split; [| split].
      * cbn [concat]. rewrite <- !app_assoc. reflexivity.
      * cbn [length]. rewrite Hn, length_skipn. symmetry.
        apply rows_needed, Hlen.
      * constructor; [| exact Hall]. split.
        -- rewrite !length_app, X1, Y1, Z1, length_map, repeat_length.
           cbn [length chars list_ascii_of_string]. unfold pad. lia.
        -- exists (fmt_x 4 (16 * k) ++ chars ":"
                     ++ flat_map (fun c => SP :: fmt_x 2 (code c)) row
                     ++ concat (repeat (chars "   ") pad)
                     ++ chars " |" ++ map mkprint row ++ repeat SP pad
                     ++ chars "|").
           split; [rewrite <- !app_assoc; reflexivity |].
           rewrite !forallb_app, X2, Y2, Z2, text_column_shape, spaces_shape.
           reflexivity.
Qed.

(** X22: the dump of the [len] bytes of a read (at most [BUF_SIZE]) is one
    row for every sixteen bytes or part of them, each row 72 printable
    characters and a newline: unprintable bytes never reach the
    terminal. *)
Theorem hexdump_shape b len s :
  (len <= length b)%nat ->
  (len <= BUF_SIZE)%nat ->
  exists rows,
    pr_hexdump b len s = Ok tt (set_stdout (stdout s ++ concat rows) s) /\
    length rows = ((len + 15) / 16)%nat /\
    Forall dump_row rows.
Proof.
  intros Hb Hlen. unfold BUF_SIZE in Hlen.
  destruct (hexdump_rows_shape len 0 (firstn len b)) as (rows & Hr & Hn & Hall).
  - rewrite length_firstn. lia.
  - lia.
  - rewrite length_firstn. lia.
  - exists rows. rewrite length_firstn, Nat.min_l in Hn by exact Hb.
    split; [| split; assumption].
    unfold pr_hexdump, printf, modify. change (16 * 0) with 0 in Hr.
    rewrite Hr. reflexivity.
Qed.

#[local] Opaque BUF_SIZE chars fmt_d fmt_x hexdump_rows.

(** ** What is never printed, what is never sent *)

(** X23: whatever the device sends and however the wait ends, nothing that
    arrives before the echo is printed, and the wait neither sends nor
    sleeps nor opens anything. *)
Theorem echo_wait_is_silent cfg E fuel fd cmd tv s :
  opt_debug cfg = 0 ->
  stdout (final (main_echo_loop cfg E fuel fd cmd tv s)) = stdout s /\
  sent (final (main_echo_loop cfg E fuel fd cmd tv s)) = sent s /\
  slept (final (main_echo_loop cfg E fuel fd cmd tv s)) = slept s /\
  attempts (final (main_echo_loop cfg E fuel fd cmd tv s)) = attempts s.
Proof.
  intros Hd. pose proof (main_echo_loop_beside cfg E fuel fd cmd tv s) as H.
  unfold beside_echo in H. rewrite Hd in H. cbn [Z.eqb] in H.
  injection H as Ha Hsl Hs _ _ Ho _. auto.
Qed.

(** X24: when the device does not take the whole command, the process
    ends at once, without reading anything: a failed [write] with "Write
    error", a short one with "Short write" and the bytes that did go
    out. *)
Theorem write_failure_is_fatal cfg E fuel words s fd :
  opt_debug cfg = 0 ->
  words <> [] ->
  attempt_ok (opt_force cfg) (opens E (attempts s)) = Some fd ->
  tty_ok E = true ->
  clock_ok cfg E (ticks s) = true ->
  (forall e, wr E = WriteErr e ->
     exists s',
       main cfg E (S fuel) words s = Exited (-1) s' /\
       stderr s' = stderr s ++ chars "Write error: " ++ strerror E e ++ [LF] /\
       sent s' = sent s /\ stdout s' = stdout s /\
       incoming s' = incoming s) /\
  (forall k, wr E = Wrote k ->
     (k < length (fst (join_words words)))%nat ->
     exists s',
       main cfg E (S fuel) words s = Exited (-1) s' /\
       stderr s' = stderr s ++ chars "Short write " ++ fmt_d (Z.of_nat k)
                     ++ chars " < " ++ fmt_d (snd (join_words words)) ++ [LF] /\
       sent s' = sent s ++ firstn k (fst (join_words words)) /\
       stdout s' = stdout s /\
       incoming s' = incoming s).
Proof.
  intros Hdbg Hne Hop Htty Hclk.
  pose proof (join_words_len words Hne) as Hjl.
  unfold main. destruct (join_words words) as [cmd len]. cbn [fst snd] in *.
  destruct (ser_open_ok cfg E fuel (opt_dev cfg) s fd Hop Htty Hclk Hdbg)
    as (s1 & Ho & D1 & B1 & P1 & O1 & E1 & S1 & T1).
  rewrite (bind_eq_Ok _ _ _ _ _ Ho).
  rewrite (bind_eq_Ok _ _ _ _ _ (pr_debug_off cfg _ s1 Hdbg)).
  destruct (reader_view cfg s s1 D1 B1 P1) as [Hin1 _].
  unfold sys_write. split.
  - intros e ->. unfold bind, modify, ret, gets, pr_err, exit. cbn.
    eexists. split; [reflexivity |].
    match goal with
    | |- _ /\ _ /\ _ /\ incoming ?x = _ =>
        destruct (reader_view cfg s1 x) as [Hi' _]; try reflexivity;
        rewrite Hi'
    end.
    cbn [stderr sent stdout set_stderr set_errno].
    rewrite E1, S1, O1, Hin1. auto.
  - intros k -> Hk.
    unfold bind at 1. unfold bind at 1. unfold modify at 1. unfold ret at 1.
    cbv beta iota.
    rewrite Nat.min_l by lia.
    replace (Z.of_nat k <? 0) with false by (symmetry; apply Z.ltb_ge; lia).
    replace (Z.of_nat k <? len) with true by (symmetry; apply Z.ltb_lt; lia).
    unfold bind, modify, pr_err, exit.
    eexists. split; [reflexivity |].
    match goal with
    | |- _ /\ _ /\ _ /\ incoming ?x = _ =>
        destruct (reader_view cfg s1 x) as [Hi' _]; try reflexivity;
        rewrite Hi'
    end.
    cbn [stderr sent stdout set_stderr set_sent].
    rewrite E1, S1, O1, Hin1. auto.
Qed.

(** ** The line buffer *)

(** X25: whenever [ser_readline] returns, the bytes it has stored in
    [line], which are the bytes consumed less the carriage returns, fit
    the buffer together with the NUL that ends them; a line returned is
    those bytes. *)
Theorem line_buffer_never_overflows cfg E fd s r s' :
  ser_readline cfg E fd s = Ok r s' ->
  exists consumed,
    incoming s = consumed ++ incoming s' /\
    Z.of_nat (length (retained consumed)) + 1 <= LINE_SIZE /\
    match r with
    | Some l => l = retained consumed
    | None => True
    end.
Proof.
  intros H. apply ser_readline_sound in H as [_ H].
  pose proof (scan_found (regex_prompt cfg) [] (incoming s)) as Hs.
  rewrite H in Hs. cbn [length app] in Hs.
  destruct r as [l|].
  - destruct Hs as (S0 & Hin & _ & Hlen & _ & ->); [unfold LINE_SIZE; lia |].
    exists (S0 ++ [LF]). rewrite <- app_assoc. cbn [app].
    split; [exact Hin |].
    rewrite retained_snoc by discriminate.
    rewrite length_app in *. cbn [length] in *.
    split; [lia | reflexivity].
  - destruct Hs as (S0 & c & Hin & Hc & _ & Hlen & _); [unfold LINE_SIZE; lia |].
    exists (S0 ++ [c]). rewrite <- app_assoc. cbn [app].
    split; [exact Hin |].
    rewrite retained_snoc by exact Hc.
    rewrite length_app in *. cbn [length] in *.
    split; [lia | exact I].
Qed.

#[local] Transparent BUF_SIZE chars fmt_d fmt_x hexdump_rows.

(** ** Concrete runs of the further properties *)

Lemma deadline_expires_after_budget_witness :
  exists d s1 b s3,
    timeout_init ttyACM0 env_ok tv_unset (initial []) = Ok d s1 /\
    timed_out ttyACM0 env_ok d (set_ticks 5 (initial [])) = Ok b s3 /\
    (b = true <->
     opt_timeout ttyACM0 * 1000
     < usec_of {| tv_sec := 1700000000; tv_usec := 5000 |}
       - usec_of {| tv_sec := 1700000000; tv_usec := 0 |}).
Proof.
  apply (deadline_expires_after_budget ttyACM0 env_ok tv_unset (initial [])
           (set_ticks 5 (initial []))
           {| tv_sec := 1700000000; tv_usec := 0 |}
           {| tv_sec := 1700000000; tv_usec := 5000 |}).
  - reflexivity.
  - vm_compute. discriminate.
  - unfold normalized. cbn. lia.
  - unfold normalized. cbn. lia.
  - cbn. lia.
  - reflexivity.
  - reflexivity.
Defined.

Lemma clock_failure_is_fatal_witness :
  exists s',
    main ttyACM0 (plain_env no_clock free_device) 1 [chars "reset"]
      (initial reset_session) = Exited (-1) s' /\
    stderr s' = stderr (initial reset_session) ++ chars "Failed to get time: "
                  ++ strerror (plain_env no_clock free_device)
                       (clock_errno (plain_env no_clock free_device)
                          (ticks (initial reset_session))) ++ [LF] /\
    errno s' = clock_errno (plain_env no_clock free_device)
                 (ticks (initial reset_session)) /\
    attempts s' = attempts (initial reset_session) /\
    sent s' = sent (initial reset_session) /\
    slept s' = slept (initial reset_session).
Proof.
  apply (clock_failure_is_fatal ttyACM0 (plain_env no_clock free_device) 1
           [chars "reset"] (initial reset_session)).
  - reflexivity.
  - reflexivity.
Defined.

Lemma disabled_timeout_never_reads_clock_witness :
  ticks (final (main (with_timeout 0 ttyACM0) env_ok 1 [chars "reset"]
                  (initial reset_session)))
  = ticks (initial reset_session).
Proof.
  apply (disabled_timeout_never_reads_clock (with_timeout 0 ttyACM0) env_ok 1
           [chars "reset"] (initial reset_session)).
  vm_compute. discriminate.
Defined.

Lemma ser_open_gives_up_on_error_witness :
  exists s',
    ser_open_loop ttyACM0 (plain_env ms_clock unplugged_after_two) 3
      (chars "/dev/ttyACM0") {| tv_sec := 1700000002; tv_usec := 0 |}
      (initial []) = Exited (-1) s' /\
    slept s' = slept (initial []) ++ repeat (RETRY_MS * 1000) 2 /\
    attempts s' = (attempts (initial []) + 2 + 1)%nat /\
    (opt_timeout ttyACM0 <= 0 \/ ticks s' = (ticks (initial []) + 2)%nat) /\
    stderr s' = stderr (initial [])
                  ++ failed_to_open (plain_env ms_clock unplugged_after_two)
                       (chars "/dev/ttyACM0")
                       (attempt_errno
                          (opens (plain_env ms_clock unplugged_after_two)
                             (attempts (initial []) + 2))).
Proof.
  apply (ser_open_gives_up_on_error ttyACM0
           (plain_env ms_clock unplugged_after_two) (chars "/dev/ttyACM0")
           {| tv_sec := 1700000002; tv_usec := 0 |} (initial []) 2 3).
  - vm_compute. reflexivity.
  - vm_compute. reflexivity.
  - lia.
Defined.

Lemma busy_device_without_timeout_witness :
  exists s',
    main (with_timeout 0 ttyACM0) (plain_env ms_clock always_locked) 3
      [chars "reset"] (initial reset_session) = Spinning s' /\
    slept s' = slept (initial reset_session) ++ repeat (RETRY_MS * 1000) 3 /\
    attempts s' = (attempts (initial reset_session) + 3)%nat /\
    sent s' = sent (initial reset_session) /\
    stderr s' = stderr (initial reset_session).
Proof.
  apply (busy_device_without_timeout (with_timeout 0 ttyACM0)
           (plain_env ms_clock always_locked) 3 [chars "reset"]
           (initial reset_session)).
  - vm_compute. discriminate.
  - intros j. reflexivity.
Defined.

Lemma ser_open_returns_locked_witness :
  tty_ok (with_capng (Some EPERM) (plain_env ms_clock locked_twice)) = true /\
  cap_dropped
    (final (ser_open ttyACM0
              (with_capng (Some EPERM) (plain_env ms_clock locked_twice)) 3
              (chars "/dev/ttyACM0") (initial [])))
  = (negb (opt_force ttyACM0)
     && capng_ok (with_capng (Some EPERM) (plain_env ms_clock locked_twice)))
    || cap_dropped (initial []) /\
  exists k fd',
    (k < 3)%nat /\
    attempt_ok (opt_force ttyACM0)
      (opens (with_capng (Some EPERM) (plain_env ms_clock locked_twice))
         (attempts (initial []) + k))
    = Some fd' /\
    3 = Z.of_nat fd' /\
    (forall j, (j < k)%nat ->
               attempt_busy (opt_force ttyACM0)
                 (opens (with_capng (Some EPERM)
                           (plain_env ms_clock locked_twice))
                    (attempts (initial []) + j)) = true) /\
    attempts
      (final (ser_open ttyACM0
                (with_capng (Some EPERM) (plain_env ms_clock locked_twice)) 3
                (chars "/dev/ttyACM0") (initial [])))
    = (attempts (initial []) + S k)%nat /\
    slept
      (final (ser_open ttyACM0
                (with_capng (Some EPERM) (plain_env ms_clock locked_twice)) 3
                (chars "/dev/ttyACM0") (initial [])))
    = slept (initial []) ++ repeat (RETRY_MS * 1000) k.
Proof.
  apply (ser_open_returns_locked ttyACM0
           (with_capng (Some EPERM) (plain_env ms_clock locked_twice)) 3
           (chars "/dev/ttyACM0") (initial []) 3).
  vm_compute. reflexivity.
Defined.

Lemma ser_getc_within_buffer_witness :
  (exists p,
      pos (final (ser_getc ttyACM0 env_ok 3 (initial reset_session))) = S p /\
      (p < length (buf (final (ser_getc ttyACM0 env_ok 3
                                 (initial reset_session)))))%nat /\
      nth_error (buf (final (ser_getc ttyACM0 env_ok 3
                               (initial reset_session)))) p
      = Some "r"%char) /\
  ((length (buf (initial reset_session)) <= BUF_SIZE)%nat ->
   (length (buf (final (ser_getc ttyACM0 env_ok 3 (initial reset_session))))
    <= BUF_SIZE)%nat).
Proof.
  apply (ser_getc_within_buffer ttyACM0 env_ok 3 (initial reset_session)).
  vm_compute. reflexivity.
Defined.

Lemma ser_getc_in_order_witness :
  exists s',
    ser_getc_n ttyACM0 env_ok 7 3 (initial reset_session)
    = Ok (chars "reset" ++ [LF] ++ chars "O") s' /\
    incoming s' = chars "K" ++ [LF] ++ chars "mcu> ".
Proof.
  apply (proj2 (ser_getc_in_order ttyACM0 env_ok 3 7 (initial reset_session))).
  - vm_compute. reflexivity.
  - vm_compute. reflexivity.
  - vm_compute. reflexivity.
Defined.

Lemma unterminated_line_is_lost_witness :
  runs_dry ttyACM0 (initial [Burst 0 (chars "par")])
    (ser_readline ttyACM0 env_ok 3 (initial [Burst 0 (chars "par")])) /\
  runs_dry ttyACM0 (initial [Burst 0 (chars "par")])
    (main_response_loop ttyACM0 env_ok 1 3 tv_unset
       (initial [Burst 0 (chars "par")])) /\
  (opt_debug ttyACM0 = 0 ->
   stdout (final (main_response_loop ttyACM0 env_ok 1 3 tv_unset
                    (initial [Burst 0 (chars "par")])))
   = stdout (initial [Burst 0 (chars "par")])).
Proof.
  apply (unterminated_line_is_lost ttyACM0 env_ok 3 tv_unset 0
           (initial [Burst 0 (chars "par")])).
  - vm_compute. reflexivity.
  - vm_compute. reflexivity.
  - vm_compute. reflexivity.
  - vm_compute. discriminate.
Defined.

Lemma nul_hides_rest_of_line_witness :
  exists s',
    ser_readline ttyACM0 env_ok 3
      (initial [Burst 0 (chars "ab" ++ NUL :: chars "mcu> " ++ LF :: [])])
    = Ok (Some (line_of (chars "ab" ++ NUL :: chars "mcu> "))) s' /\
    incoming s' = [] /\
    cstr (line_of (chars "ab" ++ NUL :: chars "mcu> "))
    = cstr (retained (chars "ab")) /\
    forall cmd, strstr (line_of (chars "ab" ++ NUL :: chars "mcu> ")) cmd
                = strstr (retained (chars "ab")) cmd.
Proof.
  apply (nul_hides_rest_of_line ttyACM0 env_ok 3
           (initial [Burst 0 (chars "ab" ++ NUL :: chars "mcu> " ++ LF :: [])])
           (chars "ab") (chars "mcu> ") []).
  - vm_compute. reflexivity.
  - vm_compute. reflexivity.
  - vm_compute. reflexivity.
  - vm_compute. reflexivity.
  - vm_compute. reflexivity.
  - vm_compute. reflexivity.
Defined.

Lemma join_words_fits_witness :
  Z.of_nat (length (fst (join_words [chars "help"; chars "me"])))
  = snd (join_words [chars "help"; chars "me"]).
Proof.
  apply (proj1 (join_words_fits [chars "help"; chars "me"])).
  discriminate.
Defined.

Lemma echo_found_after_noise_witness :
  exists s',
    main_echo_loop ttyACM0 env_ok 2 3 (chars "reset" ++ [LF])
      {| tv_sec := 1700000002; tv_usec := 0 |}
      (initial [Burst 0 (wire [chars "boot"] ++ chars "reset"
                           ++ LF :: chars "OK" ++ [LF])])
    = Ok tt s' /\
    stdout s' = stdout (initial [Burst 0 (wire [chars "boot"] ++ chars "reset"
                                            ++ LF :: chars "OK" ++ [LF])]) /\
    stderr s' = stderr (initial [Burst 0 (wire [chars "boot"] ++ chars "reset"
                                            ++ LF :: chars "OK" ++ [LF])]) /\
    incoming s' = chars "OK" ++ [LF].
Proof.
  apply (echo_found_after_noise ttyACM0 env_ok 3 (chars "reset" ++ [LF])
           {| tv_sec := 1700000002; tv_usec := 0 |}
           (initial [Burst 0 (wire [chars "boot"] ++ chars "reset"
                                ++ LF :: chars "OK" ++ [LF])])
           [chars "boot"] (chars "reset") (chars "OK" ++ [LF]) 2).
  - reflexivity.
  - vm_compute. reflexivity.
  - vm_compute. reflexivity.
  - vm_compute. reflexivity.
  - vm_compute. reflexivity.
  - vm_compute. reflexivity.
  - vm_compute. discriminate.
  - cbn. lia.
Defined.

Lemma echo_missing_before_prompt_witness :
  exists s',
    main_echo_loop ttyACM0 env_ok 2 3 (chars "reset" ++ [LF])
      {| tv_sec := 1700000002; tv_usec := 0 |}
      (initial [Burst 0 (wire [chars "boot"] ++ chars "mcu>"
                           ++ " "%char :: [])])
    = Exited (-1) s' /\
    stdout s' = stdout (initial [Burst 0 (wire [chars "boot"] ++ chars "mcu>"
                                            ++ " "%char :: [])]) /\
    stderr s' = stderr (initial [Burst 0 (wire [chars "boot"] ++ chars "mcu>"
                                            ++ " "%char :: [])])
                  ++ chars "Command echo not found" ++ [LF].
Proof.
  apply (echo_missing_before_prompt ttyACM0 env_ok 3 (chars "reset" ++ [LF])
           {| tv_sec := 1700000002; tv_usec := 0 |}
           (initial [Burst 0 (wire [chars "boot"] ++ chars "mcu>"
                                ++ " "%char :: [])])
           [chars "boot"] (chars "mcu>") " "%char [] 2).
  - reflexivity.
  - vm_compute. reflexivity.
  - vm_compute. reflexivity.
  - vm_compute. reflexivity.
  - vm_compute. reflexivity.
  - discriminate.
  - vm_compute. reflexivity.
  - vm_compute. reflexivity.
  - vm_compute. reflexivity.
  - vm_compute. reflexivity.
  - cbn. lia.
Defined.

Lemma response_printed_until_prompt_witness :
  exists s',
    main_response_loop ttyACM0 env_ok 3 3
      {| tv_sec := 1700000002; tv_usec := 0 |}
      (initial [Burst 0 (wire [chars "OK"; chars "done"] ++ chars "mcu>"
                           ++ " "%char :: chars "x")])
    = Ok tt s' /\
    stdout s' = stdout (initial [Burst 0 (wire [chars "OK"; chars "done"]
                                            ++ chars "mcu>"
                                            ++ " "%char :: chars "x")])
                  ++ printed [chars "OK"; chars "done"] /\
    stderr s' = stderr (initial [Burst 0 (wire [chars "OK"; chars "done"]
                                            ++ chars "mcu>"
                                            ++ " "%char :: chars "x")]) /\
    incoming s' = chars "x".
Proof.
  apply (response_printed_until_prompt ttyACM0 env_ok 3
           {| tv_sec := 1700000002; tv_usec := 0 |}
           (initial [Burst 0 (wire [chars "OK"; chars "done"] ++ chars "mcu>"
                                ++ " "%char :: chars "x")])
           [chars "OK"; chars "done"] (chars "mcu>") " "%char (chars "x") 3).
  - reflexivity.
  - vm_compute. reflexivity.
  - vm_compute. reflexivity.
  - vm_compute. reflexivity.
  - vm_compute. reflexivity.
  - discriminate.
  - vm_compute. reflexivity.
  - vm_compute. reflexivity.
  - vm_compute. reflexivity.
  - vm_compute. reflexivity.
  - cbn. lia.
Defined.

Lemma response_cut_at_deadline_witness :
  exists s',
    main_response_loop ttyACM0 (plain_env s_clock free_device) 2 3
      {| tv_sec := 1700000000; tv_usec := 500000 |}
      (initial [Burst 0 (wire [chars "OK"] ++ chars "done"
                           ++ LF :: chars "mcu> ")])
    = Exited (-1) s' /\
    stdout s' = stdout (initial [Burst 0 (wire [chars "OK"] ++ chars "done"
                                            ++ LF :: chars "mcu> ")])
                  ++ printed [chars "OK"] /\
    stderr s' = stderr (initial [Burst 0 (wire [chars "OK"] ++ chars "done"
                                            ++ LF :: chars "mcu> ")])
                  ++ chars "Response too long" ++ [LF] /\
    incoming s' = chars "mcu> ".
Proof.
  apply (response_cut_at_deadline ttyACM0 (plain_env s_clock free_device) 3
           {| tv_sec := 1700000000; tv_usec := 500000 |}
           (initial [Burst 0 (wire [chars "OK"] ++ chars "done"
                                ++ LF :: chars "mcu> ")])
           [chars "OK"] (chars "done") (chars "mcu> ") 2).
  - reflexivity.
  - vm_compute. reflexivity.
  - vm_compute. reflexivity.
  - vm_compute. reflexivity.
  - vm_compute. reflexivity.
  - vm_compute. reflexivity.
  - vm_compute. reflexivity.
  - cbn. lia.
Defined.

Lemma echo_wait_is_silent_witness :
  stdout (final (main_echo_loop ttyACM0 env_ok 9 3 (chars "reset" ++ [LF])
                   tv_unset (initial chatty_session)))
  = stdout (initial chatty_session) /\
  sent (final (main_echo_loop ttyACM0 env_ok 9 3 (chars "reset" ++ [LF])
                 tv_unset (initial chatty_session)))
  = sent (initial chatty_session) /\
  slept (final (main_echo_loop ttyACM0 env_ok 9 3 (chars "reset" ++ [LF])
                  tv_unset (initial chatty_session)))
  = slept (initial chatty_session) /\
  attempts (final (main_echo_loop ttyACM0 env_ok 9 3 (chars "reset" ++ [LF])
                     tv_unset (initial chatty_session)))
  = attempts (initial chatty_session).
Proof.
  apply (echo_wait_is_silent ttyACM0 env_ok 9 3 (chars "reset" ++ [LF])
           tv_unset (initial chatty_session)).
  reflexivity.
Defined.

Lemma main_verdict_witness :
  match main ttyACM0 env_ok 1 [chars "reset"] (initial chatty_session) with
  | Ok _ _ => False
  | Exited st s' =>
      (st = 0 /\ stderr s' = stderr (initial chatty_session) /\
       closed s' = true /\
       sent s' = sent (initial chatty_session)
                 ++ fst (join_words [chars "reset"])) \/
      (st = -1 /\ complained (initial chatty_session) s' /\
       closed s' = closed (initial chatty_session) /\
       exists n, sent s' = sent (initial chatty_session)
                           ++ firstn n (fst (join_words [chars "reset"])))
  | Blocked s' =>
      stderr s' = stderr (initial chatty_session) /\
      closed s' = closed (initial chatty_session) /\
      sent s' = sent (initial chatty_session)
                ++ fst (join_words [chars "reset"])
  | Spinning s' =>
      stderr s' = stderr (initial chatty_session) /\
      closed s' = closed (initial chatty_session) /\
      sent s' = sent (initial chatty_session)
  end.
Proof.
  apply (main_verdict ttyACM0 env_ok 1 [chars "reset"]
           (initial chatty_session)).
  discriminate.
Defined.

Lemma session_round_trip_witness :
  exists s',
    main ttyACM0 env_ok 1 [chars "reset"] (initial chatty_session)
    = Exited 0 s' /\
    stdout s' = printed [chars "OK"; chars "done"] /\
    stderr s' = [] /\
    sent s' = fst (join_words [chars "reset"]) /\
    incoming s' = [].
Proof.
  apply (session_round_trip ttyACM0 env_ok chatty_session 3 4096 0
           [chars "reset"] [chars "boot"] (chars "reset")
           [chars "OK"; chars "done"] (chars "mcu>") " "%char []).
  - reflexivity.
  - discriminate.
  - vm_compute. reflexivity.
  - vm_compute. reflexivity.
  - vm_compute. reflexivity.
  - vm_compute. reflexivity.
  - vm_compute. discriminate.
  - vm_compute. reflexivity.
  - discriminate.
  - vm_compute. reflexivity.
  - vm_compute. reflexivity.
  - vm_compute. reflexivity.
  - vm_compute. reflexivity.
  - vm_compute. reflexivity.
  - vm_compute. reflexivity.
  - reflexivity.
  - vm_compute. lia.
  - vm_compute. reflexivity.
Defined.

Lemma startup_accepts_witness :
  main_startup plain_libc
    (flat_map render [ODebug false; ODevice false (chars "/dev/ttyACM0");
                      OTimeout true (chars "500")]
       ++ [] ++ chars "reset" :: [chars "now"])
    (initial [])
  = Ok ({| opt_dev := chars "/dev/ttyACM0";
           opt_timeout :=
             timeout_choice plain_libc
               [ODebug false; ODevice false (chars "/dev/ttyACM0");
                OTimeout true (chars "500")];
           opt_debug :=
             Z.of_nat (length (filter is_debug
                                 [ODebug false;
                                  ODevice false (chars "/dev/ttyACM0");
                                  OTimeout true (chars "500")]));
           opt_force :=
             existsb is_force
               [ODebug false; ODevice false (chars "/dev/ttyACM0");
                OTimeout true (chars "500")];
           regex_prompt := DEFAULT_PROMPT |}, chars "reset" :: [chars "now"])
       (initial []).
Proof.
  apply (startup_accepts plain_libc
           [ODebug false; ODevice false (chars "/dev/ttyACM0");
            OTimeout true (chars "500")]
           [] (chars "reset") [chars "now"] (chars "/dev/ttyACM0")
           DEFAULT_PROMPT (initial [])).
  - vm_compute. reflexivity.
  - vm_compute. reflexivity.
  - vm_compute. reflexivity.
  - vm_compute. discriminate.
Defined.

Lemma startup_rejects_witness :
  main_startup plain_libc
    (flat_map render [OForce true] ++ [chars "--timeout"]) (initial [])
  = Exited 1 (usage_shown plain_libc (initial [])).
Proof.
  apply (startup_rejects plain_libc
           (flat_map render [OForce true] ++ [chars "--timeout"]) (initial [])).
  apply (value_missing plain_libc [OForce true] (chars "--timeout")).
  vm_compute. reflexivity.
Defined.

Lemma hexdump_shape_witness :
  exists rows,
    pr_hexdump (chars "0123456789abcdefXYZ") 19 (initial [])
    = Ok tt (set_stdout (stdout (initial []) ++ concat rows) (initial [])) /\
    length rows = ((19 + 15) / 16)%nat /\
    Forall dump_row rows.
Proof.
  apply (hexdump_shape (chars "0123456789abcdefXYZ") 19 (initial [])).
  - vm_compute. lia.
  - vm_compute. lia.
Defined.

Lemma write_failure_is_fatal_witness :
  exists s',
    main ttyACM0 (with_wr (Wrote 3) env_ok) 1 [chars "reset"]
      (initial reset_session) = Exited (-1) s' /\
    stderr s' = stderr (initial reset_session) ++ chars "Short write "
                  ++ fmt_d (Z.of_nat 3) ++ chars " < "
                  ++ fmt_d (snd (join_words [chars "reset"])) ++ [LF] /\
    sent s' = sent (initial reset_session)
              ++ firstn 3 (fst (join_words [chars "reset"])) /\
    stdout s' = stdout (initial reset_session) /\
    incoming s' = incoming (initial reset_session).
Proof.
  apply (proj2 (write_failure_is_fatal ttyACM0 (with_wr (Wrote 3) env_ok) 0
                  [chars "reset"] (initial reset_session) 3%nat
                  eq_refl ltac:(discriminate) eq_refl eq_refl eq_refl)).
  - reflexivity.
  - vm_compute. lia.
Defined.

Lemma line_buffer_never_overflows_witness :
  exists consumed,
    incoming (initial reset_session)
    = consumed ++ incoming (final (ser_readline ttyACM0 env_ok 3
                                      (initial reset_session))) /\
    Z.of_nat (length (retained consumed)) + 1 <= LINE_SIZE /\
    match Some (chars "reset" ++ [LF]) with
    | Some l => l = retained consumed
    | None => True
    end.
Proof.
  apply (line_buffer_never_overflows ttyACM0 env_ok 3 (initial reset_session)
           (Some (chars "reset" ++ [LF]))
           (final (ser_readline ttyACM0 env_ok 3 (initial reset_session)))).
  vm_compute. reflexivity.
Defined.
